(** * Habit tracker: progress, streak, badges, persistence and CSV export

    A shallow embedding of the logic of the [HabitTracker] React component
    (the habit catalog, the day store kept in local storage, the progress and
    streak calculators, the badge evaluator, the clear / reset actions and the
    CSV export), together with the properties its specification states.

    Modelling conventions.
    - A JavaScript object used as a record of string keys ([byDate],
      [checks]) is the list of its own enumerable entries, in the order
      [Object.entries] yields them.  Keys of an object are pairwise
      distinct ([ownKeysDistinct]); lemmas that need it say so.
    - The [Map<string, number>] built by [getCountsForDate] is a
      [gmap string nat].
    - A [Date] is its time value, the milliseconds since the epoch (a
      [Z]).  [toISOString] prints it in UTC; [getDate] and [setDate] work
      in the host's local time, which enters as the function [LocalTZA]
      of ECMAScript.
    - Code that can throw returns [option] or [outcome]. *)

From Stdlib Require Import ZArith Ascii String List Bool Lia Permutation.
From stdpp Require Import base option strings gmap.
Import ListNotations.

Local Open Scope string_scope.
Local Open Scope list_scope.

(* ================================================================== *)
(** * JavaScript objects with string keys *)
(* ================================================================== *)

Module JSObj.

Section Obj.
Context {V : Type}.

(** An object is the list [list (string * V)] of its own enumerable
    entries, in enumeration order.  JavaScript enumerates keys that are
    array indices first; the keys of this program (an ISO date,
    [habitId.itemId]) are not, so a new key goes last.  Properties
    inherited from [Object.prototype] are not modelled. *)

(** [Object.keys o], [Object.values o]. *)
Definition keys (o : list (string * V)) : list string := List.map fst o.
Definition values (o : list (string * V)) : list V := List.map snd o.

(** [o[k]]: [None] stands for [undefined]. *)
Fixpoint get (k : string) (o : list (string * V)) : option V :=
  match o with
  | [] => None
  | (k', v) :: o' => if String.eqb k' k then Some v else get k o'
  end.

(** [k in o]. *)
Definition has (k : string) (o : list (string * V)) : bool :=
  List.existsb (String.eqb k) (keys o).

(** [{ ...o, [k]: v }]: an existing key keeps its place, a new key goes
    last. *)
Fixpoint set (k : string) (v : V) (o : list (string * V)) : list (string * V) :=
  match o with
  | [] => [(k, v)]
  | (k', v') :: o' =>
      if String.eqb k' k then (k', v) :: o' else (k', v') :: set k v o'
  end.

(** [delete o[k]]. *)
Definition delete (k : string) (o : list (string * V)) : list (string * V) :=
  List.filter (fun e => negb (String.eqb (fst e) k)) o.

(** No key occurs twice. *)
Definition ownKeysDistinct (o : list (string * V)) : Prop := List.NoDup (keys o).
End Obj.

End JSObj.

(* ================================================================== *)
(** * Config *)
(* ================================================================== *)

Module Item.
Record t := { id : string; label : string }.
End Item.

Module Habit.
Record t := {
  id : string;
  label : string;
  icon : string;
  items : list Item.t;
  dailyGoal : nat
}.
End Habit.

Definition smoking : Habit.t :=
  {| Habit.id := "smoking"; Habit.label := "Smoking"; Habit.icon := "🚭";
     Habit.items :=
       [ {| Item.id := "smoke_free"; Item.label := "Smoke-free today" |};
         {| Item.id := "mindful_breaks";
            Item.label := "Mindful breaks only (no cigarettes)" |} ];
     Habit.dailyGoal := 1 |}.

Definition eating : Habit.t :=
  {| Habit.id := "eating"; Habit.label := "Eating"; Habit.icon := "🥗";
     Habit.items :=
       [ {| Item.id := "home_cooked"; Item.label := "Home-cooked meal" |};
         {| Item.id := "fruits_veggies";
            Item.label := "5+ servings fruits/veggies" |};
         {| Item.id := "no_sugar"; Item.label := "No sugary snacks" |} ];
     Habit.dailyGoal := 2 |}.

Definition exercise : Habit.t :=
  {| Habit.id := "exercise"; Habit.label := "Exercise"; Habit.icon := "💪";
     Habit.items :=
       [ {| Item.id := "workout_30"; Item.label := "Workout 30+ min" |};
         {| Item.id := "walk_8k"; Item.label := "Walk 8k steps" |};
         {| Item.id := "stretch_10"; Item.label := "Stretch 10 min" |} ];
     Habit.dailyGoal := 2 |}.

Definition HABITS : list Habit.t := [smoking; eating; exercise].

Definition POINTS_PER_ITEM : nat := 10.

Module Badge.
Record t := {
  id : string;
  label : string;
  threshold : nat;
  emoji : string
}.
End Badge.

Definition BADGES : list Badge.t :=
  [ {| Badge.id := "bronze_3"; Badge.label := "Bronze: 3-day streak";
       Badge.threshold := 3; Badge.emoji := "🥉" |};
    {| Badge.id := "silver_7"; Badge.label := "Silver: 7-day streak";
       Badge.threshold := 7; Badge.emoji := "🥈" |};
    {| Badge.id := "gold_14"; Badge.label := "Gold: 14-day streak";
       Badge.threshold := 14; Badge.emoji := "🥇" |};
    {| Badge.id := "diamond_30"; Badge.label := "Diamond: 30-day streak";
       Badge.threshold := 30; Badge.emoji := "💎" |} ].

(* ================================================================== *)
(** * Storage shapes *)
(* ================================================================== *)

(** [type DailyState = Record<string, boolean>], keyed by
    [habitId.itemId]. *)
Definition DailyState := list (string * bool).

Record DayRecord := { date : string; checks : DailyState }.

Record StoreShape := { byDate : list (string * DayRecord) }.

(** [{ byDate: {} }] *)
Definition emptyStore : StoreShape := {| byDate := [] |}.

(* ================================================================== *)
(** * Utils: dates *)
(* ================================================================== *)

(** The time value of a [Date]: milliseconds since 1970-01-01T00:00Z.
    ECMAScript time values range over 100,000,000 days on either side of
    the epoch; a number outside that range stands for an invalid date
    ([NaN]). *)
Definition Date := Z.

Definition msPerDay : Z := 86400000.
Definition MAX_TIME : Z := 8640000000000000.

Definition validDate (d : Date) : bool :=
  (- MAX_TIME <=? d)%Z && (d <=? MAX_TIME)%Z.

(** [new Date("YYYY-MM-DD")]: a date-only string is UTC midnight of that
    day; [day] counts days from 1970-01-01. *)
Definition utcMidnight (day : Z) : Date := (day * msPerDay)%Z.

(** Year, month (1..12) and day of month (1..31) of a day number in the
    proleptic Gregorian calendar, as [toISOString] prints them. *)
Definition civilFromDays (d : Z) : Z * Z * Z :=
  let z := (d + 719468)%Z in
  let era := (z / 146097)%Z in
  let doe := (z - era * 146097)%Z in
  let yoe := ((doe - doe / 1460 + doe / 36524 - doe / 146096) / 365)%Z in
  let doy := (doe - (365 * yoe + yoe / 4 - yoe / 100))%Z in
  let mp := ((5 * doy + 2) / 153)%Z in
  let dd := (doy - (153 * mp + 2) / 5 + 1)%Z in
  let m := (if (mp <? 10)%Z then mp + 3 else mp - 9)%Z in
  let y := (yoe + era * 400 + (if (m <=? 2)%Z then 1 else 0))%Z in
  (y, m, dd).

(** The decimal digit [z mod 10] as a character. *)
Definition digitChar (z : Z) : ascii :=
  ascii_of_N (Z.to_N (48 + z mod 10)).

Definition pad2 (z : Z) : string :=
  String (digitChar (z / 10)) (String (digitChar z) "").
Definition pad3 (z : Z) : string :=
  String (digitChar (z / 100)) (pad2 z).
Definition pad4 (z : Z) : string :=
  String (digitChar (z / 1000)) (String (digitChar (z / 100)) (pad2 z)).
Definition pad6 (z : Z) : string :=
  String (digitChar (z / 100000)) (String (digitChar (z / 10000)) (pad4 z)).

(** Years 0..9999 print with four digits, all others with a sign and six
    digits. *)
Definition isoYear (y : Z) : string :=
  if (0 <=? y)%Z && (y <=? 9999)%Z then pad4 y
  else (if (y <? 0)%Z then "-" else "+") ++ pad6 (Z.abs y).

Definition isoDate (y m dd : Z) (rest : string) : string :=
  isoYear y ++ "-" ++ pad2 m ++ "-" ++ pad2 dd ++ rest.

(** The time of day [THH:mm:ss.sssZ] of a number of milliseconds. *)
Definition isoTime (ms : Z) : string :=
  "T" ++ pad2 (ms / 3600000) ++ ":" ++ pad2 (ms / 60000 mod 60) ++ ":" ++
  pad2 (ms / 1000 mod 60) ++ "." ++ pad3 ms ++ "Z".

(** [d.toISOString()] for a valid date: always in UTC. *)
Definition toISOString (d : Date) : string :=
  let '(y, m, dd) := civilFromDays (d / msPerDay) in
  isoDate y m dd (isoTime (d mod msPerDay)).

(** Day number of a calendar date: the inverse of [civilFromDays], used
    only to reason about [keyFor]. *)
Definition daysFromCivil (y m dd : Z) : Z :=
  let y' := (if (m <=? 2)%Z then y - 1 else y)%Z in
  let era := (y' / 400)%Z in
  let yoe := (y' - era * 400)%Z in
  let mp := (if (2 <? m)%Z then m - 3 else m + 9)%Z in
  let doy := ((153 * mp + 2) / 5 + dd - 1)%Z in
  let doe := (yoe * 365 + yoe / 4 - yoe / 100 + doy)%Z in
  (era * 146097 + doe - 719468)%Z.

(** [todayKey] and [keyFor]: [d.toISOString().slice(0, 10)];
    [toISOString] throws a [RangeError] on an invalid date ([None]). *)
Definition keyFor (d : Date) : option string :=
  if validDate d then Some (String.substring 0 10 (toISOString d)) else None.

(** [prevDate d days]: [x.setDate(x.getDate() - days)] on a copy [x] of
    [d].  [getDate] and [setDate] work in local time: with
    [LocalTZA t isUTC] the host's offset of local time from UTC in
    milliseconds (at the UTC time [t], or at the local time [t] when
    [isUTC] is false), the local time [d + LocalTZA d true] is moved back by
    whole days and converted back with the offset in force at the new
    local time.  An invalid date stays invalid. *)
Definition prevDate (LocalTZA : Z -> bool -> Z) (d : Date) (days : Z) : Date :=
  if validDate d then
    let t := (d + LocalTZA d true)%Z in
    let newDate := (t - days * msPerDay)%Z in
    (newDate - LocalTZA newDate false)%Z
  else d.

(** Hosts: UTC; Central European Time around the end of summer time on
    2024-10-27 at 01:00 UTC (03:00 local time), when the offset drops from
    two hours to one.  [tzBerlin] holds this one change only: it is the
    offset of Europe/Berlin for the times between the changes before and
    after it, from 2024-03-31 to 2025-03-30. *)
Definition tzUTC (t : Z) (isUTC : bool) : Z := 0.

Definition tzBerlin (t : Z) (isUTC : bool) : Z :=
  let change := (if isUTC then 1729990800000 else 1729998000000)%Z in
  (if (t <? change)%Z then 7200000 else 3600000)%Z.

(** Samoa around its move across the date line: at 2011-12-30 10:00 UTC
    local time jumped from the end of 29 December (ten hours behind UTC) to
    the start of 31 December (fourteen hours ahead).  Local times on the
    skipped 30 December are read with the offset in force before the
    change, as ECMAScript prescribes. *)
Definition tzApia (t : Z) (isUTC : bool) : Z :=
  let change := (if isUTC then 1325239200000 else 1325289600000)%Z in
  (if (t <? change)%Z then -36000000 else 50400000)%Z.

(* ================================================================== *)
(** * Utils: strings and arrays *)
(* ================================================================== *)

(** [s.split(sep)] for a one-character separator: never empty. *)
Fixpoint split (sep : ascii) (s : string) : list string :=
  match s with
  | EmptyString => [""]
  | String c s' =>
      if Ascii.eqb c sep then "" :: split sep s'
      else match split sep s' with
           | [] => [String c ""]
           | w :: ws => String c w :: ws
           end
  end.

(** [cells.join(sep)]; an [undefined] cell ([None]) prints as the empty
    string. *)
Definition cellText (c : option string) : string := default "" c.

Fixpoint join (sep : string) (cells : list (option string)) : string :=
  match cells with
  | [] => ""
  | [c] => cellText c
  | c :: rest => cellText c ++ sep ++ join sep rest
  end.

(** The template literal [`${habitId}.${itemId}`]. *)
Definition checkKey (habitId itemId : string) : string :=
  habitId ++ "." ++ itemId.

(* ================================================================== *)
(** * Storage: loadStore *)
(* ================================================================== *)

Definition STORAGE_KEY : string := "habit-tracker-v1".

(** Values [JSON.parse] can return.  Numbers matter below only through
    their truthiness, so integers stand for them. *)
#[warnings="-register-all"] Inductive JSValue :=
| JNull
| JBool (b : bool)
| JNumber (n : Z)
| JString (s : string)
| JArray (xs : list JSValue)
| JObject (fields : list (string * JSValue)).

(** Truthiness of a value, and of [undefined] ([None]). *)
Definition truthy (v : option JSValue) : bool :=
  match v with
  | None => false
  | Some JNull => false
  | Some (JBool b) => b
  | Some (JNumber n) => negb (n =? 0)%Z
  | Some (JString s) => negb (String.eqb s "")
  | Some (JArray _) => true
  | Some (JObject _) => true
  end.

(** [parsed?.byDate]: a property read; only objects have own properties
    named [byDate]. *)
Definition optByDate (parsed : JSValue) : option JSValue :=
  match parsed with
  | JObject fields => JSObj.get "byDate" fields
  | _ => None
  end.

(** What [localStorage.getItem(STORAGE_KEY)] can do: throw, return [null],
    or return the stored text. *)
Inductive StorageRead :=
| ReadThrows
| ReadNull
| ReadValue (raw : string).

(** The JSON image of a store, as [saveStore] writes it. *)
Definition dayToJS (rec : DayRecord) : JSValue :=
  JObject [ ("date", JString (date rec));
            ("checks", JObject (List.map (fun e => (fst e, JBool (snd e))) (checks rec))) ].

Definition storeToJS (s : StoreShape) : JSValue :=
  JObject [ ("byDate", JObject (List.map (fun e => (fst e, dayToJS (snd e))) (byDate s))) ].

(** What a computation that may throw produces. *)
Inductive outcome (A : Type) :=
| Returns (a : A)
| Throws.
Arguments Returns {A} a.
Arguments Throws {A}.

Section Storage.
(** [JSON.parse]: [None] when it throws a [SyntaxError]. *)
Variable JSON_parse : string -> option JSValue.
(** [JSON.stringify], and [localStorage.setItem], which throws when the
    storage is full or disabled. *)
Variable JSON_stringify : JSValue -> string.
Variable setItem : string -> string -> outcome unit.

Definition loadStore (stored : StorageRead) : JSValue :=
  match stored with
  | ReadThrows => storeToJS emptyStore                 (* catch *)
  | ReadNull => storeToJS emptyStore                   (* !raw *)
  | ReadValue raw =>
      if String.eqb raw "" then storeToJS emptyStore   (* !raw *)
      else match JSON_parse raw with
           | None => storeToJS emptyStore              (* catch *)
           | Some parsed =>
               if truthy (optByDate parsed) then parsed
               else storeToJS emptyStore
           end
  end.

(** [saveStore]: no [try] around the write. *)
Definition saveStore (s : StoreShape) : outcome unit :=
  setItem STORAGE_KEY (JSON_stringify (storeToJS s)).
End Storage.

(* ================================================================== *)
(** * CSV export *)
(* ================================================================== *)

Definition csvHeader : string :=
  join "," [Some "date"; Some "habitId"; Some "itemId"; Some "checked"].

(** The row pushed for one entry of [day.checks]. *)
Definition entryRow (day : DayRecord) (e : string * bool) : string :=
  let parts := split "."%char (fst e) in
  join "," [ Some (date day); nth_error parts 0; nth_error parts 1;
             Some (if snd e then "1" else "0") ].

(** The rows pushed for the catalog items missing from [day.checks]. *)
Definition missingRows (day : DayRecord) : list string :=
  List.flat_map (fun h =>
    List.flat_map (fun it =>
      let k := checkKey (Habit.id h) (Item.id it) in
      if negb (JSObj.has k (checks day))
      then [ join "," [Some (date day); Some (Habit.id h); Some (Item.id it); Some "0"] ]
      else [])
      (Habit.items h))
    HABITS.

Definition dayRows (day : DayRecord) : list string :=
  List.map (entryRow day) (checks day) ++ missingRows day.

(** The [rows] array of [exportCSV]. *)
Definition exportRows (byDate : list (string * DayRecord)) : list string :=
  csvHeader :: List.flat_map dayRows (JSObj.values byDate).

(** The text of the downloaded file: [rows.join("\n")]. *)
Definition exportCSV (byDate : list (string * DayRecord)) : string :=
  join (String (ascii_of_nat 10) "") (List.map Some (exportRows byDate)).

(* ================================================================== *)
(** * Component *)
(* ================================================================== *)

Module Counts.
Record t := { perHabit : gmap string nat; total : nat }.
End Counts.

Module Progress.
Record t := { done : nat; total : nat; pct : nat; goalMet : bool }.
End Progress.

(** [Math.round((done / len) * 100)]: the integer nearest to
    [100 * done / len], halves rounded up.  The catalog has [len] 2 or 3;
    there the floating-point quotient rounds to the same integer whenever
    the result is below 100, and is at least 100 exactly when
    [len <= done]. *)
Definition roundPercent (done len : nat) : nat :=
  (2 * (100 * done) + len) / (2 * len).

Section Component.
(** The host's time zone, and the component state: [store] and
    [selectedDate]. *)
Variable LocalTZA : Z -> bool -> Z.
Variable store : StoreShape.

(** [store.byDate[selectedDate] || { date: selectedDate, checks: {} }] *)
Definition day (selectedDate : string) : DayRecord :=
  match JSObj.get selectedDate (byDate store) with
  | Some rec => rec
  | None => {| date := selectedDate; checks := [] |}
  end.

(** One iteration of the [forEach] of [getCountsForDate]. *)
Definition countEntry (acc : Counts.t) (e : string * bool) : Counts.t :=
  let '(k, v) := e in
  if negb v then acc
  else
    let habitId := hd "" (split "."%char k) in
    {| Counts.perHabit :=
         <[habitId := default 0 (Counts.perHabit acc !! habitId) + 1]>
           (Counts.perHabit acc);
       Counts.total := Counts.total acc + 1 |}.

Definition getCountsForDate (dateKey : string) : Counts.t :=
  match JSObj.get dateKey (byDate store) with
  | None => {| Counts.perHabit := ∅; Counts.total := 0 |}
  | Some rec =>
      List.fold_left countEntry (checks rec)
        {| Counts.perHabit := ∅; Counts.total := 0 |}
  end.

(** [progressForHabit]; [None] is the [TypeError] raised when [habitId] is
    not in the catalog ([cfg] is [undefined]). *)
Definition progressForHabit (selectedDate habitId : string) : option Progress.t :=
  let perHabit := Counts.perHabit (getCountsForDate selectedDate) in
  let done := default 0 (perHabit !! habitId) in
  match List.find (fun h => String.eqb (Habit.id h) habitId) HABITS with
  | None => None
  | Some cfg =>
      let len := length (Habit.items cfg) in
      Some {| Progress.done := done;
              Progress.total := len;
              Progress.pct := Nat.min 100 (roundPercent done len);
              Progress.goalMet := (Habit.dailyGoal cfg <=? done)%nat |}
  end.

Definition totalPointsToday (selectedDate : string) : nat :=
  Counts.total (getCountsForDate selectedDate) * POINTS_PER_ITEM.

Definition overallGoalMet (dateKey : string) : bool :=
  List.forallb (fun h =>
    let perHabit := Counts.perHabit (getCountsForDate dateKey) in
    let done := default 0 (perHabit !! Habit.id h) in
    (Habit.dailyGoal h <=? done)%nat) HABITS.

(** The [while (true)] loop of [overallStreak], run for at most [fuel]
    iterations; [None] when the fuel runs out before the loop ends. *)
Fixpoint streakLoop (fuel : nat) (d : Date) (streak : nat) : option (outcome nat) :=
  match fuel with
  | O => None
  | S fuel' =>
      match keyFor d with
      | None => Some Throws
      | Some key =>
          if overallGoalMet key
          then streakLoop fuel' (prevDate LocalTZA d 1) (streak + 1)
          else Some (Returns streak)
      end
  end.

(** The same loop as a relation between the date and count it starts
    from and what it produces: no fuel, and no result when it runs for
    ever. *)
Inductive streakRun : Date -> nat -> outcome nat -> Prop :=
| run_throws d streak :
    keyFor d = None -> streakRun d streak Throws
| run_break d streak key :
    keyFor d = Some key -> overallGoalMet key = false ->
    streakRun d streak (Returns streak)
| run_next d streak key r :
    keyFor d = Some key -> overallGoalMet key = true ->
    streakRun (prevDate LocalTZA d 1) (streak + 1) r ->
    streakRun d streak r.

(** [overallStreak], from [d0 = new Date(selectedDate)].  On a host whose
    offsets from UTC lie within twelve hours of each other the loop ends
    within [62 * n + 1] iterations when the store has [n] records
    ([streakLoop_ends]), so this fuel is never exhausted. *)
Definition overallStreak (d0 : Date) : option (outcome nat) :=
  streakLoop (62 * length (byDate store) + 1) d0 0.

(** A day qualifies when its key can be computed and all goals are met. *)
Definition qualifies (d : Date) : bool :=
  match keyFor d with
  | Some key => overallGoalMet key
  | None => false
  end.

(** State updates: each returns the next store. *)

Definition toggleCheck (selectedDate habitId itemId : string) : StoreShape :=
  let key := checkKey habitId itemId in
  let existing :=
    match JSObj.get selectedDate (byDate store) with
    | Some rec => checks rec
    | None => []
    end in
  let nextChecks := JSObj.set key (negb (default false (JSObj.get key existing))) existing in
  {| byDate := JSObj.set selectedDate {| date := selectedDate; checks := nextChecks |}
                 (byDate store) |}.

(** The [Clear selectedDate] button. *)
Definition clearDate (selectedDate : string) : StoreShape :=
  {| byDate := JSObj.delete selectedDate (byDate store) |}.

(** The [Reset All] button; [confirmed] is the answer to [confirm(...)]. *)
Definition resetAll (confirmed : bool) : StoreShape :=
  if negb confirmed then store else emptyStore.

End Component.

Definition earnedBadges (overallStreak : nat) : list string :=
  List.map Badge.id
    (List.filter (fun b => (Badge.threshold b <=? overallStreak)%nat) BADGES).

(* ================================================================== *)
(** * Specification-side vocabulary *)
(* ================================================================== *)

(** The check keys of the static catalog, in catalog order. *)
Definition catalogKeys : list string :=
  List.flat_map (fun h =>
    List.map (fun it => checkKey (Habit.id h) (Item.id it)) (Habit.items h))
    HABITS.

Definition isCatalogKey (k : string) : bool :=
  List.existsb (String.eqb k) catalogKeys.

(** A stale key names no sub-habit of the catalog. *)
Definition staleKey (k : string) : bool := negb (isCatalogKey k).

(** The data-model invariant: every key of a [checks] mapping is a catalog
    key. *)
Definition catalogOnly (cs : DailyState) : Prop :=
  forall k, In k (JSObj.keys cs) -> isCatalogKey k = true.

(** The habit a key is attributed to: the text before its first dot. *)
Definition habitOf (k : string) : string := hd "" (split "."%char k).

Definition isHabitId (h : string) : bool :=
  List.existsb (fun cfg => String.eqb (Habit.id cfg) h) HABITS.

(** The checked entries of a [checks] mapping attributed to habit [h]. *)
Definition checkedFor (h : string) (cs : DailyState) : list (string * bool) :=
  List.filter (fun e => snd e && String.eqb (habitOf (fst e)) h) cs.

(** The items of a habit that are checked in a [checks] mapping. *)
Definition itemsChecked (h : Habit.t) (cs : DailyState) : list Item.t :=
  List.filter (fun it =>
    match JSObj.get (checkKey (Habit.id h) (Item.id it)) cs with
    | Some true => true
    | _ => false
    end) (Habit.items h).

(** The [checks] mapping recorded for a date (empty when there is no
    record). *)
Definition checksOn (store : StoreShape) (dateKey : string) : DailyState :=
  match JSObj.get dateKey (byDate store) with
  | Some rec => checks rec
  | None => []
  end.

(** The date the streak loop looks at in its iteration [i] (from 0). *)
Fixpoint walkBack (LocalTZA : Z -> bool -> Z) (i : nat) (d : Date) : Date :=
  match i with
  | O => d
  | S i' => walkBack LocalTZA i' (prevDate LocalTZA d 1)
  end.

(** A host whose offset from UTC never changes. *)
Definition fixedOffset (LocalTZA : Z -> bool -> Z) : Prop :=
  exists off, forall t isUTC, LocalTZA t isUTC = off.

(** A host whose offsets from UTC lie within twelve hours of each other:
    any zone with or without daylight-saving time that never moves across
    the date line. *)
Definition steadyHost (LocalTZA : Z -> bool -> Z) : Prop :=
  forall t t' b b', (LocalTZA t b - LocalTZA t' b' <= 43200000)%Z.

(** [r] is the integer nearest to [num / den], halves rounded up. *)
Definition nearestHalfUp (num den r : nat) : Prop :=
  2 * den * r <= 2 * num + den < 2 * den * (r + 1).

(** The store with some entries of every [checks] mapping removed. *)
Definition removeKeys (drop : string -> bool -> bool) (store : StoreShape) : StoreShape :=
  {| byDate :=
       List.map (fun e =>
         (fst e,
          {| date := date (snd e);
             checks := List.filter (fun c => negb (drop (fst c) (snd c)))
                         (checks (snd e)) |}))
         (byDate store) |}.

(** Stale keys that the progress calculator cannot see: unchecked, or
    attributed to no catalog habit. *)
Definition unseenStale (k : string) (v : bool) : bool :=
  staleKey k && (negb v || negb (isHabitId (habitOf k))).

(** The CSV row of a catalog sub-habit on a day. *)
Definition catalogRow (day : DayRecord) (h : Habit.t) (it : Item.t) : string :=
  join "," [ Some (date day); Some (Habit.id h); Some (Item.id it);
             Some (match JSObj.get (checkKey (Habit.id h) (Item.id it)) (checks day) with
                   | Some true => "1"
                   | _ => "0"
                   end) ].

Definition catalogRows (day : DayRecord) : list string :=
  List.flat_map (fun h => List.map (catalogRow day h) (Habit.items h)) HABITS.

(** The CSV row that belongs to a key on a day: the cells of the key and
    whether the key is checked. *)
Definition keyRow (day : DayRecord) (k : string) : string :=
  let parts := split "."%char k in
  join "," [ Some (date day); nth_error parts 0; nth_error parts 1;
             Some (match JSObj.get k (checks day) with
                   | Some true => "1"
                   | _ => "0"
                   end) ].

(** The invariant of the data model: the keys of every object are
    distinct and every [checks] mapping holds catalog keys only. *)
Definition storeInvariant (store : StoreShape) : Prop :=
  JSObj.ownKeysDistinct (byDate store) /\
  forall day, In day (JSObj.values (byDate store)) ->
    catalogOnly (checks day) /\ JSObj.ownKeysDistinct (checks day).

(** The stores the component can reach from the empty store: by ticking a
    checkbox of the catalog on some date, clearing a date, or resetting. *)
Inductive reachable : StoreShape -> Prop :=
| reach_empty : reachable emptyStore
| reach_toggle store selectedDate h it :
    reachable store -> In h HABITS -> In it (Habit.items h) ->
    reachable (toggleCheck store selectedDate (Habit.id h) (Item.id it))
| reach_clear store selectedDate :
    reachable store -> reachable (clearDate store selectedDate)
| reach_reset store confirmed :
    reachable store -> reachable (resetAll store confirmed).

(** ** Statements of the specification that fail as they stand *)

(** On every store the goal of a habit is met exactly when the number of
    the habit's items that are checked reaches its daily goal. *)
Definition goalMetCountsItems : Prop :=
  forall store dateKey h, In h HABITS ->
    exists p,
      progressForHabit store dateKey (Habit.id h) = Some p /\
      (Progress.goalMet p = true <->
       Habit.dailyGoal h <= length (itemsChecked h (checksOn store dateKey))).

(** Stale keys are ignored: every derived output is what it is on the
    store with the stale keys removed. *)
Definition staleKeysIgnored (LocalTZA : Z -> bool -> Z) (store : StoreShape) : Prop :=
  let cleaned := removeKeys (fun k _ => staleKey k) store in
  (forall dateKey h, In h HABITS ->
     progressForHabit cleaned dateKey (Habit.id h) =
     progressForHabit store dateKey (Habit.id h)) /\
  (forall dateKey, overallGoalMet cleaned dateKey = overallGoalMet store dateKey) /\
  (forall d0, overallStreak LocalTZA cleaned d0 = overallStreak LocalTZA store d0) /\
  (forall dateKey, totalPointsToday cleaned dateKey = totalPointsToday store dateKey) /\
  exportCSV (byDate cleaned) = exportCSV (byDate store).

(** Reading and parsing local storage is the only thing that can fail, and
    it is handled: whatever the storage does, saving does not throw. *)
Definition storageFailuresHandled : Prop :=
  forall (JSON_stringify : JSValue -> string)
         (setItem : string -> string -> outcome unit) (s : StoreShape),
    saveStore JSON_stringify setItem s = Returns tt.

(** The export has one header row and one data row per recorded date and
    catalog sub-habit. *)
Definition exportHasCatalogRows (store : StoreShape) : Prop :=
  length (exportRows (byDate store)) =
  1 + length (byDate store) * length catalogKeys /\
  forall day, In day (JSObj.values (byDate store)) ->
    Permutation (dayRows day) (catalogRows day).

(** ** Sample stores *)

(** A day on which every habit meets its goal. *)
Definition goalChecks : DailyState :=
  [ ("smoking.smoke_free", true); ("eating.home_cooked", true);
    ("eating.no_sugar", true); ("exercise.workout_30", true);
    ("exercise.walk_8k", true) ].

Definition goalDay (d : string) : string * DayRecord :=
  (d, {| date := d; checks := goalChecks |}).

(** Goals met on 2024-10-28 and 2024-10-26, nothing recorded for
    2024-10-27. *)
Definition autumnStore : StoreShape :=
  {| byDate := [goalDay "2024-10-28"; goalDay "2024-10-26"] |}.

(** Goals met on 2011-12-31. *)
Definition apiaStore : StoreShape :=
  {| byDate := [goalDay "2011-12-31"] |}.

(** Three days of goals met, ending on 2024-03-01. *)
Definition marchStore : StoreShape :=
  {| byDate := [goalDay "2024-03-01"; goalDay "2024-02-29";
                goalDay "2024-02-28"] |}.

(** A record with a checked key whose item is not in the catalog. *)
Definition staleStore : StoreShape :=
  {| byDate :=
       [ ("2024-03-01",
          {| date := "2024-03-01";
             checks := [ ("smoking.vaping_free", true) ] |}) ] |}.

(** A day whose smoking goal is met by such a key alone. *)
Definition staleGoalStore : StoreShape :=
  {| byDate :=
       [ ("2024-03-01",
          {| date := "2024-03-01";
             checks := [ ("smoking.vaping_free", true);
                         ("eating.home_cooked", true);
                         ("eating.no_sugar", true);
                         ("exercise.workout_30", true);
                         ("exercise.walk_8k", true) ] |}) ] |}.

(* ================================================================== *)
(** * More of the component: date strip, checkboxes, date keys *)
(* ================================================================== *)

(** [s.slice(5)]: the text from index 5 on. *)
Definition slice5 (s : string) : string :=
  String.substring 5 (String.length s - 5) s.

(** [HABITS.reduce((acc, h) => acc + h.items.length, 0)] *)
Definition totalPossible : nat :=
  List.fold_left (fun acc h => acc + length (Habit.items h)) HABITS 0.

(** [totalPossible ? Math.round((total / totalPossible) * 100) : 0].  The
    quotient by 8 and its product by 100 are exact in floating point, so
    the rounding is the exact one. *)
Definition stripPct (total : nat) : nat :=
  if (totalPossible =? 0)%nat then 0 else roundPercent total totalPossible.

Module DayCell.
Record t := { key : string; label : string; pct : nat }.
End DayCell.

Section Strip.
Variable LocalTZA : Z -> bool -> Z.
Variable store : StoreShape.

(** The body of the [for] loop of [days] for one [i]: the cell of the date
    [i] days before [base]; [keyFor] may throw. *)
Definition dayCell (base : Date) (i : nat) : outcome DayCell.t :=
  match keyFor (prevDate LocalTZA base (Z.of_nat i)) with
  | None => Throws
  | Some key =>
      Returns {| DayCell.key := key;
                 DayCell.label := slice5 key;
                 DayCell.pct :=
                   stripPct (Counts.total (getCountsForDate store key)) |}
  end.

(** [for (let i = count - 1; i >= 0; i--) arr.push(cell i)]: the cells in
    the order they are pushed. *)
Fixpoint stripFrom (base : Date) (count : nat) : outcome (list DayCell.t) :=
  match count with
  | O => Returns []
  | S i =>
      match dayCell base i with
      | Throws => Throws
      | Returns cell =>
          match stripFrom base i with
          | Throws => Throws
          | Returns cells => Returns (cell :: cells)
          end
      end
  end.

(** [days], from [base = new Date(selectedDate)], with [COUNT = 60]. *)
Definition days (base : Date) : outcome (list DayCell.t) := stripFrom base 60.

(** [last7], the chart of the variant with a date input: seven cells,
    each [{ date: key.slice(5), pct }]. *)
Definition last7 (base : Date) : outcome (list (string * nat)) :=
  match stripFrom base 7 with
  | Throws => Throws
  | Returns cells =>
      Returns (List.map (fun c => (DayCell.label c, DayCell.pct c)) cells)
  end.

(** [!!day.checks[key]] for the checkbox of an item: what the box shows. *)
Definition isChecked (selectedDate habitId itemId : string) : bool :=
  default false
    (JSObj.get (checkKey habitId itemId) (checks (day store selectedDate))).
End Strip.

(** The value of a decimal digit character. *)
Definition digitValue (c : ascii) : option Z :=
  let n := Z.of_N (N_of_ascii c) in
  if (48 <=? n)%Z && (n <=? 57)%Z then Some (n - 48)%Z else None.

(** The number written by a string of decimal digits. *)
Fixpoint digitsValue (acc : Z) (s : string) : option Z :=
  match s with
  | EmptyString => Some acc
  | String c s' =>
      match digitValue c with
      | Some v => digitsValue (10 * acc + v) s'
      | None => None
      end
  end.

(** [new Date(s)] for a date-only string [YYYY-MM-DD] that names a day of
    the calendar: UTC midnight of that day.  [None] stands for every other
    string, whose reading ECMAScript leaves to the implementation. *)
Definition newDate (s : string) : option Date :=
  if (String.length s =? 10)%nat
     && (String.eqb (String.substring 4 1 s) "-")
     && (String.eqb (String.substring 7 1 s) "-")
  then
    match digitsValue 0 (String.substring 0 4 s),
          digitsValue 0 (String.substring 5 2 s),
          digitsValue 0 (String.substring 8 2 s) with
    | Some y, Some m, Some dd =>
        let day := daysFromCivil y m dd in
        let '(y', m', dd') := civilFromDays day in
        if (y' =? y)%Z && (m' =? m)%Z && (dd' =? dd)%Z
        then Some (utcMidnight day) else None
    | _, _, _ => None
    end
  else None.

(** The dates whose year has four digits: from 0000-01-01T00:00Z up to the
    last millisecond of 9999-12-31. *)
Definition YEAR_0000 : Date := utcMidnight (-719528).
Definition YEAR_10000 : Date := utcMidnight 2932897.

Definition fourDigitYear (d : Date) : Prop :=
  (YEAR_0000 <= d < YEAR_10000)%Z.

(** A string without a dot. *)
Fixpoint noDot (s : string) : bool :=
  match s with
  | EmptyString => true
  | String c s' => negb (Ascii.eqb c "."%char) && noDot s'
  end.

(** The sum of the counts of a [Map<string, number>]. *)
Definition sumCounts (m : gmap string nat) : nat :=
  map_fold (fun _ n acc => n + acc) 0 m.

(** [done] of a habit id, as [progressForHabit] and [overallGoalMet] read
    it: [perHabit.get(habitId) || 0]. *)
Definition doneOf (store : StoreShape) (dateKey habitId : string) : nat :=
  default 0 (Counts.perHabit (getCountsForDate store dateKey) !! habitId).

(* ================================================================== *)
(** * Objects: lookup after update *)
(* ================================================================== *)

Section ObjFacts.
Context {V : Type}.
Implicit Types (o : list (string * V)) (k : string) (v : V).

Lemma get_In o k v : JSObj.get k o = Some v -> In (k, v) o.
Proof.
  induction o as [|[k' v'] o IH]; simpl; [discriminate|].
  destruct (String.eqb k' k) eqn:E.
  - apply String.eqb_eq in E. intros [= ->]. left. congruence.
  - auto.
Qed.

Lemma get_None o k : JSObj.get k o = None <-> ~ In k (JSObj.keys o).
Proof.
  induction o as [|[k' v'] o IH]; simpl; [tauto|].
  destruct (String.eqb k' k) eqn:E.
  - apply String.eqb_eq in E. split; [discriminate | intros H; exfalso; auto].
  - apply String.eqb_neq in E. rewrite IH. tauto.
Qed.

Lemma In_get o k v :
  JSObj.ownKeysDistinct o -> In (k, v) o -> JSObj.get k o = Some v.
Proof.
  unfold JSObj.ownKeysDistinct.
  induction o as [|[k' v'] o IH]; simpl; [tauto|].
  intros Hnd [Heq | Hin]; inversion Hnd as [|? ? Hnot Hnd']; subst.
  - injection Heq as -> ->. now rewrite String.eqb_refl.
  - destruct (String.eqb k' k) eqn:E; [|auto].
    apply String.eqb_eq in E. subst k'. exfalso. apply Hnot.
    change k with (fst (k, v)). now apply in_map.
Qed.

Lemma has_In o k : JSObj.has k o = true <-> In k (JSObj.keys o).
Proof.
  unfold JSObj.has. rewrite existsb_exists. split.
  - intros (x & Hx & E). apply String.eqb_eq in E. now subst.
  - intros H. exists k. split; [assumption | apply String.eqb_refl].
Qed.

Lemma get_delete_eq o k : JSObj.get k (JSObj.delete k o) = None.
Proof.
  induction o as [|[k' v'] o IH]; simpl; [reflexivity|].
  destruct (String.eqb k' k) eqn:E; simpl; [assumption|].
  now rewrite E.
Qed.

Lemma get_delete_ne o k k' :
  k <> k' -> JSObj.get k' (JSObj.delete k o) = JSObj.get k' o.
Proof.
  intros Hne. induction o as [|[k0 v0] o IH]; simpl; [reflexivity|].
  destruct (String.eqb k0 k) eqn:E; simpl.
  - apply String.eqb_eq in E. subst k0.
    apply String.eqb_neq in Hne. now rewrite Hne.
  - now rewrite IH.
Qed.

Lemma get_set_eq o k v : JSObj.get k (JSObj.set k v o) = Some v.
Proof.
  induction o as [|[k' v'] o IH]; simpl.
  - now rewrite String.eqb_refl.
  - destruct (String.eqb k' k) eqn:E; simpl; now rewrite E.
Qed.

Lemma get_set_ne o k k' v :
  k <> k' -> JSObj.get k' (JSObj.set k v o) = JSObj.get k' o.
Proof.
  intros Hne. induction o as [|[k0 v0] o IH]; simpl.
  - apply String.eqb_neq in Hne. now rewrite Hne.
  - destruct (String.eqb k0 k) eqn:E; simpl.
    + apply String.eqb_eq in E. subst k0.
      apply String.eqb_neq in Hne. now rewrite Hne.
    + now rewrite IH.
Qed.

Lemma keys_length o : length (JSObj.keys o) = length o.
Proof. apply length_map. Qed.

Lemma get_In_values o k v : JSObj.get k o = Some v -> In v (JSObj.values o).
Proof.
  intros H. apply get_In in H. change v with (snd (k, v)). now apply in_map.
Qed.

Lemma In_keys_set o k v k' :
  In k' (JSObj.keys (JSObj.set k v o)) -> k' = k \/ In k' (JSObj.keys o).
Proof.
  induction o as [|[k0 v0] o IH]; simpl.
  - intros [<- | []]. now left.
  - destruct (String.eqb k0 k) eqn:E; simpl.
    + intros [<- | H]; right; [now left | now right].
    + intros [<- | H]; [right; now left|].
      destruct (IH H) as [-> | H']; [now left | right; now right].
Qed.

Lemma In_values_set o k v x :
  In x (JSObj.values (JSObj.set k v o)) -> x = v \/ In x (JSObj.values o).
Proof.
  induction o as [|[k0 v0] o IH]; simpl.
  - intros [<- | []]. now left.
  - destruct (String.eqb k0 k) eqn:E; simpl.
    + intros [<- | H]; [now left | right; now right].
    + intros [<- | H]; [right; now left|].
      destruct (IH H) as [-> | H']; [now left | right; now right].
Qed.

Lemma set_ownKeysDistinct o k v :
  JSObj.ownKeysDistinct o -> JSObj.ownKeysDistinct (JSObj.set k v o).
Proof.
  unfold JSObj.ownKeysDistinct.
  induction o as [|[k0 v0] o IH]; simpl; intros Hnd.
  - constructor; [intros [] | constructor].
  - inversion Hnd as [|? ? Hnot Hnd']; subst.
    destruct (String.eqb k0 k) eqn:E; simpl; [now constructor|].
    constructor; [|now apply IH].
    intros Hin. apply In_keys_set in Hin as [-> | Hin]; [|auto].
    now rewrite String.eqb_refl in E.
Qed.

Lemma In_keys_delete o k k' :
  In k' (JSObj.keys (JSObj.delete k o)) -> In k' (JSObj.keys o).
Proof.
  unfold JSObj.keys, JSObj.delete. rewrite !in_map_iff.
  intros (e & <- & Hin). apply filter_In in Hin as [Hin _]. eauto.
Qed.

Lemma In_values_delete o k x :
  In x (JSObj.values (JSObj.delete k o)) -> In x (JSObj.values o).
Proof.
  unfold JSObj.values, JSObj.delete. rewrite !in_map_iff.
  intros (e & <- & Hin). apply filter_In in Hin as [Hin _]. eauto.
Qed.

Lemma delete_ownKeysDistinct o k :
  JSObj.ownKeysDistinct o -> JSObj.ownKeysDistinct (JSObj.delete k o).
Proof.
  unfold JSObj.ownKeysDistinct, JSObj.delete, JSObj.keys.
  induction o as [|[k0 v0] o IH]; simpl; intros Hnd; [constructor|].
  inversion Hnd as [|? ? Hnot Hnd']; subst.
  destruct (String.eqb k0 k); simpl; [now apply IH|].
  constructor; [|now apply IH].
  intros Hin. apply Hnot. now apply (In_keys_delete o k).
Qed.

End ObjFacts.

(* ================================================================== *)
(** * Dates: which days share a key *)
(* ================================================================== *)

Section DateFacts.
Local Open Scope Z_scope.

Lemma digitChar_code z : N_of_ascii (digitChar z) = Z.to_N (48 + z mod 10).
Proof.
  unfold digitChar. apply N_ascii_embedding.
  pose proof (Z.mod_pos_bound z 10 ltac:(lia)). lia.
Qed.

Lemma digitChar_inj a b : digitChar a = digitChar b -> a mod 10 = b mod 10.
Proof.
  intros H. apply (f_equal N_of_ascii) in H. rewrite !digitChar_code in H.
  pose proof (Z.mod_pos_bound a 10 ltac:(lia)).
  pose proof (Z.mod_pos_bound b 10 ltac:(lia)).
  apply Z2N.inj in H; lia.
Qed.

Lemma digitChar_is_digit z c :
  (N_of_ascii c < 48)%N \/ (57 < N_of_ascii c)%N -> digitChar z <> c.
Proof.
  intros Hc H. subst c. rewrite digitChar_code in Hc.
  pose proof (Z.mod_pos_bound z 10 ltac:(lia)). lia.
Qed.

(** One more decimal digit agrees. *)
Lemma mod_step a b n :
  0 < n -> (a / n) mod 10 = (b / n) mod 10 -> a mod n = b mod n ->
  a mod (n * 10) = b mod (n * 10).
Proof.
  intros Hn Hq Hr. rewrite !Z.rem_mul_r by lia. rewrite Hq, Hr. reflexivity.
Qed.

Lemma digits2_eq a b :
  (a / 10) mod 10 = (b / 10) mod 10 -> a mod 10 = b mod 10 ->
  a mod 100 = b mod 100.
Proof. intros. apply (mod_step a b 10); auto; lia. Qed.

Lemma digits4_eq a b :
  (a / 1000) mod 10 = (b / 1000) mod 10 ->
  (a / 100) mod 10 = (b / 100) mod 10 ->
  (a / 10) mod 10 = (b / 10) mod 10 -> a mod 10 = b mod 10 ->
  a mod 10000 = b mod 10000.
Proof.
  intros H3 H2 H1 H0.
  apply (mod_step a b 1000); [lia | assumption |].
  apply (mod_step a b 100); [lia | assumption |].
  apply digits2_eq; assumption.
Qed.

Lemma digits6_eq a b :
  (a / 100000) mod 10 = (b / 100000) mod 10 ->
  (a / 10000) mod 10 = (b / 10000) mod 10 ->
  a mod 10000 = b mod 10000 ->
  a mod 1000000 = b mod 1000000.
Proof.
  intros H5 H4 H.
  apply (mod_step a b 100000); [lia | assumption |].
  apply (mod_step a b 10000); [lia | assumption | assumption].
Qed.

Ltac string_chars :=
  repeat match goal with
  | H : String _ _ = String _ _ |- _ =>
      let Hc := fresh "Hc" in injection H as Hc H
  end.

Ltac digit_eqs :=
  repeat match goal with
  | H : digitChar _ = digitChar _ |- _ => apply digitChar_inj in H
  end.

(** The first ten characters of an ISO date determine its year and
    month. *)
Lemma isoDate_prefix_inj y1 m1 dd1 r1 y2 m2 dd2 r2 :
  -999999 <= y1 <= 999999 -> -999999 <= y2 <= 999999 ->
  0 <= m1 <= 99 -> 0 <= m2 <= 99 ->
  substring 0 10 (isoDate y1 m1 dd1 r1) = substring 0 10 (isoDate y2 m2 dd2 r2) ->
  y1 = y2 /\ m1 = m2.
Proof.
  intros Hy1 Hy2 Hm1 Hm2. unfold isoDate, isoYear.
  destruct ((0 <=? y1) && (y1 <=? 9999)) eqn:E1;
  destruct ((0 <=? y2) && (y2 <=? 9999)) eqn:E2.
  - cbv [pad2 pad4 pad6 append substring]. intros H. string_chars. digit_eqs.
    apply andb_true_iff in E1 as [?%Z.leb_le ?%Z.leb_le].
    apply andb_true_iff in E2 as [?%Z.leb_le ?%Z.leb_le].
    pose proof (digits4_eq y1 y2) as Hy. pose proof (digits2_eq m1 m2) as Hm.
    rewrite (Z.mod_small y1 10000), (Z.mod_small y2 10000) in Hy by lia.
    rewrite (Z.mod_small m1 100), (Z.mod_small m2 100) in Hm by lia.
    split; auto.
  - destruct (y2 <? 0); cbv [pad2 pad4 pad6 append substring];
      intros H; injection H as Hc _; exfalso; revert Hc;
      apply digitChar_is_digit; vm_compute; auto.
  - destruct (y1 <? 0); cbv [pad2 pad4 pad6 append substring];
      intros H; injection H as Hc _; exfalso; symmetry in Hc; revert Hc;
      apply digitChar_is_digit; vm_compute; auto.
  - destruct (y1 <? 0) eqn:S1; destruct (y2 <? 0) eqn:S2;
      cbv [pad2 pad4 pad6 append substring]; intros H; try discriminate H;
      string_chars; digit_eqs.
    all: rewrite ?Z.ltb_lt, ?Z.ltb_ge in *.
    all: pose proof (digits6_eq (Z.abs y1) (Z.abs y2)) as Hy;
         pose proof (digits4_eq (Z.abs y1) (Z.abs y2)) as Hy';
         pose proof (digits2_eq m1 m2) as Hm.
    all: rewrite (Z.mod_small (Z.abs y1) 1000000),
           (Z.mod_small (Z.abs y2) 1000000) in Hy by lia;
         rewrite (Z.mod_small m1 100), (Z.mod_small m2 100) in Hm by lia.
    all: split; [| auto].
    all: specialize (Hy' ltac:(assumption) ltac:(assumption)
                         ltac:(assumption) ltac:(assumption)).
    all: specialize (Hy ltac:(assumption) ltac:(assumption) Hy'); lia.
Qed.

(** [daysFromCivil] undoes [civilFromDays]; months and days of month are
    in range. *)
Lemma civil_roundtrip d :
  let '(y, m, dd) := civilFromDays d in
  daysFromCivil y m dd = d /\ 1 <= m <= 12 /\ 1 <= dd <= 31.
Proof.
  unfold civilFromDays, daysFromCivil.
  set (z := d + 719468).
  set (era := z / 146097).
  set (doe := z - era * 146097).
  assert (Hdoe : 0 <= doe <= 146096)
    by (subst doe era; Z.div_mod_to_equations; lia).
  set (yoe := (doe - doe / 1460 + doe / 36524 - doe / 146096) / 365).
  assert (Hyoe : 0 <= yoe <= 399) by (subst yoe; Z.div_mod_to_equations; lia).
  set (doy := doe - (365 * yoe + yoe / 4 - yoe / 100)).
  assert (Hdoy : 0 <= doy <= 365)
    by (subst doy yoe; Z.div_mod_to_equations; lia).
  set (mp := (5 * doy + 2) / 153).
  assert (Hmp : 0 <= mp <= 11) by (subst mp; Z.div_mod_to_equations; lia).
  set (dd := doy - (153 * mp + 2) / 5 + 1).
  assert (Hdd : 1 <= dd <= 31)
    by (subst dd mp; Z.div_mod_to_equations; lia).
  destruct (mp <? 10) eqn:Hlt; [apply Z.ltb_lt in Hlt | apply Z.ltb_ge in Hlt].
  - replace (mp + 3 <=? 2) with false by (symmetry; apply Z.leb_gt; lia).
    replace (2 <? mp + 3) with true by (symmetry; apply Z.ltb_lt; lia).
    replace ((yoe + era * 400 + 0) / 400) with era
      by (Z.div_mod_to_equations; lia).
    split; [|lia].
    replace (mp + 3 - 3) with mp by lia.
    replace (yoe + era * 400 + 0 - era * 400) with yoe by lia.
    subst dd doy. subst doe z. lia.
  - replace (mp - 9 <=? 2) with true by (symmetry; apply Z.leb_le; lia).
    replace (2 <? mp - 9) with false by (symmetry; apply Z.ltb_ge; lia).
    replace ((yoe + era * 400 + 1 - 1) / 400) with era
      by (Z.div_mod_to_equations; lia).
    split; [|lia].
    replace (mp - 9 + 9) with mp by lia.
    replace (yoe + era * 400 + 1 - 1 - era * 400) with yoe by lia.
    subst dd doy. subst doe z. lia.
Qed.

Lemma civil_year_bound t :
  validDate t = true ->
  -999999 <= fst (fst (civilFromDays (t / msPerDay))) <= 999999.
Proof.
  unfold validDate, MAX_TIME. rewrite andb_true_iff, !Z.leb_le.
  intros [Hlo Hhi].
  assert (Hd : -100000000 <= t / msPerDay <= 100000000)
    by (unfold msPerDay; Z.div_mod_to_equations; lia).
  revert Hd. generalize (t / msPerDay). clear. intros d Hd.
  unfold civilFromDays. cbn [fst].
  set (z := d + 719468).
  set (era := z / 146097).
  set (doe := z - era * 146097).
  assert (Hdoe : 0 <= doe <= 146096)
    by (subst doe era; Z.div_mod_to_equations; lia).
  set (yoe := (doe - doe / 1460 + doe / 36524 - doe / 146096) / 365).
  assert (Hyoe : 0 <= yoe <= 399) by (subst yoe; Z.div_mod_to_equations; lia).
  assert (Hera : -700 <= era <= 700)
    by (subst era z; Z.div_mod_to_equations; lia).
  match goal with |- context [if ?c then 1 else 0] => destruct c end; lia.
Qed.

(** Two dates with the same key lie in the same month. *)
Lemma keyFor_near t1 t2 k :
  keyFor t1 = Some k -> keyFor t2 = Some k ->
  -30 <= t1 / msPerDay - t2 / msPerDay <= 30.
Proof.
  unfold keyFor, toISOString.
  destruct (validDate t1) eqn:V1; [|discriminate].
  destruct (validDate t2) eqn:V2; [|discriminate].
  pose proof (civil_roundtrip (t1 / msPerDay)) as R1.
  pose proof (civil_roundtrip (t2 / msPerDay)) as R2.
  pose proof (civil_year_bound t1 V1) as B1.
  pose proof (civil_year_bound t2 V2) as B2.
  destruct (civilFromDays (t1 / msPerDay)) as [[y1 m1] dd1].
  destruct (civilFromDays (t2 / msPerDay)) as [[y2 m2] dd2].
  cbn [fst] in B1, B2.
  intros [= H1] [= H2]. rewrite <- H2 in H1.
  apply isoDate_prefix_inj in H1 as [-> ->]; [|lia..].
  destruct R1 as (R1 & _ & D1), R2 as (R2 & _ & D2).
  unfold daysFromCivil in R1, R2. lia.
Qed.

End DateFacts.

Example keyFor_epoch : keyFor 0%Z = Some "1970-01-01".
Proof. reflexivity. Qed.
Example toISOString_example :
  toISOString 1709208000123%Z = "2024-02-29T12:00:00.123Z".
Proof. reflexivity. Qed.
Example keyFor_leap_day : keyFor (utcMidnight 19782) = Some "2024-02-29".
Proof. reflexivity. Qed.
Example keyFor_late_evening :
  keyFor (utcMidnight 19782 - 1)%Z = Some "2024-02-28".
Proof. reflexivity. Qed.
Example keyFor_year_zero : keyFor (utcMidnight (-719528)) = Some "0000-01-01".
Proof. reflexivity. Qed.
Example keyFor_before_year_zero :
  keyFor (utcMidnight (-719529)) = Some "-000001-12".
Proof. reflexivity. Qed.
Example keyFor_first_day : keyFor (- MAX_TIME)%Z = Some "-271821-04".
Proof. reflexivity. Qed.
Example keyFor_last_day : keyFor MAX_TIME = Some "+275760-09".
Proof. reflexivity. Qed.
Example keyFor_invalid : keyFor (- MAX_TIME - 1)%Z = None.
Proof. reflexivity. Qed.

(** On a host in UTC [prevDate] moves to the previous day; in Berlin it
    moves from 2024-10-28 past 2024-10-27 to 2024-10-26. *)
Example prevDate_utc :
  keyFor (prevDate tzUTC (utcMidnight 20024) 1) = Some "2024-10-27".
Proof. reflexivity. Qed.
Example prevDate_berlin :
  keyFor (utcMidnight 20024) = Some "2024-10-28" /\
  toISOString (prevDate tzBerlin (utcMidnight 20024) 1)
    = "2024-10-26T23:00:00.000Z" /\
  keyFor (prevDate tzBerlin (utcMidnight 20024) 1) = Some "2024-10-26".
Proof. repeat split. Qed.

(* ================================================================== *)
(** * The static catalog *)
(* ================================================================== *)

Lemma find_habit h :
  In h HABITS ->
  List.find (fun cfg => String.eqb (Habit.id cfg) (Habit.id h)) HABITS = Some h.
Proof.
  intros H. simpl in H. decompose [or] H; subst; try contradiction; reflexivity.
Qed.

Lemma habit_exists : exists h, In h HABITS.
Proof. eexists. now left. Qed.

Lemma habit_goal_positive h : In h HABITS -> 1 <= Habit.dailyGoal h.
Proof.
  intros H. simpl in H. decompose [or] H; subst; try contradiction; simpl; lia.
Qed.

Lemma habit_has_items h : In h HABITS -> 0 < length (Habit.items h).
Proof.
  intros H. simpl in H. decompose [or] H; subst; try contradiction; simpl; lia.
Qed.

(** The invariant of the data model: a goal never exceeds the item count. *)
Lemma habit_goal_le_items h :
  In h HABITS -> Habit.dailyGoal h <= length (Habit.items h).
Proof.
  intros H. simpl in H. decompose [or] H; subst; try contradiction; simpl; lia.
Qed.

Lemma catalogKeys_eq :
  catalogKeys =
  [ "smoking.smoke_free"; "smoking.mindful_breaks";
    "eating.home_cooked"; "eating.fruits_veggies"; "eating.no_sugar";
    "exercise.workout_30"; "exercise.walk_8k"; "exercise.stretch_10" ].
Proof. reflexivity. Qed.

Lemma catalogKeys_NoDup : List.NoDup catalogKeys.
Proof.
  apply NoDup_ListNoDup, (bool_decide_unpack _). vm_compute. reflexivity.
Qed.

Lemma isCatalogKey_In k : isCatalogKey k = true <-> In k catalogKeys.
Proof.
  unfold isCatalogKey. rewrite existsb_exists. split.
  - intros (x & Hx & E). apply String.eqb_eq in E. now subst.
  - intros H. exists k. split; [assumption | apply String.eqb_refl].
Qed.

(** A catalog key is attributed to the habit it was built from, and to no
    other. *)
Lemma habitOf_checkKey h it :
  In h HABITS -> In it (Habit.items h) ->
  habitOf (checkKey (Habit.id h) (Item.id it)) = Habit.id h.
Proof.
  intros Hh Hit. simpl in Hh. decompose [or] Hh; subst; try contradiction;
    simpl in Hit; decompose [or] Hit; subst; try contradiction; reflexivity.
Qed.

Lemma catalogKey_of_habit k h :
  In k catalogKeys -> In h HABITS -> habitOf k = Habit.id h ->
  exists it, In it (Habit.items h) /\ k = checkKey (Habit.id h) (Item.id it).
Proof.
  assert (Hall :
    List.forallb (fun k => List.forallb (fun h =>
      implb (String.eqb (habitOf k) (Habit.id h))
        (List.existsb (fun it =>
           String.eqb k (checkKey (Habit.id h) (Item.id it))) (Habit.items h)))
      HABITS) catalogKeys = true) by (vm_compute; reflexivity).
  intros Hk Hh E.
  rewrite forallb_forall in Hall. specialize (Hall k Hk).
  rewrite forallb_forall in Hall. specialize (Hall h Hh).
  apply String.eqb_eq in E. rewrite E in Hall. simpl in Hall.
  apply existsb_exists in Hall as (it & Hit & Heq).
  apply String.eqb_eq in Heq. eauto.
Qed.

Lemma item_keys_NoDup h :
  In h HABITS ->
  List.NoDup (List.map (fun it => checkKey (Habit.id h) (Item.id it)) (Habit.items h)).
Proof.
  intros Hh. simpl in Hh. decompose [or] Hh; subst; try contradiction;
    apply NoDup_ListNoDup, (bool_decide_unpack _); vm_compute; reflexivity.
Qed.

Lemma habitOf_catalog_isHabitId k :
  In k catalogKeys -> isHabitId (habitOf k) = true.
Proof.
  rewrite catalogKeys_eq. simpl. intros H.
  decompose [or] H; subst; try contradiction; reflexivity.
Qed.

(* ================================================================== *)
(** * Counting checked entries *)
(* ================================================================== *)

Lemma fold_countEntry_done cs acc h :
  default 0 (Counts.perHabit (List.fold_left countEntry cs acc) !! h) =
  default 0 (Counts.perHabit acc !! h) + length (checkedFor h cs).
Proof.
  revert acc. induction cs as [|[k v] cs IH]; intros acc; simpl.
  - lia.
  - rewrite IH. unfold habitOf. destruct v; simpl; [|reflexivity].
    destruct (String.eqb (hd "" (split "." k)) h) eqn:E; simpl.
    + apply String.eqb_eq in E. rewrite E, lookup_insert_eq. simpl. lia.
    + apply String.eqb_neq in E. rewrite lookup_insert_ne by assumption.
      reflexivity.
Qed.

Lemma fold_countEntry_total cs acc :
  Counts.total (List.fold_left countEntry cs acc) =
  Counts.total acc + length (List.filter snd cs).
Proof.
  revert acc. induction cs as [|[k v] cs IH]; intros acc; simpl.
  - lia.
  - rewrite IH. destruct v; simpl; lia.
Qed.

Lemma done_count store dateKey h :
  default 0 (Counts.perHabit (getCountsForDate store dateKey) !! h) =
  length (checkedFor h (checksOn store dateKey)).
Proof.
  unfold getCountsForDate, checksOn.
  destruct (JSObj.get dateKey (byDate store)) as [rec|].
  - rewrite fold_countEntry_done. simpl. rewrite lookup_empty. reflexivity.
  - simpl. rewrite lookup_empty. reflexivity.
Qed.

Lemma total_count store dateKey :
  Counts.total (getCountsForDate store dateKey) =
  length (List.filter snd (checksOn store dateKey)).
Proof.
  unfold getCountsForDate, checksOn.
  destruct (JSObj.get dateKey (byDate store)) as [rec|].
  - rewrite fold_countEntry_total. reflexivity.
  - reflexivity.
Qed.

Lemma progressForHabit_eq store dateKey h :
  In h HABITS ->
  progressForHabit store dateKey (Habit.id h) =
  let done := length (checkedFor (Habit.id h) (checksOn store dateKey)) in
  Some {| Progress.done := done;
          Progress.total := length (Habit.items h);
          Progress.pct := Nat.min 100 (roundPercent done (length (Habit.items h)));
          Progress.goalMet := (Habit.dailyGoal h <=? done)%nat |}.
Proof.
  intros Hh. unfold progressForHabit.
  rewrite (find_habit h Hh), done_count. reflexivity.
Qed.

Lemma overallGoalMet_eq store dateKey :
  overallGoalMet store dateKey =
  List.forallb (fun h =>
    (Habit.dailyGoal h <=? length (checkedFor (Habit.id h) (checksOn store dateKey)))%nat)
    HABITS.
Proof.
  unfold overallGoalMet. induction HABITS as [|h hs IH]; simpl.
  - reflexivity.
  - now rewrite done_count, IH.
Qed.

Lemma NoDup_map_filter {A B} (g : A -> B) (f : A -> bool) (l : list A) :
  List.NoDup (List.map g l) -> List.NoDup (List.map g (List.filter f l)).
Proof.
  induction l as [|a l IH]; simpl; intros Hnd; [constructor|].
  inversion Hnd as [|? ? Hnot Hnd']; subst.
  destruct (f a); simpl; [|auto].
  constructor; [|auto].
  intros Hin. apply Hnot. apply in_map_iff in Hin as (x & Hx & Hin).
  apply filter_In in Hin as [Hin _]. apply in_map_iff. eauto.
Qed.

(** Under the data-model invariant the entries counted for a habit are
    exactly its checked items. *)
Lemma checkedFor_items h cs :
  In h HABITS -> catalogOnly cs -> JSObj.ownKeysDistinct cs ->
  length (checkedFor (Habit.id h) cs) = length (itemsChecked h cs).
Proof.
  intros Hh Hcat Hnd.
  rewrite <- (length_map fst (checkedFor (Habit.id h) cs)).
  rewrite <- (length_map (fun it => checkKey (Habit.id h) (Item.id it))
                (itemsChecked h cs)).
  apply Permutation_length, Stdlib.Sorting.Permutation.NoDup_Permutation.
  - apply NoDup_map_filter, Hnd.
  - apply NoDup_map_filter, item_keys_NoDup, Hh.
  - intros x. rewrite !in_map_iff. split.
    + intros ([k v] & <- & Hin). unfold checkedFor in Hin.
      apply filter_In in Hin as [Hin Hq]. simpl in Hq |- *.
      apply andb_true_iff in Hq as [-> Hid]. apply String.eqb_eq in Hid.
      assert (Hk : In k catalogKeys).
      { apply isCatalogKey_In, Hcat. change k with (fst (k, true)).
        now apply in_map. }
      destruct (catalogKey_of_habit k h Hk Hh Hid) as (it & Hit & ->).
      exists it. split; [reflexivity|].
      unfold itemsChecked. apply filter_In. split; [assumption|].
      now rewrite (In_get cs _ true Hnd Hin).
    + intros (it & <- & Hin). unfold itemsChecked in Hin.
      apply filter_In in Hin as [Hit Hq].
      destruct (JSObj.get (checkKey (Habit.id h) (Item.id it)) cs) as [[|]|] eqn:G;
        try discriminate Hq.
      exists (checkKey (Habit.id h) (Item.id it), true). split; [reflexivity|].
      unfold checkedFor. apply filter_In. split; [now apply get_In|].
      simpl. rewrite (habitOf_checkKey h it Hh Hit). apply String.eqb_refl.
Qed.

(* ================================================================== *)
(** * Progress calculator *)
(* ================================================================== *)

Lemma roundPercent_nearest done len :
  0 < len -> nearestHalfUp (100 * done) len (roundPercent done len).
Proof.
  intros Hlen. unfold nearestHalfUp, roundPercent.
  pose proof (Nat.div_mod_eq (2 * (100 * done) + len) (2 * len)) as E.
  pose proof (Nat.mod_upper_bound (2 * (100 * done) + len) (2 * len)
                ltac:(lia)) as B.
  nia.
Qed.

Lemma nearestHalfUp_unique num den r r' :
  nearestHalfUp num den r -> nearestHalfUp num den r' -> r = r'.
Proof. unfold nearestHalfUp. nia. Qed.

(** C2, as stated, fails: a checked key that starts with a habit's id
    counts towards the habit whether or not it names one of its items.  On
    [staleStore] the goal of smoking is met and none of its items is
    checked. *)
Lemma goal_met_with_no_item_checked : ~ goalMetCountsItems.
Proof.
  intros H.
  destruct (H staleStore "2024-03-01" smoking ltac:(simpl; tauto))
    as (p & Hp & Hiff).
  vm_compute in Hp. injection Hp as <-.
  cbn [Progress.goalMet] in Hiff.
  pose proof (proj1 Hiff eq_refl) as Hle. vm_compute in Hle. lia.
Qed.

(** C2, amended. For every store, date and catalog habit, the progress
    calculator returns [goalMet = true] exactly when the number of checked
    entries of that date whose key starts with the habit's id (the text
    before the first dot), which is [done], is at least the habit's
    [dailyGoal]; [done = dailyGoal] gives [goalMet = true].  When the
    date's [checks] hold catalog keys only, [done] is the number of the
    habit's items that are checked, and [goalMet] is true exactly when
    that number reaches the goal. *)
Theorem goalMet_iff_done_reaches_goal store dateKey h :
  In h HABITS ->
  exists p,
    progressForHabit store dateKey (Habit.id h) = Some p /\
    Progress.done p =
      length (checkedFor (Habit.id h) (checksOn store dateKey)) /\
    (Progress.goalMet p = true <-> Habit.dailyGoal h <= Progress.done p) /\
    (Progress.done p = Habit.dailyGoal h -> Progress.goalMet p = true) /\
    (Progress.goalMet p = true <->
     Habit.dailyGoal h <=
     length (checkedFor (Habit.id h) (checksOn store dateKey))) /\
    (catalogOnly (checksOn store dateKey) ->
     JSObj.ownKeysDistinct (checksOn store dateKey) ->
     Progress.done p = length (itemsChecked h (checksOn store dateKey)) /\
     (Progress.goalMet p = true <->
      Habit.dailyGoal h <=
      length (itemsChecked h (checksOn store dateKey)))).
Proof.
  intros Hh. eexists. split; [apply (progressForHabit_eq store dateKey h Hh)|].
  cbn [Progress.done Progress.goalMet].
  split; [reflexivity|]. split; [apply Nat.leb_le|].
  split; [intros ->; apply Nat.leb_refl|]. split; [apply Nat.leb_le|].
  intros Hcat Hnd. rewrite (checkedFor_items h _ Hh Hcat Hnd).
  split; [reflexivity | apply Nat.leb_le].
Qed.


Lemma goalMet_at_goal_eating :
  exists p,
    progressForHabit marchStore "2024-03-01" (Habit.id eating) = Some p /\
    Progress.done p = Habit.dailyGoal eating /\
    Progress.goalMet p = true.
Proof.
  destruct (goalMet_iff_done_reaches_goal marchStore "2024-03-01" eating
              ltac:(simpl; tauto)) as (p & Hp & Hdone & _ & Hat & _).
  exists p. split; [exact Hp|]. split; [|apply Hat]; rewrite Hdone; reflexivity.
Defined.


Example progress_spec_example :
  let store :=
    {| byDate :=
         [ ("2024-03-01",
            {| date := "2024-03-01";
               checks := [ ("smoking.smoke_free", true);
                           ("eating.home_cooked", true);
                           ("eating.no_sugar", true);
                           ("exercise.workout_30", true);
                           ("exercise.walk_8k", true) ] |}) ] |} in
  List.map (fun h =>
    option_map (fun p => (Progress.pct p, Progress.goalMet p))
      (progressForHabit store "2024-03-01" (Habit.id h))) HABITS
  = [Some (50, true); Some (67, true); Some (67, true)]
  /\ overallGoalMet store "2024-03-01" = true.
Proof. split; reflexivity. Qed.

(* ================================================================== *)
(** * Badge evaluator *)
(* ================================================================== *)

Lemma badge_id_inj b b' :
  In b BADGES -> In b' BADGES -> Badge.id b = Badge.id b' -> b = b'.
Proof.
  intros H H'. simpl in H, H'.
  decompose [or] H; subst; try contradiction;
    decompose [or] H'; subst; try contradiction;
    simpl; intros E; try discriminate E; reflexivity.
Qed.

Lemma earnedBadges_In s b :
  In b BADGES ->
  (In (Badge.id b) (earnedBadges s) <-> Badge.threshold b <= s).
Proof.
  intros Hb. unfold earnedBadges. rewrite in_map_iff. split.
  - intros (b' & E & Hin). apply filter_In in Hin as [Hin Hle].
    apply (badge_id_inj b' b Hin Hb) in E. subst b'. now apply Nat.leb_le.
  - intros Hle. exists b. split; [reflexivity|].
    apply filter_In. split; [assumption | now apply Nat.leb_le].
Qed.

(** C4. The thresholds are exactly 3, 7, 14 and 30, and for every streak
    length a badge is earned exactly when the streak has reached its
    threshold.  Hence the earned set only grows with the streak, a badge is
    never earned without every badge of a lower threshold, and several
    badges are held at once (both [bronze_3] and [silver_7] from 7 on). *)
Theorem badge_earned_iff_threshold_reached (s : nat) :
  List.map Badge.threshold BADGES = [3; 7; 14; 30] /\
  (forall b, In b BADGES ->
     (In (Badge.id b) (earnedBadges s) <-> Badge.threshold b <= s)) /\
  (forall x, In x (earnedBadges s) ->
     exists b, In b BADGES /\ Badge.id b = x /\ Badge.threshold b <= s) /\
  (forall s', s <= s' -> incl (earnedBadges s) (earnedBadges s')) /\
  (forall b b', In b BADGES -> In b' BADGES ->
     Badge.threshold b <= Badge.threshold b' ->
     In (Badge.id b') (earnedBadges s) -> In (Badge.id b) (earnedBadges s)) /\
  (7 <= s -> In "bronze_3" (earnedBadges s) /\ In "silver_7" (earnedBadges s)).
Proof.
  split; [reflexivity|]. split; [intros b Hb; now apply earnedBadges_In|].
  split; [|split; [|split]].
  - intros x Hx. unfold earnedBadges in Hx.
    apply in_map_iff in Hx as (b & E & Hin).
    apply filter_In in Hin as [Hin Hle]. apply Nat.leb_le in Hle. eauto.
  - intros s' Hle x Hx. unfold earnedBadges in Hx.
    apply in_map_iff in Hx as (b & <- & Hin).
    apply filter_In in Hin as [Hin Hb]. apply Nat.leb_le in Hb.
    apply earnedBadges_In; [assumption | lia].
  - intros b b' Hb Hb' Hle Hin.
    apply earnedBadges_In in Hin; [|assumption].
    apply earnedBadges_In; [assumption | lia].
  - intros Hs. split.
    + apply (earnedBadges_In s
               {| Badge.id := "bronze_3"; Badge.label := "Bronze: 3-day streak";
                  Badge.threshold := 3; Badge.emoji := "🥉" |});
        simpl; [tauto | lia].
    + apply (earnedBadges_In s
               {| Badge.id := "silver_7"; Badge.label := "Silver: 7-day streak";
                  Badge.threshold := 7; Badge.emoji := "🥈" |});
        simpl; [tauto | lia].
Qed.

Example earnedBadges_examples :
  earnedBadges 2 = [] /\ earnedBadges 3 = ["bronze_3"] /\
  earnedBadges 13 = ["bronze_3"; "silver_7"] /\
  earnedBadges 30 = ["bronze_3"; "silver_7"; "gold_14"; "diamond_30"].
Proof. repeat split. Qed.

(* ================================================================== *)
(** * Persistence: loadStore *)
(* ================================================================== *)

Lemma storeToJS_truthy s : truthy (optByDate (storeToJS s)) = true.
Proof. reflexivity. Qed.

(** C8, as stated, fails: a write to local storage that throws is not
    caught by [saveStore]. *)
Lemma saveStore_failure_is_not_handled : ~ storageFailuresHandled.
Proof.
  intros H.
  specialize (H (fun _ => "") (fun _ _ => Throws) emptyStore).
  discriminate H.
Qed.

(** C8, amended. Whatever local storage holds, [loadStore] returns a store
    and never fails: the empty store [{ byDate: {} }] when the entry is
    absent, when reading or parsing throws, and when the parsed value has
    no [byDate]; a persisted store is returned as parsed.  These are the
    failures the program handles: [saveStore] passes on the failure of a
    write. *)
Theorem loadStore_empty_on_failure
    (JSON_parse : string -> option JSValue)
    (JSON_stringify : JSValue -> string)
    (setItem : string -> string -> outcome unit) :
  loadStore JSON_parse ReadNull = storeToJS emptyStore /\
  loadStore JSON_parse ReadThrows = storeToJS emptyStore /\
  loadStore JSON_parse (ReadValue "") = storeToJS emptyStore /\
  (forall raw, JSON_parse raw = None ->
     loadStore JSON_parse (ReadValue raw) = storeToJS emptyStore) /\
  (forall raw parsed, JSON_parse raw = Some parsed ->
     optByDate parsed = None ->
     loadStore JSON_parse (ReadValue raw) = storeToJS emptyStore) /\
  (forall raw s, raw <> "" -> JSON_parse raw = Some (storeToJS s) ->
     loadStore JSON_parse (ReadValue raw) = storeToJS s) /\
  (forall stored,
     loadStore JSON_parse stored = storeToJS emptyStore \/
     exists raw, stored = ReadValue raw /\
       JSON_parse raw = Some (loadStore JSON_parse stored) /\
       truthy (optByDate (loadStore JSON_parse stored)) = true) /\
  (forall s, setItem STORAGE_KEY (JSON_stringify (storeToJS s)) = Throws ->
     saveStore JSON_stringify setItem s = Throws).
Proof.
  repeat split.
  - intros raw Hp. simpl. rewrite Hp. now destruct (String.eqb raw "").
  - intros raw parsed Hp Hb. simpl. rewrite Hp, Hb. simpl.
    now destruct (String.eqb raw "").
  - intros raw s Hne Hp. simpl. apply String.eqb_neq in Hne.
    now rewrite Hne, Hp.
  - intros [| |raw]; simpl; auto.
    destruct (String.eqb raw ""); [auto|].
    destruct (JSON_parse raw) as [parsed|] eqn:Hp; [|auto].
    destruct (truthy (optByDate parsed)) eqn:Ht; [|auto].
    right. exists raw. rewrite Ht. auto.
  - intros s Hthrow. exact Hthrow.
Qed.

(* ================================================================== *)
(** * Clear and reset *)
(* ================================================================== *)

(** C9. Clearing the selected date removes that date's record from the
    store and leaves the record of every other date as it was; resetting
    replaces the store by the empty one once the prompt is confirmed, and
    does nothing when it is declined. *)
Theorem clearDate_removes_only_selected store selectedDate :
  JSObj.get selectedDate (byDate (clearDate store selectedDate)) = None /\
  ~ In selectedDate (JSObj.keys (byDate (clearDate store selectedDate))) /\
  (forall other, other <> selectedDate ->
     JSObj.get other (byDate (clearDate store selectedDate)) =
     JSObj.get other (byDate store)) /\
  resetAll store true = emptyStore /\
  resetAll store false = store.
Proof.
  repeat split.
  - apply get_delete_eq.
  - apply get_None, get_delete_eq.
  - intros other Hne. apply get_delete_ne. congruence.
Qed.


(* ================================================================== *)
(** * Streak calculator *)
(* ================================================================== *)

Section StreakFacts.
Variable LocalTZA : Z -> bool -> Z.
Variable store : StoreShape.
Local Open Scope Z_scope.

Local Abbreviation walk := (walkBack LocalTZA).
Local Abbreviation loop := (streakLoop LocalTZA store).

Lemma keyFor_valid d k : keyFor d = Some k -> validDate d = true.
Proof. unfold keyFor. now destruct (validDate d). Qed.

Lemma keyFor_of_valid d : validDate d = true -> exists k, keyFor d = Some k.
Proof. unfold keyFor. intros ->. eauto. Qed.

Lemma qualifies_key d :
  qualifies store d = true <->
  exists k, keyFor d = Some k /\ overallGoalMet store k = true.
Proof.
  unfold qualifies. destruct (keyFor d) as [k|].
  - split; [eauto | now intros (k' & [= <-] & H)].
  - split; [discriminate | now intros (k' & [=] & _)].
Qed.

Lemma qualifies_valid d : qualifies store d = true -> validDate d = true.
Proof. intros (k & Hk & _)%qualifies_key. now apply (keyFor_valid d k). Qed.

(** A day meets all goals only if the store has a record for it holding a
    checked item: every [dailyGoal] is at least 1. *)
Lemma overallGoalMet_record dateKey :
  overallGoalMet store dateKey = true ->
  exists rec k, JSObj.get dateKey (byDate store) = Some rec /\
                In (k, true) (checks rec).
Proof.
  rewrite overallGoalMet_eq, forallb_forall. intros Hall.
  destruct habit_exists as (h & Hh).
  pose proof (habit_goal_positive h Hh) as Hgoal.
  specialize (Hall h Hh). apply Nat.leb_le in Hall.
  unfold checksOn in Hall.
  destruct (JSObj.get dateKey (byDate store)) as [rec|];
    [|simpl in Hall; lia].
  destruct (checkedFor (Habit.id h) (checks rec)) as [|[k v] l] eqn:E;
    [simpl in Hall; lia|].
  assert (Hin : In (k, v) (checkedFor (Habit.id h) (checks rec)))
    by (rewrite E; now left).
  unfold checkedFor in Hin. apply filter_In in Hin as [Hin Hq].
  simpl in Hq. apply andb_true_iff in Hq as [-> _]. eauto.
Qed.

Lemma qualifies_in_store d :
  qualifies store d = true ->
  exists k, keyFor d = Some k /\ In k (JSObj.keys (byDate store)).
Proof.
  intros (k & Hk & Hmet)%qualifies_key. exists k. split; [assumption|].
  destruct (overallGoalMet_record k Hmet) as (rec & _ & Hget & _).
  apply get_In in Hget. change k with (fst (k, rec)). now apply in_map.
Qed.

(** ** The loop and the dates it visits *)

(** Out of fuel: every date visited so far qualified. *)
Lemma streakLoop_None fuel : forall d s,
  loop fuel d s = None ->
  forall i : nat, (i < fuel)%nat -> qualifies store (walk i d) = true.
Proof.
  induction fuel as [|fuel IH]; intros d s H i Hi; [lia|].
  simpl in H. destruct (keyFor d) as [k|] eqn:Hk; [|discriminate].
  destruct (overallGoalMet store k) eqn:Hmet; [|discriminate].
  destruct i as [|i]; simpl.
  - apply qualifies_key. eauto.
  - apply (IH _ _ H). lia.
Qed.

(** The loop returns after a run of [m] qualifying dates followed by a
    valid date that does not qualify. *)
Lemma streakLoop_run (m : nat) : forall (fuel : nat) d (s : nat),
  (m < fuel)%nat ->
  (forall i : nat, (i < m)%nat -> qualifies store (walk i d) = true) ->
  validDate (walk m d) = true ->
  qualifies store (walk m d) = false ->
  loop fuel d s = Some (Returns (s + m)%nat).
Proof.
  induction m as [|m IH]; intros fuel d s Hfuel Hrun Hvalid Hstop;
    (destruct fuel as [|fuel]; [lia|]); simpl in *.
  - destruct (keyFor_of_valid d Hvalid) as (k & Hk).
    unfold qualifies in Hstop. rewrite Hk in *. rewrite Hstop.
    now rewrite Nat.add_0_r.
  - pose proof (Hrun 0%nat ltac:(lia)) as H0. simpl in H0.
    apply qualifies_key in H0 as (k & Hk & Hmet). rewrite Hk, Hmet.
    replace (s + S m)%nat with (s + 1 + m)%nat by lia.
    apply IH; [lia | | assumption | assumption].
    intros i Hi. apply (Hrun (S i)). lia.
Qed.

Lemma streakLoop_Returns fuel : forall d (s n : nat),
  loop fuel d s = Some (Returns n) ->
  exists m : nat,
    n = (s + m)%nat /\ (m < fuel)%nat /\
    (forall i : nat, (i < m)%nat -> qualifies store (walk i d) = true) /\
    validDate (walk m d) = true /\
    qualifies store (walk m d) = false.
Proof.
  induction fuel as [|fuel IH]; intros d s n H; [discriminate|].
  simpl in H. destruct (keyFor d) as [k|] eqn:Hk; [|discriminate].
  pose proof (keyFor_valid d k Hk) as Hv.
  destruct (overallGoalMet store k) eqn:Hmet.
  - apply IH in H as (m & -> & Hm & Hrun & Hvalid & Hstop).
    exists (S m). split; [lia|]. split; [lia|]. split; [|split; assumption].
    intros [|i] Hi; simpl.
    + apply qualifies_key. eauto.
    + apply Hrun. lia.
  - injection H as <-. exists 0%nat. simpl.
    split; [lia|]. split; [lia|]. split; [intros i Hi; lia|].
    split; [assumption|]. unfold qualifies. now rewrite Hk.
Qed.

Lemma streakLoop_Throws fuel : forall d (s : nat),
  loop fuel d s = Some Throws ->
  exists m : nat,
    (m < fuel)%nat /\
    (forall i : nat, (i < m)%nat -> qualifies store (walk i d) = true) /\
    validDate (walk m d) = false.
Proof.
  induction fuel as [|fuel IH]; intros d s H; [discriminate|].
  simpl in H. destruct (keyFor d) as [k|] eqn:Hk.
  - destruct (overallGoalMet store k) eqn:Hmet; [|discriminate].
    apply IH in H as (m & Hm & Hrun & Hinvalid).
    exists (S m). split; [lia|]. split; [|assumption].
    intros [|i] Hi; simpl.
    + apply qualifies_key. eauto.
    + apply Hrun. lia.
  - exists 0%nat. simpl. split; [lia|]. split; [intros i Hi; lia|].
    unfold keyFor in Hk. now destruct (validDate d).
Qed.

Lemma streakLoop_more_fuel fuel : forall fuel' d s r,
  loop fuel d s = Some r -> (fuel <= fuel')%nat -> loop fuel' d s = Some r.
Proof.
  induction fuel as [|fuel IH]; intros fuel' d s r H Hle; [discriminate|].
  destruct fuel' as [|fuel']; [lia|]. simpl in H |- *.
  destruct (keyFor d) as [k|]; [|assumption].
  destruct (overallGoalMet store k); [|assumption].
  apply (IH fuel' _ _ _ H). lia.
Qed.

(** The fuelled loop and the relation agree. *)
Lemma streakLoop_streakRun fuel : forall d s r,
  loop fuel d s = Some r -> streakRun LocalTZA store d s r.
Proof.
  induction fuel as [|fuel IH]; intros d s r H; [discriminate|].
  simpl in H. destruct (keyFor d) as [k|] eqn:Hk.
  - destruct (overallGoalMet store k) eqn:Hmet.
    + eapply run_next; eauto.
    + injection H as <-. eapply run_break; eauto.
  - injection H as <-. now apply run_throws.
Qed.

Lemma streakRun_streakLoop d s r :
  streakRun LocalTZA store d s r -> exists fuel, loop fuel d s = Some r.
Proof.
  induction 1 as [d s Hk | d s k Hk Hmet | d s k r Hk Hmet _ [fuel IH]].
  - exists 1%nat. simpl. now rewrite Hk.
  - exists 1%nat. simpl. now rewrite Hk, Hmet.
  - exists (S fuel). simpl. now rewrite Hk, Hmet.
Qed.

Lemma walkBack_add (a : nat) : forall (k : nat) d,
  walk (a + k) d = walk k (walk a d).
Proof. induction a as [|a IH]; intros k d; simpl; [reflexivity | apply IH]. Qed.

(** ** Hosts with steady offsets: the walk goes back in time *)

Section Steady.
Hypothesis steady : steadyHost LocalTZA.

(** One step goes back by between 12 and 36 hours. *)
Lemma prevDate_steady d :
  validDate d = true ->
  d - 129600000 <= prevDate LocalTZA d 1 <= d - 43200000.
Proof.
  intros Hv. unfold prevDate. rewrite Hv. cbv zeta. unfold msPerDay.
  pose proof (steady d (d + LocalTZA d true - 1 * 86400000) true false).
  pose proof (steady (d + LocalTZA d true - 1 * 86400000) d false true).
  lia.
Qed.

Lemma walkBack_steady (k : nat) : forall d,
  (forall i : nat, (i < k)%nat -> validDate (walk i d) = true) ->
  d - Z.of_nat k * 129600000 <= walk k d <= d - Z.of_nat k * 43200000.
Proof.
  induction k as [|k IH]; intros d Hv; simpl walkBack; [lia|].
  pose proof (prevDate_steady d (Hv 0%nat ltac:(lia))) as Hstep.
  specialize (IH (prevDate LocalTZA d 1)
                (fun i Hi => Hv (S i) ltac:(lia))).
  lia.
Qed.

(** Dates sharing a key are less than 31 days apart, the walk goes back
    at least 31 days in 62 steps, and the key of a qualifying date is a key
    of the store: a run of qualifying dates is at most 62 times as long as
    the store has records. *)
Lemma run_bound d (n : nat) :
  (forall i : nat, (i < n)%nat -> qualifies store (walk i d) = true) ->
  (n <= 62 * length (byDate store))%nat.
Proof.
  intros Hrun.
  destruct (Nat.le_gt_cases n (62 * length (byDate store))) as [|Hgt];
    [assumption | exfalso].
  set (N := length (byDate store)) in *.
  set (f := fun j : nat => default "" (keyFor (walk (62 * j) d))).
  assert (Hq : forall j, In j (seq 0 (S N)) ->
             exists k, keyFor (walk (62 * j) d) = Some k /\
                       In k (JSObj.keys (byDate store))).
  { intros j Hj. apply in_seq in Hj. apply qualifies_in_store, Hrun. lia. }
  assert (Hfar : forall x y : nat, (x < y <= N)%nat ->
             walk (62 * y) d <= walk (62 * x) d - 31 * msPerDay).
  { intros x y Hxy.
    replace (62 * y)%nat with (62 * x + 62 * (y - x))%nat by lia.
    rewrite walkBack_add.
    pose proof (walkBack_steady (62 * (y - x)) (walk (62 * x) d)) as Hw.
    unfold msPerDay. refine (Z.le_trans _ _ _ (proj2 (Hw _)) _); [|lia].
    intros i Hi. rewrite <- walkBack_add. apply qualifies_valid, Hrun. lia. }
  assert (Hdays : forall x y : nat, (x < y <= N)%nat ->
             walk (62 * y) d / msPerDay <= walk (62 * x) d / msPerDay - 31).
  { intros x y Hxy. specialize (Hfar x y Hxy). unfold msPerDay in *.
    Z.div_mod_to_equations. lia. }
  assert (Hnd : List.NoDup (List.map f (seq 0 (S N)))).
  { apply NoDup_map_NoDup_ForallPairs; [|apply seq_NoDup].
    intros x y Hx Hy E. unfold f in E.
    destruct (Hq x Hx) as (kx & Hkx & _). destruct (Hq y Hy) as (ky & Hky & _).
    rewrite Hkx, Hky in E. simpl in E. subst ky.
    pose proof (keyFor_near _ _ _ Hkx Hky) as Hnear.
    apply in_seq in Hx, Hy.
    destruct (Nat.lt_trichotomy x y) as [Hlt | [Heq | Hlt]]; [|assumption|].
    - pose proof (Hdays x y ltac:(lia)). lia.
    - pose proof (Hdays y x ltac:(lia)). lia. }
  assert (Hincl : incl (List.map f (seq 0 (S N))) (JSObj.keys (byDate store))).
  { intros k Hk. apply in_map_iff in Hk as (j & <- & Hj).
    destruct (Hq j Hj) as (k & Hk & Hin). unfold f. now rewrite Hk. }
  pose proof (NoDup_incl_length Hnd Hincl) as Hlen.
  rewrite length_map, length_seq, keys_length in Hlen. lia.
Qed.

(** The loop ends within [62 * n + 1] iterations on a store of [n]
    records. *)
Lemma streakLoop_ends fuel d s :
  (62 * length (byDate store) + 1 <= fuel)%nat ->
  exists r, loop fuel d s = Some r.
Proof.
  intros Hfuel. destruct (loop fuel d s) as [r|] eqn:E; [eauto|].
  pose proof (run_bound d fuel (streakLoop_None fuel d s E)). lia.
Qed.

Lemma validDate_between a b c :
  validDate a = true -> validDate c = true -> a <= b <= c ->
  validDate b = true.
Proof.
  unfold validDate. rewrite !andb_true_iff, !Z.leb_le. lia.
Qed.

(** The streak is a number whenever the walk cannot leave the range of
    valid dates. *)
Lemma overallStreak_returns d0 :
  validDate d0 = true ->
  validDate (d0 - Z.of_nat (62 * length (byDate store)) * 129600000) = true ->
  exists n : nat,
    (n <= 62 * length (byDate store))%nat /\
    overallStreak LocalTZA store d0 = Some (Returns n).
Proof.
  intros Hv Hlow. unfold overallStreak.
  destruct (streakLoop_ends (62 * length (byDate store) + 1) d0 0 ltac:(lia))
    as ([n|] & E).
  - exists n. split; [|assumption].
    apply streakLoop_Returns in E as (m & -> & Hm & _). lia.
  - exfalso. apply streakLoop_Throws in E as (m & Hm & Hrun & Hinvalid).
    pose proof (run_bound d0 m Hrun) as Hb.
    pose proof (walkBack_steady m d0
                  (fun i Hi => qualifies_valid _ (Hrun i Hi))) as Hw.
    rewrite (validDate_between
               (d0 - Z.of_nat (62 * length (byDate store)) * 129600000)
               (walk m d0) d0) in Hinvalid by (assumption || lia).
    discriminate.
Qed.

End Steady.

(** ** Hosts with a fixed offset: the walk visits the previous days *)

Section Fixed.
Hypothesis fixed : fixedOffset LocalTZA.

Lemma fixedOffset_steady : steadyHost LocalTZA.
Proof.
  destruct fixed as (off & Hoff). intros t t' b b'. rewrite !Hoff. lia.
Qed.

Lemma prevDate_fixed d :
  validDate d = true -> prevDate LocalTZA d 1 = d - msPerDay.
Proof.
  destruct fixed as (off & Hoff). intros Hv. unfold prevDate.
  rewrite Hv, !Hoff. lia.
Qed.

Lemma walkBack_fixed (k : nat) : forall d,
  (forall i : nat, (i < k)%nat -> validDate (d - Z.of_nat i * msPerDay) = true) ->
  walk k d = d - Z.of_nat k * msPerDay.
Proof.
  induction k as [|k IH]; intros d Hv; simpl walkBack; [lia|].
  pose proof (Hv 0%nat ltac:(lia)) as H0.
  replace (d - Z.of_nat 0 * msPerDay) with d in H0 by lia.
  rewrite (prevDate_fixed d H0), IH; [lia|].
  intros i Hi. specialize (Hv (S i) ltac:(lia)).
  now replace (d - msPerDay - Z.of_nat i * msPerDay)
    with (d - Z.of_nat (S i) * msPerDay) by lia.
Qed.

Lemma walkBack_fixed_run (k : nat) : forall d,
  (forall i : nat, (i < k)%nat -> validDate (walk i d) = true) ->
  walk k d = d - Z.of_nat k * msPerDay.
Proof.
  induction k as [|k IH]; intros d Hv; simpl walkBack; [lia|].
  pose proof (Hv 0%nat ltac:(lia)) as H0. simpl in H0.
  rewrite IH by (intros i Hi; apply (Hv (S i)); lia).
  rewrite (prevDate_fixed d H0). lia.
Qed.

(** On a host with a fixed offset the streak is the number of consecutive
    days, walking backward from the reference date, whose keys meet the
    overall goal. *)
Lemma overallStreak_fixed d0 (n : nat) :
  overallStreak LocalTZA store d0 = Some (Returns n) <->
  (forall i : nat, (i < n)%nat ->
     qualifies store (d0 - Z.of_nat i * msPerDay) = true) /\
  validDate (d0 - Z.of_nat n * msPerDay) = true /\
  qualifies store (d0 - Z.of_nat n * msPerDay) = false.
Proof.
  unfold overallStreak. split.
  - intros H. apply streakLoop_Returns in H as (m & Hn & _ & Hrun & Hv & Hstop).
    simpl in Hn. subst m.
    assert (Hw : forall i : nat, (i <= n)%nat ->
              walk i d0 = d0 - Z.of_nat i * msPerDay).
    { intros i Hi. apply walkBack_fixed_run. intros j Hj.
      apply qualifies_valid, Hrun. lia. }
    rewrite <- (Hw n) by lia. split; [|split; assumption].
    intros i Hi. rewrite <- (Hw i) by lia. now apply Hrun.
  - intros (Hrun & Hv & Hstop).
    assert (Hw : forall i : nat, (i <= n)%nat ->
              walk i d0 = d0 - Z.of_nat i * msPerDay).
    { intros i Hi. apply walkBack_fixed. intros j Hj.
      apply qualifies_valid, Hrun. lia. }
    assert (Hrun' : forall i : nat, (i < n)%nat ->
              qualifies store (walk i d0) = true).
    { intros i Hi. rewrite Hw by lia. now apply Hrun. }
    pose proof (run_bound fixedOffset_steady d0 n Hrun') as Hb.
    apply (streakLoop_run n _ d0 0); [lia | assumption | |];
      now rewrite Hw by lia.
Qed.

End Fixed.

End StreakFacts.

(** On every host the streak is 0 when the reference date does not meet
    the overall goal. *)
Lemma overallStreak_zero LocalTZA store d0 key :
  keyFor d0 = Some key -> overallGoalMet store key = false ->
  overallStreak LocalTZA store d0 = Some (Returns 0).
Proof.
  intros Hk Hmet. unfold overallStreak.
  rewrite Nat.add_comm. simpl. now rewrite Hk, Hmet.
Qed.

Example streak_spec_example :
  List.map (fun day => overallStreak tzUTC marchStore (utcMidnight day))
    [19784; 19783; 19782; 19781]%Z
  = [Some (Returns 0); Some (Returns 3); Some (Returns 2); Some (Returns 1)]
  /\ earnedBadges 3 = ["bronze_3"].
Proof. split; reflexivity. Qed.

Lemma tzUTC_fixed : fixedOffset tzUTC.
Proof. exists 0%Z. reflexivity. Qed.

Lemma tzBerlin_steady : steadyHost tzBerlin.
Proof.
  intros t t' b b'. unfold tzBerlin.
  repeat match goal with |- context [if ?c then _ else _] => destruct c end;
    lia.
Qed.

(** C1. On a host in Berlin the streak walk steps from 2024-10-28 straight
    to 2024-10-26: with the goals met on those two days and nothing
    recorded for 2024-10-27, the reference day 2024-10-28 qualifies, the
    previous calendar day does not, and the streak is 2, where the
    specification (and the same code on a host in UTC) gives 1. *)
Theorem streak_skips_day_when_summer_time_ends :
  keyFor (utcMidnight 20024) = Some "2024-10-28" /\
  overallGoalMet autumnStore "2024-10-28" = true /\
  overallGoalMet autumnStore "2024-10-27" = false /\
  List.map keyFor
    [walkBack tzBerlin 0 (utcMidnight 20024);
     walkBack tzBerlin 1 (utcMidnight 20024);
     walkBack tzBerlin 2 (utcMidnight 20024)]
  = [Some "2024-10-28"; Some "2024-10-26"; Some "2024-10-25"] /\
  overallStreak tzBerlin autumnStore (utcMidnight 20024) = Some (Returns 2) /\
  overallStreak tzUTC autumnStore (utcMidnight 20024) = Some (Returns 1).
Proof. repeat split; vm_compute; reflexivity. Qed.

(** X4. On a host whose offsets from UTC lie within twelve hours of each
    other the backward walk ends on every store.  Every catalog habit has
    [dailyGoal >= 1], so a date meets the overall goal only if the store
    holds a record for its key with a checked item; a store of [n] records
    therefore stops the loop within [62 * n + 1] iterations, and the streak
    is a number (at most [62 * n]) whenever the walk cannot leave the range
    of valid dates. *)
Theorem streak_walk_ends_on_steady_hosts LocalTZA store (d0 : Date) :
  steadyHost LocalTZA ->
  (forall h, In h HABITS -> 1 <= Habit.dailyGoal h) /\
  (forall dateKey, overallGoalMet store dateKey = true ->
     exists rec k, JSObj.get dateKey (byDate store) = Some rec /\
                   In (k, true) (checks rec)) /\
  (exists r, streakRun LocalTZA store d0 0 r /\
     forall fuel, 62 * length (byDate store) + 1 <= fuel ->
       streakLoop LocalTZA store fuel d0 0 = Some r) /\
  (validDate d0 = true ->
   validDate (d0 - Z.of_nat (62 * length (byDate store)) * 129600000)%Z = true ->
   exists n, n <= 62 * length (byDate store) /\
     overallStreak LocalTZA store d0 = Some (Returns n) /\
     qualifies store (walkBack LocalTZA n d0) = false).
Proof.
  intros Hsteady.
  split; [apply habit_goal_positive|].
  split; [apply overallGoalMet_record|]. split.
  - destruct (streakLoop_ends LocalTZA store Hsteady
                (62 * length (byDate store) + 1) d0 0 ltac:(lia)) as (r & E).
    exists r. split; [exact (streakLoop_streakRun LocalTZA store _ d0 0 r E)|].
    intros fuel Hfuel.
    now apply (streakLoop_more_fuel LocalTZA store _ fuel d0 0 r E).
  - intros Hv Hlow.
    destruct (overallStreak_returns LocalTZA store Hsteady d0 Hv Hlow)
      as (n & Hn & E).
    exists n. split; [assumption|]. split; [assumption|].
    unfold overallStreak in E.
    now apply streakLoop_Returns in E as (m & -> & _ & _ & _ & Hstop).
Qed.

Lemma streak_walk_ends_in_berlin :
  exists n, n <= 62 * length (byDate autumnStore) /\
    overallStreak tzBerlin autumnStore (utcMidnight 20024) = Some (Returns n) /\
    qualifies autumnStore (walkBack tzBerlin n (utcMidnight 20024)) = false.
Proof.
  apply (streak_walk_ends_on_steady_hosts tzBerlin autumnStore
           (utcMidnight 20024) tzBerlin_steady); reflexivity.
Defined.

(** C5. On a host in Samoa the walk does not leave 2011-12-31: the local
    day before it was skipped, [prevDate] returns the date it was given,
    and with the goals met on 2011-12-31 the loop of [overallStreak] tests
    the same key again and again; no amount of fuel lets it end, where the
    specification has the walk terminate on every finite store. *)
Theorem streak_walk_stalls_at_date_line_change :
  keyFor (utcMidnight 15339) = Some "2011-12-31" /\
  prevDate tzApia (utcMidnight 15339) 1 = utcMidnight 15339 /\
  overallGoalMet apiaStore "2011-12-31" = true /\
  (forall fuel streak,
     streakLoop tzApia apiaStore fuel (utcMidnight 15339) streak = None) /\
  (forall r, ~ streakRun tzApia apiaStore (utcMidnight 15339) 0 r) /\
  overallStreak tzApia apiaStore (utcMidnight 15339) = None.
Proof.
  assert (Hstall : forall fuel streak,
            streakLoop tzApia apiaStore fuel (utcMidnight 15339) streak = None).
  { intros fuel. induction fuel as [|fuel IH]; intros streak; [reflexivity|].
    change (streakLoop tzApia apiaStore (S fuel) (utcMidnight 15339) streak)
      with (streakLoop tzApia apiaStore fuel (utcMidnight 15339) (streak + 1)).
    apply IH. }
  split; [reflexivity|]. split; [reflexivity|]. split; [reflexivity|].
  split; [exact Hstall|]. split; [|apply Hstall].
  intros r Hrun. apply streakRun_streakLoop in Hrun as (fuel & Hfuel).
  rewrite Hstall in Hfuel. discriminate Hfuel.
Qed.

(* ================================================================== *)
(** * Stale keys *)
(* ================================================================== *)

Lemma forallb_ext_in {A} (f g : A -> bool) (l : list A) :
  (forall x, In x l -> f x = g x) -> List.forallb f l = List.forallb g l.
Proof.
  induction l as [|a l IH]; simpl; intros H; [reflexivity|].
  rewrite (H a) by now left. rewrite IH; [reflexivity|].
  intros x Hx. apply H. now right.
Qed.

Lemma filter_filter_keep {A} (q keep : A -> bool) (l : list A) :
  (forall x, In x l -> q x = true -> keep x = true) ->
  List.filter q (List.filter keep l) = List.filter q l.
Proof.
  induction l as [|a l IH]; simpl; intros H; [reflexivity|].
  assert (IH' : List.filter q (List.filter keep l) = List.filter q l)
    by (apply IH; intros x Hx; apply H; now right).
  destruct (keep a) eqn:Hk; simpl.
  - now rewrite IH'.
  - destruct (q a) eqn:Hq; [|assumption].
    rewrite (H a) in Hk by (auto; now left). discriminate.
Qed.

Lemma isHabitId_habit h : In h HABITS -> isHabitId (Habit.id h) = true.
Proof.
  intros Hh. unfold isHabitId. apply existsb_exists. exists h.
  split; [assumption | apply String.eqb_refl].
Qed.

Section RemoveKeys.
Variable drop : string -> bool -> bool.
Variable store : StoreShape.

Lemma checksOn_removeKeys dateKey :
  checksOn (removeKeys drop store) dateKey =
  List.filter (fun c => negb (drop (fst c) (snd c))) (checksOn store dateKey).
Proof.
  unfold checksOn, removeKeys. cbn [byDate].
  induction (byDate store) as [|[k rec] l IH]; simpl; [reflexivity|].
  destruct (String.eqb k dateKey); [reflexivity | exact IH].
Qed.

Lemma length_byDate_removeKeys :
  length (byDate (removeKeys drop store)) = length (byDate store).
Proof. unfold removeKeys. cbn [byDate]. apply length_map. Qed.

(** Removing entries that are unchecked or attributed to no catalog habit
    does not change what is counted for a catalog habit. *)
Lemma checkedFor_removeKeys dateKey h :
  In h HABITS ->
  (forall k v, drop k v = true -> v = false \/ isHabitId (habitOf k) = false) ->
  checkedFor (Habit.id h) (checksOn (removeKeys drop store) dateKey) =
  checkedFor (Habit.id h) (checksOn store dateKey).
Proof.
  intros Hh Hdrop. rewrite checksOn_removeKeys. unfold checkedFor.
  apply filter_filter_keep. intros [k v] _ Hq. simpl in *.
  apply andb_true_iff in Hq as [-> Hid]. apply String.eqb_eq in Hid.
  destruct (drop k true) eqn:Hd; [|reflexivity].
  destruct (Hdrop k true Hd) as [|Hno]; [discriminate|].
  rewrite Hid, (isHabitId_habit h Hh) in Hno. discriminate.
Qed.

Lemma overallGoalMet_removeKeys dateKey :
  (forall k v, drop k v = true -> v = false \/ isHabitId (habitOf k) = false) ->
  overallGoalMet (removeKeys drop store) dateKey = overallGoalMet store dateKey.
Proof.
  intros Hdrop. rewrite !overallGoalMet_eq. apply forallb_ext_in.
  intros h Hh. now rewrite checkedFor_removeKeys.
Qed.

Lemma streakLoop_removeKeys LocalTZA fuel : forall d s,
  (forall k v, drop k v = true -> v = false \/ isHabitId (habitOf k) = false) ->
  streakLoop LocalTZA (removeKeys drop store) fuel d s =
  streakLoop LocalTZA store fuel d s.
Proof.
  induction fuel as [|fuel IH]; intros d s Hdrop; simpl; [reflexivity|].
  destruct (keyFor d) as [k|]; [|reflexivity].
  rewrite overallGoalMet_removeKeys by assumption.
  destruct (overallGoalMet store k); [now apply IH | reflexivity].
Qed.

Lemma totalPoints_removeKeys dateKey :
  (forall k v, drop k v = true -> v = false) ->
  totalPointsToday (removeKeys drop store) dateKey =
  totalPointsToday store dateKey.
Proof.
  intros Hdrop. unfold totalPointsToday. rewrite !total_count.
  rewrite checksOn_removeKeys. f_equal. f_equal.
  apply filter_filter_keep. intros [k v] _ Hv. simpl in *. subst v.
  destruct (drop k true) eqn:Hd; [|reflexivity].
  now apply Hdrop in Hd.
Qed.

End RemoveKeys.

Lemma unseenStale_unseen k v :
  unseenStale k v = true -> v = false \/ isHabitId (habitOf k) = false.
Proof.
  unfold unseenStale. intros [_ H]%andb_true_iff.
  apply orb_true_iff in H as [H | H]; apply negb_true_iff in H; auto.
Qed.

(** C6, as stated, fails: a checked stale key under a catalog habit is
    counted for that habit ([done] is 1 with the key and 0 without it). *)
Lemma stale_key_is_counted : ~ staleKeysIgnored tzUTC staleStore.
Proof.
  intros (Hprogress & _).
  specialize (Hprogress "2024-03-01" smoking ltac:(now left)).
  vm_compute in Hprogress. discriminate Hprogress.
Qed.

(** What the stale key of [staleStore] changes: the count, percent and
    goal of its habit, the points of the day and the exported rows. *)
Example stale_key_effects :
  let cleaned := removeKeys (fun k _ => staleKey k) staleStore in
  progressForHabit staleStore "2024-03-01" "smoking"
    = Some {| Progress.done := 1; Progress.total := 2; Progress.pct := 50;
              Progress.goalMet := true |} /\
  progressForHabit cleaned "2024-03-01" "smoking"
    = Some {| Progress.done := 0; Progress.total := 2; Progress.pct := 0;
              Progress.goalMet := false |} /\
  totalPointsToday staleStore "2024-03-01" = 10 /\
  totalPointsToday cleaned "2024-03-01" = 0 /\
  nth_error (exportRows (byDate staleStore)) 1
    = Some "2024-03-01,smoking,vaping_free,1" /\
  nth_error (exportRows (byDate cleaned)) 1
    = Some "2024-03-01,smoking,smoke_free,0".
Proof. repeat split. Qed.

Example stale_key_meets_goal :
  let cleaned := removeKeys (fun k _ => staleKey k) staleGoalStore in
  overallGoalMet staleGoalStore "2024-03-01" = true /\
  overallGoalMet cleaned "2024-03-01" = false /\
  overallStreak tzUTC staleGoalStore (utcMidnight 19783) = Some (Returns 1) /\
  overallStreak tzUTC cleaned (utcMidnight 19783) = Some (Returns 0).
Proof. repeat split. Qed.

(** C6, amended. Removing the stale keys that are unchecked or whose
    habit part names no catalog habit leaves the per-habit done count,
    percent and goalMet, the overall goal test and the streak unchanged;
    removing the unchecked stale keys leaves the daily point total
    unchanged. *)
Theorem unseen_stale_keys_are_ignored LocalTZA store :
  (forall dateKey h, In h HABITS ->
     progressForHabit (removeKeys unseenStale store) dateKey (Habit.id h) =
     progressForHabit store dateKey (Habit.id h)) /\
  (forall dateKey,
     overallGoalMet (removeKeys unseenStale store) dateKey =
     overallGoalMet store dateKey) /\
  (forall fuel d s,
     streakLoop LocalTZA (removeKeys unseenStale store) fuel d s =
     streakLoop LocalTZA store fuel d s) /\
  (forall d0,
     overallStreak LocalTZA (removeKeys unseenStale store) d0 =
     overallStreak LocalTZA store d0) /\
  (forall dateKey,
     totalPointsToday
       (removeKeys (fun k v => staleKey k && negb v) store) dateKey =
     totalPointsToday store dateKey).
Proof.
  split; [|split; [|split; [|split]]].
  - intros dateKey h Hh. rewrite !progressForHabit_eq by assumption.
    now rewrite (checkedFor_removeKeys unseenStale store dateKey h Hh
                   unseenStale_unseen).
  - intros dateKey. apply overallGoalMet_removeKeys, unseenStale_unseen.
  - intros fuel d s. apply streakLoop_removeKeys, unseenStale_unseen.
  - intros d0. unfold overallStreak. rewrite length_byDate_removeKeys.
    apply streakLoop_removeKeys, unseenStale_unseen.
  - intros dateKey. apply totalPoints_removeKeys.
    intros k v [_ H]%andb_true_iff. now apply negb_true_iff in H.
Qed.

(* ================================================================== *)
(** * CSV export *)
(* ================================================================== *)

Lemma flat_map_if {A B} (c : A -> bool) (r : A -> B) (l : list A) :
  List.flat_map (fun x => if c x then [r x] else []) l =
  List.map r (List.filter c l).
Proof.
  induction l as [|a l IH]; simpl; [reflexivity|].
  rewrite IH. now destruct (c a).
Qed.

(** The cells of a catalog key are its habit id and its item id. *)
Lemma split_checkKey h it :
  In h HABITS -> In it (Habit.items h) ->
  split "."%char (checkKey (Habit.id h) (Item.id it)) =
  [Habit.id h; Item.id it].
Proof.
  intros Hh Hit. simpl in Hh. decompose [or] Hh; subst; try contradiction;
    simpl in Hit; decompose [or] Hit; subst; try contradiction; reflexivity.
Qed.

Lemma catalogRow_keyRow day h it :
  In h HABITS -> In it (Habit.items h) ->
  catalogRow day h it = keyRow day (checkKey (Habit.id h) (Item.id it)).
Proof.
  intros Hh Hit. unfold catalogRow, keyRow.
  now rewrite (split_checkKey h it Hh Hit).
Qed.

Lemma catalogRows_keyRow day :
  catalogRows day = List.map (keyRow day) catalogKeys.
Proof.
  unfold catalogRows, catalogKeys.
  assert (H : forall hs, incl hs HABITS ->
    List.flat_map (fun h => List.map (catalogRow day h) (Habit.items h)) hs =
    List.map (keyRow day)
      (List.flat_map (fun h =>
         List.map (fun it => checkKey (Habit.id h) (Item.id it))
           (Habit.items h)) hs)).
  { induction hs as [|h hs IH]; intros Hincl; simpl; [reflexivity|].
    rewrite map_app, map_map, IH by (intros x Hx; apply Hincl; now right).
    f_equal. apply map_ext_in. intros it Hit.
    apply catalogRow_keyRow; [apply Hincl; now left | assumption]. }
  apply H, incl_refl.
Qed.

(** The rows added for missing items are the rows of the catalog keys
    that the day's [checks] do not have. *)
Lemma missingRows_keyRow day :
  missingRows day =
  List.map (keyRow day)
    (List.filter (fun k => negb (JSObj.has k (checks day))) catalogKeys).
Proof.
  unfold missingRows, catalogKeys.
  assert (H : forall hs, incl hs HABITS ->
    List.flat_map (fun h =>
      List.flat_map (fun it =>
        if negb (JSObj.has (checkKey (Habit.id h) (Item.id it)) (checks day))
        then [ join "," [Some (date day); Some (Habit.id h);
                         Some (Item.id it); Some "0"] ]
        else []) (Habit.items h)) hs =
    List.map (keyRow day)
      (List.filter (fun k => negb (JSObj.has k (checks day)))
        (List.flat_map (fun h =>
           List.map (fun it => checkKey (Habit.id h) (Item.id it))
             (Habit.items h)) hs))).
  { induction hs as [|h hs IH]; intros Hincl; cbn [List.flat_map];
      [reflexivity|].
    rewrite List.filter_app, map_app, IH by (intros x Hx; apply Hincl; now right).
    f_equal.
    rewrite (flat_map_if
               (fun it => negb (JSObj.has (checkKey (Habit.id h) (Item.id it))
                                  (checks day)))
               (fun it => join "," [Some (date day); Some (Habit.id h);
                                    Some (Item.id it); Some "0"])).
    rewrite filter_map_swap, map_map. apply map_ext_in. intros it Hit.
    apply filter_In in Hit as [Hit Hmiss]. apply negb_true_iff in Hmiss.
    unfold keyRow.
    rewrite (split_checkKey h it (Hincl h ltac:(now left)) Hit).
    assert (Hnone : JSObj.get (checkKey (Habit.id h) (Item.id it)) (checks day)
                    = None).
    { apply get_None. intros Hin. apply has_In in Hin. congruence. }
    now rewrite Hnone. }
  apply H, incl_refl.
Qed.

(** The row written for an entry is the row of its key. *)
Lemma entryRow_keyRow day e :
  JSObj.ownKeysDistinct (checks day) -> In e (checks day) ->
  entryRow day e = keyRow day (fst e).
Proof.
  intros Hnd Hin. destruct e as [k v]. unfold entryRow, keyRow. simpl.
  rewrite (In_get (checks day) k v Hnd Hin). now destruct v.
Qed.

(** Without stale keys a day's rows are the catalog's rows, in some
    order. *)
Lemma dayRows_catalogRows day :
  catalogOnly (checks day) -> JSObj.ownKeysDistinct (checks day) ->
  Permutation (dayRows day) (catalogRows day).
Proof.
  intros Hcat Hnd. unfold dayRows.
  rewrite (map_ext_in (entryRow day) (fun e => keyRow day (fst e)))
    by (intros e He; now apply entryRow_keyRow).
  rewrite <- (map_map fst (keyRow day)).
  rewrite missingRows_keyRow, catalogRows_keyRow, <- map_app.
  apply Permutation_map. fold (JSObj.keys (checks day)).
  apply Stdlib.Sorting.Permutation.NoDup_Permutation.
  - apply List.NoDup_app;
      [exact Hnd | apply List.NoDup_filter, catalogKeys_NoDup |].
    intros k Hk Hin. apply filter_In in Hin as [_ Hmiss].
    apply negb_true_iff in Hmiss. apply has_In in Hk. congruence.
  - apply catalogKeys_NoDup.
  - intros k. rewrite in_app_iff, filter_In. split.
    + intros [Hk | [Hk _]]; [|assumption]. now apply isCatalogKey_In, Hcat.
    + intros Hk. destruct (JSObj.has k (checks day)) eqn:Hhas.
      * left. now apply has_In.
      * right. split; [assumption | reflexivity].
Qed.

Lemma length_catalogRows day : length (catalogRows day) = 8.
Proof. rewrite catalogRows_keyRow, length_map. reflexivity. Qed.

(** C7, as stated, fails: a stale key adds a row of its own (9 data rows
    for one recorded date). *)
Lemma stale_key_adds_a_row : ~ exportHasCatalogRows staleStore.
Proof. intros [Hlen _]. vm_compute in Hlen. discriminate Hlen. Qed.

(** C7, amended. When the [checks] of every record hold catalog keys only,
    the export is the header row [date,habitId,itemId,checked] followed by
    (number of recorded dates) x 8 data rows: for each record, in store
    order, one row [date,habitId,itemId,checked] per catalog sub-habit,
    with [checked] 1 when the key is recorded as true and 0 when it is
    recorded as false or not recorded. *)
Theorem export_rows_of_catalog_stores (store : StoreShape) :
  (forall day, In day (JSObj.values (byDate store)) ->
     catalogOnly (checks day) /\ JSObj.ownKeysDistinct (checks day)) ->
  length catalogKeys = 8 /\
  exportRows (byDate store) =
    "date,habitId,itemId,checked"
      :: List.flat_map dayRows (JSObj.values (byDate store)) /\
  (forall day, In day (JSObj.values (byDate store)) ->
     Permutation (dayRows day) (catalogRows day)) /\
  (forall day h it, In h HABITS -> In it (Habit.items h) ->
     catalogRow day h it =
     (date day ++ "," ++ Habit.id h ++ "," ++ Item.id it ++ "," ++
      match JSObj.get (checkKey (Habit.id h) (Item.id it)) (checks day) with
      | Some true => "1"
      | _ => "0"
      end)%string) /\
  length (exportRows (byDate store)) = 1 + length (byDate store) * 8 /\
  exportHasCatalogRows store.
Proof.
  intros Hwf.
  assert (Hperm : forall day, In day (JSObj.values (byDate store)) ->
            Permutation (dayRows day) (catalogRows day)).
  { intros day Hday. destruct (Hwf day Hday). now apply dayRows_catalogRows. }
  assert (Hlen : length (exportRows (byDate store))
                 = 1 + length (byDate store) * 8).
  { unfold exportRows, JSObj.values. simpl. f_equal.
    clear Hwf. revert Hperm. unfold JSObj.values.
    induction (byDate store) as [|[k day] l IH]; intros Hperm; simpl;
      [reflexivity|].
    rewrite length_app, IH by (intros d Hd; apply Hperm; now right).
    rewrite (Permutation_length (Hperm day ltac:(now left))).
    now rewrite length_catalogRows. }
  split; [reflexivity|]. split; [reflexivity|]. split; [exact Hperm|].
  split; [|split; [exact Hlen|]].
  - intros day h it _ _. reflexivity.
  - split; [|exact Hperm]. rewrite Hlen. reflexivity.
Qed.

Lemma export_rows_of_march_store :
  length (exportRows (byDate marchStore)) = 1 + length (byDate marchStore) * 8.
Proof.
  apply (export_rows_of_catalog_stores marchStore).
  intros day Hday. simpl in Hday.
  decompose [or] Hday; subst; try contradiction;
    (split; [intros k Hk; simpl in Hk; decompose [or] Hk; subst;
               try contradiction; reflexivity
            | apply NoDup_ListNoDup, (bool_decide_unpack _); vm_compute;
              reflexivity]).
Defined.

(* ================================================================== *)
(** * State updates and the data-model invariant *)
(* ================================================================== *)

Lemma checkKey_catalog h it :
  In h HABITS -> In it (Habit.items h) ->
  In (checkKey (Habit.id h) (Item.id it)) catalogKeys.
Proof.
  intros Hh Hit. unfold catalogKeys. apply in_flat_map. exists h.
  split; [assumption|]. apply in_map_iff. eauto.
Qed.

Lemma checksOn_invariant store dateKey :
  storeInvariant store ->
  catalogOnly (checksOn store dateKey) /\
  JSObj.ownKeysDistinct (checksOn store dateKey).
Proof.
  intros [_ Hdays]. unfold checksOn.
  destruct (JSObj.get dateKey (byDate store)) as [rec|] eqn:G.
  - apply Hdays. now apply (get_In_values _ dateKey).
  - split; [intros k [] | constructor].
Qed.

Lemma toggleCheck_byDate store selectedDate habitId itemId :
  byDate (toggleCheck store selectedDate habitId itemId) =
  JSObj.set selectedDate
    {| date := selectedDate;
       checks :=
         JSObj.set (checkKey habitId itemId)
           (negb (default false
                    (JSObj.get (checkKey habitId itemId)
                       (checksOn store selectedDate))))
           (checksOn store selectedDate) |}
    (byDate store).
Proof.
  unfold toggleCheck, checksOn. cbn [byDate].
  now destruct (JSObj.get selectedDate (byDate store)).
Qed.

Lemma toggleCheck_invariant store selectedDate h it :
  In h HABITS -> In it (Habit.items h) ->
  storeInvariant store ->
  storeInvariant (toggleCheck store selectedDate (Habit.id h) (Item.id it)).
Proof.
  intros Hh Hit Hinv.
  destruct (checksOn_invariant store selectedDate Hinv) as [Hcat Hnd].
  destruct Hinv as [Hdates Hdays].
  unfold storeInvariant. rewrite toggleCheck_byDate. split.
  - now apply set_ownKeysDistinct.
  - intros day Hday. apply In_values_set in Hday as [-> | Hday];
      [|now apply Hdays].
    cbn [checks]. split; [|now apply set_ownKeysDistinct].
    intros k Hk. apply In_keys_set in Hk as [-> | Hk]; [|now apply Hcat].
    now apply isCatalogKey_In, checkKey_catalog.
Qed.

Lemma clearDate_invariant store selectedDate :
  storeInvariant store -> storeInvariant (clearDate store selectedDate).
Proof.
  intros [Hdates Hdays]. split; cbn [clearDate byDate].
  - now apply delete_ownKeysDistinct.
  - intros day Hday. apply Hdays. now apply (In_values_delete _ selectedDate).
Qed.

Lemma emptyStore_invariant : storeInvariant emptyStore.
Proof. split; [constructor | intros day []]. Qed.

Lemma resetAll_invariant store confirmed :
  storeInvariant store -> storeInvariant (resetAll store confirmed).
Proof.
  intros Hinv. unfold resetAll.
  destruct confirmed; simpl; [apply emptyStore_invariant | assumption].
Qed.

Lemma reachable_invariant store : reachable store -> storeInvariant store.
Proof.
  induction 1 as [| store d h it _ IH Hh Hit | store d _ IH | store c _ IH].
  - apply emptyStore_invariant.
  - now apply toggleCheck_invariant.
  - now apply clearDate_invariant.
  - now apply resetAll_invariant.
Qed.

(** X1. Ticking a checkbox creates the record of the selected date when
    there is none, flips the ticked key and leaves every other key and
    every other date as they were. *)
Theorem toggleCheck_flips_one_key store selectedDate habitId itemId :
  exists rec,
    JSObj.get selectedDate
      (byDate (toggleCheck store selectedDate habitId itemId)) = Some rec /\
    date rec = selectedDate /\
    JSObj.get (checkKey habitId itemId) (checks rec) =
      Some (negb (default false
                    (JSObj.get (checkKey habitId itemId)
                       (checksOn store selectedDate)))) /\
    (forall k, k <> checkKey habitId itemId ->
       JSObj.get k (checks rec) = JSObj.get k (checksOn store selectedDate)) /\
    (JSObj.get selectedDate (byDate store) = None ->
       checks rec = [(checkKey habitId itemId, true)]) /\
    (forall other, other <> selectedDate ->
       JSObj.get other (byDate (toggleCheck store selectedDate habitId itemId)) =
       JSObj.get other (byDate store)).
Proof.
  rewrite toggleCheck_byDate. eexists. split; [apply get_set_eq|].
  cbn [date checks]. split; [reflexivity|]. split; [apply get_set_eq|].
  split; [|split].
  - intros k Hk. apply get_set_ne. congruence.
  - intros Hnone. unfold checksOn. now rewrite Hnone.
  - intros other Hne. apply get_set_ne. congruence.
Qed.

(** X2. Every store the component reaches from the empty store, by
    ticking catalog checkboxes, clearing dates and resetting, satisfies the
    invariant of the data model; on such a store [done] is the number of
    the habit's items that are checked, and the export has eight rows per
    recorded date. *)
Theorem reachable_stores_hold_catalog_keys store :
  reachable store ->
  storeInvariant store /\
  (forall dateKey h, In h HABITS ->
     exists p, progressForHabit store dateKey (Habit.id h) = Some p /\
       Progress.done p = length (itemsChecked h (checksOn store dateKey)) /\
       Progress.done p <= Progress.total p) /\
  exportHasCatalogRows store.
Proof.
  intros Hreach. pose proof (reachable_invariant store Hreach) as Hinv.
  split; [assumption|]. split.
  - intros dateKey h Hh.
    destruct (checksOn_invariant store dateKey Hinv) as [Hcat Hnd].
    eexists. split; [apply (progressForHabit_eq store dateKey h Hh)|].
    cbn [Progress.done Progress.total].
    rewrite (checkedFor_items h _ Hh Hcat Hnd). split; [reflexivity|].
    unfold itemsChecked. apply List.filter_length_le.
  - destruct Hinv as [_ Hdays].
    assert (Hperm : forall day, In day (JSObj.values (byDate store)) ->
              Permutation (dayRows day) (catalogRows day)).
    { intros day Hday. destruct (Hdays day Hday).
      now apply dayRows_catalogRows. }
    split; [|assumption].
    unfold exportRows. cbn [length]. f_equal.
    clear Hdays. revert Hperm. unfold JSObj.values.
    induction (byDate store) as [|[k day] l IH]; intros Hperm;
      [reflexivity|].
    cbn [List.map List.flat_map length snd]. rewrite length_app.
    rewrite (Permutation_length (Hperm day ltac:(now left))).
    rewrite length_catalogRows.
    rewrite IH by (intros d Hd; apply Hperm; now right).
    rewrite catalogKeys_eq. cbn [length]. lia.
Qed.

Lemma reachable_after_two_ticks :
  storeInvariant
    (toggleCheck (toggleCheck emptyStore "2024-03-01" "eating" "no_sugar")
       "2024-03-01" "smoking" "smoke_free").
Proof.
  apply (reachable_stores_hold_catalog_keys
           (toggleCheck (toggleCheck emptyStore "2024-03-01" "eating" "no_sugar")
              "2024-03-01" "smoking" "smoke_free")).
  apply (reach_toggle _ "2024-03-01" smoking
           {| Item.id := "smoke_free"; Item.label := "Smoke-free today" |});
    [|simpl; tauto|simpl; tauto].
  apply (reach_toggle _ "2024-03-01" eating
           {| Item.id := "no_sugar"; Item.label := "No sugary snacks" |});
    [apply reach_empty|simpl; tauto|simpl; tauto].
Defined.

(** X3. On a host whose offset from UTC never changes the streak is the
    number of consecutive days, walking backward from the reference date,
    whose keys meet the overall goal: it is [n] exactly when the [n] days
    from the reference date backward all qualify and the day before them is
    a valid date that does not; it is 0 when the reference date does not
    qualify, and 1 when the reference date qualifies and the day before
    does not, whatever the store holds for earlier days. *)
Theorem streak_counts_backward_run_on_fixed_offset_hosts
    LocalTZA store (d0 : Date) :
  fixedOffset LocalTZA ->
  (forall n : nat,
     overallStreak LocalTZA store d0 = Some (Returns n) <->
     (forall i : nat, i < n ->
        qualifies store (d0 - Z.of_nat i * msPerDay)%Z = true) /\
     validDate (d0 - Z.of_nat n * msPerDay)%Z = true /\
     qualifies store (d0 - Z.of_nat n * msPerDay)%Z = false) /\
  (forall key, keyFor d0 = Some key -> overallGoalMet store key = false ->
     overallStreak LocalTZA store d0 = Some (Returns 0)) /\
  (forall key prev,
     keyFor d0 = Some key -> keyFor (d0 - msPerDay)%Z = Some prev ->
     overallGoalMet store key = true -> overallGoalMet store prev = false ->
     overallStreak LocalTZA store d0 = Some (Returns 1)) /\
  (forall day i : Z,
     (utcMidnight day - i * msPerDay)%Z = utcMidnight (day - i)).
Proof.
  intros Hfixed. split; [|split; [|split]].
  - intros n. apply overallStreak_fixed, Hfixed.
  - intros key. apply overallStreak_zero.
  - intros key prev Hk Hp Hmet Hnot.
    apply (overallStreak_fixed LocalTZA store Hfixed d0 1).
    change (Z.of_nat 1 * msPerDay)%Z with msPerDay. split; [|split].
    + intros i Hi. replace i with 0 by lia.
      change (Z.of_nat 0 * msPerDay)%Z with 0%Z. rewrite Z.sub_0_r.
      unfold qualifies. now rewrite Hk.
    + exact (keyFor_valid _ prev Hp).
    + unfold qualifies. now rewrite Hp.
  - intros day i. unfold utcMidnight. lia.
Qed.

Lemma streak_of_march_store_in_utc :
  overallStreak tzUTC marchStore (utcMidnight 19783) = Some (Returns 3).
Proof.
  apply (streak_counts_backward_run_on_fixed_offset_hosts tzUTC marchStore
           (utcMidnight 19783) tzUTC_fixed).
  split; [|split; reflexivity].
  intros [|[|[|i]]] Hi; try reflexivity. lia.
Defined.

(* ================================================================== *)
(** * Date keys: the key of a date names its UTC day *)
(* ================================================================== *)

Section KeyFacts.
Local Open Scope Z_scope.

Lemma digitValue_digitChar z : digitValue (digitChar z) = Some (z mod 10).
Proof.
  unfold digitValue. rewrite digitChar_code.
  pose proof (Z.mod_pos_bound z 10 ltac:(lia)) as Hz.
  rewrite Z2N.id by lia.
  replace (48 <=? 48 + z mod 10) with true by (symmetry; apply Z.leb_le; lia).
  replace (48 + z mod 10 <=? 57) with true by (symmetry; apply Z.leb_le; lia).
  cbn [andb]. f_equal. lia.
Qed.

Lemma digitsValue_pad2 m : 0 <= m <= 99 -> digitsValue 0 (pad2 m) = Some m.
Proof.
  intros Hm. cbv [pad2 digitsValue]. rewrite !digitValue_digitChar.
  f_equal. Z.div_mod_to_equations. lia.
Qed.

Lemma digitsValue_pad4 y : 0 <= y <= 9999 -> digitsValue 0 (pad4 y) = Some y.
Proof.
  intros Hy. cbv [pad4 pad2 digitsValue]. rewrite !digitValue_digitChar.
  f_equal. Z.div_mod_to_equations. lia.
Qed.

(** The days from 0000-01-01 to 9999-12-31 are those of the years 0 to
    9999. *)
Lemma civil_four_digit d :
  -719528 <= d < 2932897 -> 0 <= fst (fst (civilFromDays d)) <= 9999.
Proof.
  intros Hd. unfold civilFromDays. cbn [fst].
  set (z := d + 719468).
  set (era := z / 146097).
  set (doe := z - era * 146097).
  assert (Hdoe : 0 <= doe <= 146096)
    by (subst doe era; Z.div_mod_to_equations; lia).
  assert (Hera : -1 <= era <= 24)
    by (subst era z; Z.div_mod_to_equations; lia).
  set (yoe := (doe - doe / 1460 + doe / 36524 - doe / 146096) / 365).
  assert (Hyoe : 0 <= yoe <= 399) by (subst yoe; Z.div_mod_to_equations; lia).
  set (doy := doe - (365 * yoe + yoe / 4 - yoe / 100)).
  assert (Hdoy : 0 <= doy <= 365)
    by (subst doy yoe; Z.div_mod_to_equations; lia).
  set (mp := (5 * doy + 2) / 153).
  assert (Hmp : 0 <= mp <= 11) by (subst mp; Z.div_mod_to_equations; lia).
  assert (Hlo : era = -1 -> yoe = 399 /\ 10 <= mp).
  { intros He. assert (146037 <= doe) by (subst doe z; lia).
    assert (yoe = 399) by (subst yoe; Z.div_mod_to_equations; lia).
    split; [assumption|]. subst mp doy. Z.div_mod_to_equations. lia. }
  assert (Hhi : era = 24 -> yoe = 399 -> mp < 10).
  { intros He Hy. assert (doe < 146037) by (subst doe z; lia).
    subst mp doy. rewrite Hy. Z.div_mod_to_equations. lia. }
  destruct (mp <? 10) eqn:Hlt; [apply Z.ltb_lt in Hlt | apply Z.ltb_ge in Hlt].
  - replace (mp + 3 <=? 2) with false by (symmetry; apply Z.leb_gt; lia).
    lia.
  - replace (mp - 9 <=? 2) with true by (symmetry; apply Z.leb_le; lia).
    lia.
Qed.

Lemma fourDigitYear_days t :
  fourDigitYear t -> -719528 <= t / msPerDay < 2932897.
Proof.
  unfold fourDigitYear, YEAR_0000, YEAR_10000, utcMidnight, msPerDay.
  intros H. Z.div_mod_to_equations. lia.
Qed.

Lemma fourDigitYear_valid t : fourDigitYear t -> validDate t = true.
Proof.
  unfold fourDigitYear, YEAR_0000, YEAR_10000, utcMidnight, msPerDay,
    validDate, MAX_TIME.
  intros H. apply andb_true_iff. rewrite !Z.leb_le. lia.
Qed.

Lemma fourDigitYear_midnight t :
  fourDigitYear t -> fourDigitYear (utcMidnight (t / msPerDay)).
Proof.
  unfold fourDigitYear, YEAR_0000, YEAR_10000, utcMidnight, msPerDay.
  intros H. Z.div_mod_to_equations. lia.
Qed.

(** The key of a date with a four-digit year is [YYYY-MM-DD] for its UTC
    calendar day, and [new Date] reads it back as that day's midnight. *)
Lemma keyFor_four_digit t :
  fourDigitYear t ->
  exists y m dd,
    civilFromDays (t / msPerDay) = (y, m, dd) /\
    keyFor t = Some (pad4 y ++ "-" ++ pad2 m ++ "-" ++ pad2 dd)%string /\
    newDate (pad4 y ++ "-" ++ pad2 m ++ "-" ++ pad2 dd)%string =
      Some (utcMidnight (t / msPerDay)).
Proof.
  intros Ht.
  pose proof (fourDigitYear_valid t Ht) as Hv.
  pose proof (civil_four_digit _ (fourDigitYear_days t Ht)) as Hy.
  pose proof (civil_roundtrip (t / msPerDay)) as Hr.
  unfold keyFor, toISOString. rewrite Hv.
  destruct (civilFromDays (t / msPerDay)) as [[y m] dd] eqn:Ec.
  cbn [fst] in Hy. destruct Hr as (Hr & Hm & Hdd).
  exists y, m, dd. split; [reflexivity|].
  assert (Hiso : isoYear y = pad4 y).
  { unfold isoYear.
    replace (0 <=? y) with true by (symmetry; apply Z.leb_le; lia).
    replace (y <=? 9999) with true by (symmetry; apply Z.leb_le; lia).
    reflexivity. }
  split.
  - unfold isoDate. rewrite Hiso. reflexivity.
  - unfold newDate.
    replace (String.substring 0 4 (pad4 y ++ "-" ++ pad2 m ++ "-" ++ pad2 dd))
      with (pad4 y) by reflexivity.
    replace (String.substring 5 2 (pad4 y ++ "-" ++ pad2 m ++ "-" ++ pad2 dd))
      with (pad2 m) by reflexivity.
    replace (String.substring 8 2 (pad4 y ++ "-" ++ pad2 m ++ "-" ++ pad2 dd))
      with (pad2 dd) by reflexivity.
    replace (String.length (pad4 y ++ "-" ++ pad2 m ++ "-" ++ pad2 dd) =? 10)%nat
      with true by reflexivity.
    replace (String.substring 4 1 (pad4 y ++ "-" ++ pad2 m ++ "-" ++ pad2 dd))
      with "-"%string by reflexivity.
    replace (String.substring 7 1 (pad4 y ++ "-" ++ pad2 m ++ "-" ++ pad2 dd))
      with "-"%string by reflexivity.
    cbn [andb String.eqb Ascii.eqb Bool.eqb].
    rewrite digitsValue_pad4, !digitsValue_pad2 by lia.
    cbv zeta. rewrite Hr, Ec, !Z.eqb_refl. reflexivity.
Qed.

Lemma keyFor_four_digit_inj t t' k :
  fourDigitYear t -> fourDigitYear t' ->
  keyFor t = Some k -> keyFor t' = Some k -> t / msPerDay = t' / msPerDay.
Proof.
  intros Ht Ht' Hk Hk'.
  destruct (keyFor_four_digit t Ht) as (y & m & dd & _ & K & N).
  destruct (keyFor_four_digit t' Ht') as (y' & m' & dd' & _ & K' & N').
  rewrite Hk in K. rewrite Hk' in K'.
  assert (E : Some (utcMidnight (t / msPerDay)) =
              Some (utcMidnight (t' / msPerDay))) by congruence.
  clear N N'. injection E as N'.
  unfold utcMidnight, msPerDay in N'. unfold msPerDay. lia.
Qed.

Lemma keyFor_same_day t t' :
  validDate t = true -> validDate t' = true ->
  t / msPerDay = t' / msPerDay -> keyFor t = keyFor t'.
Proof.
  intros Hv Hv' E. unfold keyFor, toISOString. rewrite Hv, Hv', E.
  destruct (civilFromDays (t' / msPerDay)) as [[y m] dd].
  unfold isoDate.
  assert (H : forall r r',
    String.substring 0 10 (isoYear y ++ "-" ++ pad2 m ++ "-" ++ pad2 dd ++ r) =
    String.substring 0 10 (isoYear y ++ "-" ++ pad2 m ++ "-" ++ pad2 dd ++ r')).
  { intros r r'. unfold isoYear.
    destruct ((0 <=? y) && (y <=? 9999)); [destruct r, r'; reflexivity|].
    destruct (y <? 0); destruct r, r'; reflexivity. }
  f_equal. apply H.
Qed.

End KeyFacts.

(* ================================================================== *)
(** * The date strip *)
(* ================================================================== *)

Lemma totalPossible_eq : totalPossible = 8.
Proof. reflexivity. Qed.

Lemma stripPct_eq total : stripPct total = roundPercent total 8.
Proof. reflexivity. Qed.

Lemma stripPct_le total : total <= 8 -> stripPct total <= 100.
Proof.
  intros H. rewrite stripPct_eq. unfold roundPercent.
  apply Nat.lt_succ_r, Nat.Div0.div_lt_upper_bound. lia.
Qed.

(** A [checks] mapping of distinct catalog keys has at most eight
    entries. *)
Lemma catalogOnly_length cs :
  catalogOnly cs -> JSObj.ownKeysDistinct cs -> length cs <= 8.
Proof.
  intros Hcat Hnd. rewrite <- keys_length.
  change 8 with (length catalogKeys).
  apply List.NoDup_incl_length; [exact Hnd|].
  intros k Hk. apply isCatalogKey_In, Hcat, Hk.
Qed.

Lemma total_le_eight store dateKey :
  storeInvariant store -> Counts.total (getCountsForDate store dateKey) <= 8.
Proof.
  intros Hinv. rewrite total_count.
  destruct (checksOn_invariant store dateKey Hinv) as [Hcat Hnd].
  pose proof (catalogOnly_length _ Hcat Hnd).
  pose proof (List.filter_length_le snd (checksOn store dateKey)). lia.
Qed.

Lemma prevDate_invalid LocalTZA d i :
  validDate d = false -> prevDate LocalTZA d i = d.
Proof. intros H. unfold prevDate. rewrite H. reflexivity. Qed.

Lemma prevDate_fixed_days LocalTZA d i :
  fixedOffset LocalTZA -> validDate d = true ->
  prevDate LocalTZA d i = (d - i * msPerDay)%Z.
Proof.
  intros [off Hoff] Hv. unfold prevDate. rewrite Hv, !Hoff. lia.
Qed.

Lemma stripFrom_skipn LocalTZA store base (a : nat) : forall b cells,
  stripFrom LocalTZA store base (a + b) = Returns cells ->
  stripFrom LocalTZA store base b = Returns (List.skipn a cells).
Proof.
  induction a as [|a IH]; intros b cells H; [exact H|].
  cbn [Nat.add stripFrom] in H.
  destruct (dayCell LocalTZA store base (a + b)); [|discriminate].
  destruct (stripFrom LocalTZA store base (a + b)) eqn:E; [|discriminate].
  injection H as <-. cbn [List.skipn]. apply IH, E.
Qed.

Lemma stripFrom_fixed LocalTZA store base :
  fixedOffset LocalTZA -> validDate base = true ->
  forall n : nat,
  (forall i : nat, i < n -> validDate (base - Z.of_nat i * msPerDay)%Z = true) ->
  exists cells,
    stripFrom LocalTZA store base n = Returns cells /\
    length cells = n /\
    forall j, j < n ->
      exists k,
        keyFor (base - Z.of_nat (n - 1 - j) * msPerDay)%Z = Some k /\
        nth_error cells j =
          Some {| DayCell.key := k;
                  DayCell.label := slice5 k;
                  DayCell.pct :=
                    stripPct (length (List.filter snd (checksOn store k))) |}.
Proof.
  intros Hfix Hbase. induction n as [|n IH]; intros Hv.
  - exists []. repeat split. intros j Hj. lia.
  - destruct IH as (cells & E & Hlen & Hnth); [intros i Hi; apply Hv; lia|].
    destruct (keyFor_of_valid _ (Hv n ltac:(lia))) as [k Hk].
    cbn [stripFrom]. unfold dayCell.
    rewrite (prevDate_fixed_days _ _ _ Hfix Hbase), Hk, E.
    eexists. split; [reflexivity|]. split; [cbn [length]; lia|].
    intros [|j] Hj.
    + exists k. replace (S n - 1 - 0) with n by lia.
      split; [exact Hk|]. cbn [nth_error]. rewrite total_count. reflexivity.
    + destruct (Hnth j ltac:(lia)) as (k' & Hk' & Hc).
      exists k'. replace (S n - 1 - S j) with (n - 1 - j) by lia.
      split; [exact Hk' | exact Hc].
Qed.



(** X6 (prevDate, keyFor, overallStreak, days, last7): an invalid
    selected date stays invalid under [prevDate] and has no key, so on
    every host the streak loop throws in its first iteration and neither
    strip is built. *)
Theorem invalid_selected_date_throws LocalTZA store (d0 : Date) :
  validDate d0 = false ->
  keyFor d0 = None /\
  (forall i, prevDate LocalTZA d0 i = d0) /\
  overallStreak LocalTZA store d0 = Some Throws /\
  (forall r, streakRun LocalTZA store d0 0 r -> r = Throws) /\
  days LocalTZA store d0 = Throws /\
  last7 LocalTZA store d0 = Throws.
Proof.
  intros Hv.
  assert (K : keyFor d0 = None) by (unfold keyFor; rewrite Hv; reflexivity).
  split; [exact K|]. split; [intros i; apply prevDate_invalid, Hv|].
  split; [|split; [|split]].
  - unfold overallStreak. rewrite Nat.add_1_r. cbn [streakLoop].
    rewrite K. reflexivity.
  - intros r Hr. inversion Hr; subst; congruence.
  - unfold days. cbn [stripFrom]. unfold dayCell.
    rewrite (prevDate_invalid _ _ _ Hv), K. reflexivity.
  - unfold last7. cbn [stripFrom]. unfold dayCell.
    rewrite (prevDate_invalid _ _ _ Hv), K. reflexivity.
Qed.

Lemma date_past_the_last_one_throws :
  keyFor (MAX_TIME + 1)%Z = None /\
  (forall i, prevDate tzBerlin (MAX_TIME + 1)%Z i = (MAX_TIME + 1)%Z) /\
  overallStreak tzBerlin marchStore (MAX_TIME + 1)%Z = Some Throws /\
  (forall r, streakRun tzBerlin marchStore (MAX_TIME + 1)%Z 0 r -> r = Throws) /\
  days tzBerlin marchStore (MAX_TIME + 1)%Z = Throws /\
  last7 tzBerlin marchStore (MAX_TIME + 1)%Z = Throws.
Proof.
  apply (invalid_selected_date_throws tzBerlin marchStore (MAX_TIME + 1)%Z).
  reflexivity.
Defined.

(** X7 (days, last7): on a host with a fixed offset from UTC, when the
    selected date and the date 59 days before it are valid, the strip has
    60 cells, cell [j] is the day [59 - j] days before the selected date
    (so the last cell is the selected date), its label is the key without
    its first five characters, and its percentage is the number of checked
    entries of that day out of eight, rounded to the nearest integer.  The
    seven cells of [last7] are the last seven of the strip.  On a store
    that keeps the data-model invariant no percentage exceeds 100. *)
Theorem days_strip_on_fixed_offset_hosts LocalTZA store (base : Date) :
  fixedOffset LocalTZA ->
  validDate base = true ->
  validDate (base - 59 * msPerDay)%Z = true ->
  exists cells,
    days LocalTZA store base = Returns cells /\
    length cells = 60 /\
    (forall j, j < 60 ->
       exists k,
         keyFor (base - Z.of_nat (59 - j) * msPerDay)%Z = Some k /\
         nth_error cells j =
           Some {| DayCell.key := k;
                   DayCell.label := slice5 k;
                   DayCell.pct :=
                     stripPct (length (List.filter snd (checksOn store k))) |}) /\
    (exists k, keyFor base = Some k /\
       option_map DayCell.key (nth_error cells 59) = Some k) /\
    (forall total, nearestHalfUp (100 * total) 8 (stripPct total)) /\
    last7 LocalTZA store base =
      Returns (List.map (fun c => (DayCell.label c, DayCell.pct c))
                 (List.skipn 53 cells)) /\
    (storeInvariant store ->
     forall c, In c cells -> DayCell.pct c <= 100).
Proof.
  intros Hfix Hbase Hlast.
  destruct (stripFrom_fixed LocalTZA store base Hfix Hbase 60)
    as (cells & E & Hlen & Hnth).
  { intros i Hi. apply (validDate_between (base - 59 * msPerDay)%Z _ base);
      [assumption..|]. unfold msPerDay. lia. }
  exists cells. split; [exact E|]. split; [exact Hlen|].
  split; [intros j Hj; replace (59 - j) with (60 - 1 - j) by lia;
          apply Hnth, Hj|].
  split.
  { destruct (Hnth 59 ltac:(lia)) as (k & Hk & Hc).
    exists k. rewrite Hc. split; [|reflexivity].
    rewrite <- Hk. f_equal. cbn. lia. }
  split; [intros total; rewrite stripPct_eq; apply roundPercent_nearest; lia|].
  split.
  - unfold last7. rewrite (stripFrom_skipn LocalTZA store base 53 7 cells E).
    reflexivity.
  - intros Hinv c Hc. apply In_nth_error in Hc as [j Hj].
    assert (Hlt : j < 60).
    { rewrite <- Hlen. apply nth_error_Some. congruence. }
    destruct (Hnth j Hlt) as (k & _ & Hc). rewrite Hc in Hj.
    injection Hj as <-. cbn [DayCell.pct].
    rewrite <- total_count. apply stripPct_le, total_le_eight, Hinv.
Qed.

Lemma days_strip_of_march_store :
  exists cells,
    days tzUTC marchStore (utcMidnight 19783) = Returns cells /\
    length cells = 60 /\
    (forall j, j < 60 ->
       exists k,
         keyFor (utcMidnight 19783 - Z.of_nat (59 - j) * msPerDay)%Z = Some k /\
         nth_error cells j =
           Some {| DayCell.key := k;
                   DayCell.label := slice5 k;
                   DayCell.pct :=
                     stripPct (length (List.filter snd (checksOn marchStore k))) |}) /\
    (exists k, keyFor (utcMidnight 19783) = Some k /\
       option_map DayCell.key (nth_error cells 59) = Some k) /\
    (forall total, nearestHalfUp (100 * total) 8 (stripPct total)) /\
    last7 tzUTC marchStore (utcMidnight 19783) =
      Returns (List.map (fun c => (DayCell.label c, DayCell.pct c))
                 (List.skipn 53 cells)) /\
    (storeInvariant marchStore ->
     forall c, In c cells -> DayCell.pct c <= 100).
Proof.
  apply (days_strip_on_fixed_offset_hosts tzUTC marchStore (utcMidnight 19783)).
  - exists 0%Z. reflexivity.
  - reflexivity.
  - reflexivity.
Defined.

Example last7_of_march_store :
  last7 tzUTC marchStore (utcMidnight 19783) =
  Returns [("02-24", 0); ("02-25", 0); ("02-26", 0); ("02-27", 0);
           ("02-28", 63); ("02-29", 63); ("03-01", 63)].
Proof. vm_compute. reflexivity. Qed.

(* ================================================================== *)
(** * Objects: updates that compose *)
(* ================================================================== *)

Section ObjUpdates.
Context {V : Type}.
Implicit Types (o : list (string * V)) (k : string) (v : V).

Lemma set_set o k v v' : JSObj.set k v (JSObj.set k v' o) = JSObj.set k v o.
Proof.
  induction o as [|[k0 v0] o IH]; cbn [JSObj.set].
  - rewrite String.eqb_refl. reflexivity.
  - destruct (String.eqb k0 k) eqn:E; cbn [JSObj.set]; rewrite E;
      [reflexivity | rewrite IH; reflexivity].
Qed.

Lemma set_same o k v : JSObj.get k o = Some v -> JSObj.set k v o = o.
Proof.
  induction o as [|[k0 v0] o IH]; cbn [JSObj.get JSObj.set]; [discriminate|].
  destruct (String.eqb k0 k); [intros [= ->]; reflexivity|].
  intros H. rewrite (IH H). reflexivity.
Qed.

Lemma set_new o k v : JSObj.get k o = None -> JSObj.set k v o = o ++ [(k, v)].
Proof.
  induction o as [|[k0 v0] o IH]; cbn [JSObj.get JSObj.set]; [reflexivity|].
  destruct (String.eqb k0 k); [discriminate|].
  intros H. rewrite (IH H). reflexivity.
Qed.

Lemma delete_set o k v : JSObj.delete k (JSObj.set k v o) = JSObj.delete k o.
Proof.
  unfold JSObj.delete.
  induction o as [|[k0 v0] o IH]; cbn [JSObj.set List.filter fst].
  - rewrite String.eqb_refl. reflexivity.
  - destruct (String.eqb k0 k) eqn:E; cbn [List.filter fst]; rewrite E;
      cbn [negb]; [reflexivity | rewrite IH; reflexivity].
Qed.

Lemma delete_absent o k : JSObj.get k o = None -> JSObj.delete k o = o.
Proof.
  unfold JSObj.delete.
  induction o as [|[k0 v0] o IH]; cbn [JSObj.get List.filter fst];
    [reflexivity|].
  destruct (String.eqb k0 k); [discriminate|].
  intros H. cbn [negb]. rewrite (IH H). reflexivity.
Qed.

Lemma delete_delete o k : JSObj.delete k (JSObj.delete k o) = JSObj.delete k o.
Proof. apply delete_absent, get_delete_eq. Qed.

(** How many entries pass a test after an update: the entry that [get]
    returns is the one that is replaced. *)
Lemma filter_set_length (q : string * V -> bool) o k v :
  length (List.filter q (JSObj.set k v o)) +
    match JSObj.get k o with
    | Some old => if q (k, old) then 1 else 0
    | None => 0
    end =
  length (List.filter q o) + (if q (k, v) then 1 else 0).
Proof.
  induction o as [|[k0 v0] o IH]; cbn [JSObj.set JSObj.get List.filter].
  - destruct (q (k, v)); cbn [length]; lia.
  - destruct (String.eqb k0 k) eqn:E.
    + apply String.eqb_eq in E as ->. cbn [List.filter].
      destruct (q (k, v)), (q (k, v0)); cbn [length]; lia.
    + cbn [List.filter]. destruct (q (k0, v0)); cbn [length]; lia.
Qed.

End ObjUpdates.

(* ================================================================== *)
(** * Check keys: composing and splitting *)
(* ================================================================== *)

Lemma split_nonempty sep s : split sep s <> [].
Proof.
  destruct s as [|c s]; cbn [split]; [discriminate|].
  destruct (Ascii.eqb c sep); [discriminate|].
  destruct (split sep s); discriminate.
Qed.

Lemma split_noDot s : noDot s = true -> split "."%char s = [s].
Proof.
  induction s as [|c s IH]; cbn [noDot split]; [reflexivity|].
  intros [Hc Hs]%andb_true_iff. apply negb_true_iff in Hc. rewrite Hc.
  rewrite (IH Hs). reflexivity.
Qed.

Lemma split_append h rest :
  noDot h = true ->
  split "."%char (h ++ "." ++ rest)%string = h :: split "."%char rest.
Proof.
  induction h as [|c h IH]; cbn [noDot]; intros Hh.
  - reflexivity.
  - apply andb_true_iff in Hh as [Hc Hh]. apply negb_true_iff in Hc.
    change (String c h ++ "." ++ rest)%string
      with (String c (h ++ "." ++ rest)%string).
    cbn [split]. rewrite Hc, (IH Hh). reflexivity.
Qed.

Lemma habitOf_noDot k : noDot (habitOf k) = true.
Proof.
  unfold habitOf. induction k as [|c k IH]; cbn [split]; [reflexivity|].
  destruct (Ascii.eqb c ".") eqn:E; [reflexivity|].
  destruct (split "." k) as [|w ws]; cbn [hd noDot] in *.
  - rewrite E. reflexivity.
  - rewrite E, IH. reflexivity.
Qed.

Lemma all_parts_noDot s : Forall (fun w => noDot w = true) (split "."%char s).
Proof.
  induction s as [|c s IH]; cbn [split]; [repeat constructor|].
  destruct (Ascii.eqb c ".") eqn:E; [constructor; [reflexivity | exact IH]|].
  destruct (split "." s) as [|w ws].
  - repeat constructor. cbn [noDot]. rewrite E. reflexivity.
  - inversion IH; subst. constructor; [|assumption].
    cbn [noDot]. rewrite E. cbn [negb andb]. assumption.
Qed.

Lemma append_inj_l (h a b : string) : (h ++ a)%string = (h ++ b)%string -> a = b.
Proof.
  induction h as [|c h IH]; cbn [append]; [auto|].
  intros [= H]. auto.
Qed.

Lemma catalog_ids_noDot h :
  In h HABITS ->
  noDot (Habit.id h) = true /\
  forall it, In it (Habit.items h) -> noDot (Item.id it) = true.
Proof.
  intros Hh. cbn in Hh. decompose [or] Hh; subst; try contradiction.
  all: split; [reflexivity|].
  all: intros it Hit; cbn in Hit; decompose [or] Hit; subst;
       try contradiction; reflexivity.
Qed.

(** X8 (toggleCheck, getCountsForDate, exportCSV): the key
    [habitId.itemId] is split back into its two ids exactly when neither
    id contains a dot, and the progress calculator attributes it to
    [habitId] exactly when [habitId] contains none.  The ids of the
    catalog contain no dot, and keys of dot-free habit ids are distinct
    for distinct pairs of ids. *)
Theorem checkKey_splits_back_without_dots habitId itemId :
  (split "."%char (checkKey habitId itemId) = [habitId; itemId] <->
   noDot habitId = true /\ noDot itemId = true) /\
  (hd "" (split "."%char (checkKey habitId itemId)) = habitId <->
   noDot habitId = true) /\
  (noDot habitId = true ->
   split "."%char (checkKey habitId itemId) =
   habitId :: split "."%char itemId) /\
  (forall h, In h HABITS ->
     noDot (Habit.id h) = true /\
     forall it, In it (Habit.items h) -> noDot (Item.id it) = true) /\
  (forall h i, noDot habitId = true -> noDot h = true ->
     checkKey h i = checkKey habitId itemId -> h = habitId /\ i = itemId).
Proof.
  assert (Hhd : hd "" (split "."%char (checkKey habitId itemId)) = habitId ->
                noDot habitId = true).
  { intros H. rewrite <- H. apply (habitOf_noDot (checkKey habitId itemId)). }
  split; [|split; [|split; [|split]]].
  - split.
    + intros H. pose proof (all_parts_noDot (checkKey habitId itemId)) as F.
      rewrite H in F. inversion F as [|? ? F1 F']; subst.
      inversion F' as [|? ? F2 _]; subst. split; assumption.
    + intros [Hh Hi]. unfold checkKey.
      rewrite (split_append _ _ Hh), (split_noDot _ Hi). reflexivity.
  - split; [exact Hhd|].
    intros Hh. unfold checkKey. rewrite (split_append _ _ Hh). reflexivity.
  - intros Hh. unfold checkKey. apply split_append, Hh.
  - apply catalog_ids_noDot.
  - intros h i Hh0 Hh E.
    assert (E' : hd "" (split "."%char (checkKey h i)) =
                 hd "" (split "."%char (checkKey habitId itemId)))
      by (rewrite E; reflexivity).
    unfold checkKey in E'.
    rewrite (split_append _ _ Hh), (split_append _ _ Hh0) in E'.
    cbn [hd] in E'. subst h. split; [reflexivity|].
    unfold checkKey in E. apply append_inj_l in E.
    injection E as E. exact E.
Qed.

(* ================================================================== *)
(** * Ticking, unticking and clearing: what the outputs do *)
(* ================================================================== *)

Lemma checks_day store dateKey : checks (day store dateKey) = checksOn store dateKey.
Proof.
  unfold day, checksOn. destruct (JSObj.get dateKey (byDate store)); reflexivity.
Qed.

Lemma isChecked_eq store dateKey habitId itemId :
  isChecked store dateKey habitId itemId =
  default false (JSObj.get (checkKey habitId itemId) (checksOn store dateKey)).
Proof. unfold isChecked. rewrite checks_day. reflexivity. Qed.

Lemma getCounts_checksOn store dateKey :
  getCountsForDate store dateKey =
  List.fold_left countEntry (checksOn store dateKey)
    {| Counts.perHabit := ∅; Counts.total := 0 |}.
Proof.
  unfold getCountsForDate, checksOn.
  destruct (JSObj.get dateKey (byDate store)); reflexivity.
Qed.

Lemma checksOn_toggle_eq store selectedDate habitId itemId :
  checksOn (toggleCheck store selectedDate habitId itemId) selectedDate =
  JSObj.set (checkKey habitId itemId)
    (negb (isChecked store selectedDate habitId itemId))
    (checksOn store selectedDate).
Proof.
  rewrite isChecked_eq. unfold checksOn at 1.
  rewrite toggleCheck_byDate, get_set_eq. reflexivity.
Qed.

Lemma get_toggle_ne store selectedDate habitId itemId other :
  other <> selectedDate ->
  JSObj.get other (byDate (toggleCheck store selectedDate habitId itemId)) =
  JSObj.get other (byDate store).
Proof.
  intros Hne. rewrite toggleCheck_byDate. apply get_set_ne. congruence.
Qed.

Lemma checksOn_toggle_ne store selectedDate habitId itemId other :
  other <> selectedDate ->
  checksOn (toggleCheck store selectedDate habitId itemId) other =
  checksOn store other.
Proof.
  intros Hne. unfold checksOn. rewrite get_toggle_ne by assumption.
  reflexivity.
Qed.

(** Every derived output of a date is a function of its counts. *)
Lemma outputs_of_counts s1 s2 dateKey :
  getCountsForDate s1 dateKey = getCountsForDate s2 dateKey ->
  (forall habitId,
     progressForHabit s1 dateKey habitId = progressForHabit s2 dateKey habitId) /\
  totalPointsToday s1 dateKey = totalPointsToday s2 dateKey /\
  overallGoalMet s1 dateKey = overallGoalMet s2 dateKey.
Proof.
  intros E. unfold progressForHabit, totalPointsToday, overallGoalMet.
  rewrite E. auto.
Qed.

Lemma counts_of_checksOn s1 s2 dateKey :
  checksOn s1 dateKey = checksOn s2 dateKey ->
  getCountsForDate s1 dateKey = getCountsForDate s2 dateKey.
Proof. intros E. rewrite !getCounts_checksOn, E. reflexivity. Qed.

Lemma streakLoop_of_counts LocalTZA s1 s2 :
  (forall dateKey, overallGoalMet s1 dateKey = overallGoalMet s2 dateKey) ->
  forall fuel d n,
    streakLoop LocalTZA s1 fuel d n = streakLoop LocalTZA s2 fuel d n.
Proof.
  intros E fuel. induction fuel as [|fuel IH]; intros d n; [reflexivity|].
  cbn [streakLoop]. destruct (keyFor d) as [k|]; [|reflexivity].
  rewrite E, IH. reflexivity.
Qed.

Lemma streakRun_of_counts LocalTZA s1 s2 d n r :
  (forall dateKey, overallGoalMet s1 dateKey = overallGoalMet s2 dateKey) ->
  streakRun LocalTZA s1 d n r -> streakRun LocalTZA s2 d n r.
Proof.
  intros E H. induction H as [d n K | d n k K G | d n k r K G _ IH].
  - apply run_throws, K.
  - apply (run_break _ _ _ _ k K). rewrite <- E. exact G.
  - apply (run_next _ _ _ _ k r K); [rewrite <- E; exact G | exact IH].
Qed.

Lemma habit_id_inj h h' :
  In h HABITS -> In h' HABITS -> Habit.id h = Habit.id h' -> h = h'.
Proof.
  intros Hh Hh'. cbn in Hh, Hh'.
  decompose [or] Hh; decompose [or] Hh'; subst; try contradiction;
    intros E; try reflexivity; discriminate E.
Qed.

Lemma habitOf_checkKey_noDot habitId itemId :
  noDot habitId = true -> habitOf (checkKey habitId itemId) = habitId.
Proof.
  intros H. unfold habitOf, checkKey. rewrite (split_append _ _ H).
  reflexivity.
Qed.

(** The number of checked entries of a habit after a box of habit
    [habitId] is ticked or unticked. *)
Lemma checkedFor_toggle store selectedDate habitId itemId h :
  noDot habitId = true ->
  length (checkedFor h
            (checksOn (toggleCheck store selectedDate habitId itemId) selectedDate)) +
    (if isChecked store selectedDate habitId itemId && String.eqb habitId h
     then 1 else 0) =
  length (checkedFor h (checksOn store selectedDate)) +
    (if negb (isChecked store selectedDate habitId itemId) && String.eqb habitId h
     then 1 else 0).
Proof.
  intros Hdot. rewrite checksOn_toggle_eq. unfold checkedFor.
  pose proof (filter_set_length
    (fun e : string * bool => snd e && String.eqb (habitOf (fst e)) h)
    (checksOn store selectedDate) (checkKey habitId itemId)
    (negb (isChecked store selectedDate habitId itemId))) as F.
  cbn [fst snd] in F. rewrite (habitOf_checkKey_noDot _ _ Hdot) in F.
  rewrite isChecked_eq in *.
  destruct (JSObj.get (checkKey habitId itemId) (checksOn store selectedDate))
    as [[|]|]; cbn [from_option id negb andb] in *;
    destruct (String.eqb habitId h); cbn [andb] in *; lia.
Qed.

Lemma total_toggle store selectedDate habitId itemId :
  Counts.total (getCountsForDate
                  (toggleCheck store selectedDate habitId itemId) selectedDate) +
    (if isChecked store selectedDate habitId itemId then 1 else 0) =
  Counts.total (getCountsForDate store selectedDate) +
    (if isChecked store selectedDate habitId itemId then 0 else 1).
Proof.
  rewrite !total_count, checksOn_toggle_eq.
  pose proof (filter_set_length (@snd string bool)
    (checksOn store selectedDate) (checkKey habitId itemId)
    (negb (isChecked store selectedDate habitId itemId))) as F.
  cbn [snd] in F. rewrite isChecked_eq in *.
  destruct (JSObj.get (checkKey habitId itemId) (checksOn store selectedDate))
    as [[|]|]; cbn [from_option id negb] in *; lia.
Qed.

(** X9 (toggleCheck, getCountsForDate, progressForHabit,
    totalPointsToday): ticking a box of a catalog habit raises that
    habit's [done] by one and the day's points by ten, unticking it lowers
    them by as much; the box shows the opposite state afterwards, the
    other boxes and the other habits of that date keep theirs, and no
    other date changes. *)
Theorem toggleCheck_moves_done_by_one store selectedDate h itemId :
  In h HABITS ->
  let next := toggleCheck store selectedDate (Habit.id h) itemId in
  let was := isChecked store selectedDate (Habit.id h) itemId in
  isChecked next selectedDate (Habit.id h) itemId = negb was /\
  (exists p p',
     progressForHabit store selectedDate (Habit.id h) = Some p /\
     progressForHabit next selectedDate (Habit.id h) = Some p' /\
     (if was then Progress.done p = Progress.done p' + 1
      else Progress.done p' = Progress.done p + 1)) /\
  (if was
   then totalPointsToday store selectedDate =
        totalPointsToday next selectedDate + POINTS_PER_ITEM
   else totalPointsToday next selectedDate =
        totalPointsToday store selectedDate + POINTS_PER_ITEM) /\
  (forall h', In h' HABITS -> h' <> h ->
     progressForHabit next selectedDate (Habit.id h') =
     progressForHabit store selectedDate (Habit.id h')) /\
  (forall habitId' itemId',
     checkKey habitId' itemId' <> checkKey (Habit.id h) itemId ->
     isChecked next selectedDate habitId' itemId' =
     isChecked store selectedDate habitId' itemId') /\
  (forall other, other <> selectedDate ->
     getCountsForDate next other = getCountsForDate store other /\
     forall habitId' itemId',
       isChecked next other habitId' itemId' =
       isChecked store other habitId' itemId').
Proof.
  intros Hh next was.
  pose proof (proj1 (catalog_ids_noDot h Hh)) as Hdot.
  split; [|split; [|split; [|split; [|split]]]].
  - subst next was. rewrite (isChecked_eq (toggleCheck _ _ _ _)).
    rewrite checksOn_toggle_eq, get_set_eq. reflexivity.
  - rewrite !(progressForHabit_eq _ _ h Hh). cbv zeta.
    eexists. eexists. split; [reflexivity|]. split; [reflexivity|].
    cbn [Progress.done].
    pose proof (checkedFor_toggle store selectedDate (Habit.id h) itemId
                  (Habit.id h) Hdot) as F.
    rewrite String.eqb_refl, !andb_true_r in F.
    subst next was. destruct (isChecked store selectedDate (Habit.id h) itemId);
      cbn [negb] in F; lia.
  - unfold totalPointsToday, POINTS_PER_ITEM.
    pose proof (total_toggle store selectedDate (Habit.id h) itemId) as F.
    subst next was. destruct (isChecked store selectedDate (Habit.id h) itemId);
      lia.
  - intros h' Hh' Hne. rewrite !(progressForHabit_eq _ _ h' Hh'). cbv zeta.
    pose proof (checkedFor_toggle store selectedDate (Habit.id h) itemId
                  (Habit.id h') Hdot) as F.
    assert (E : String.eqb (Habit.id h) (Habit.id h') = false).
    { apply String.eqb_neq. intros E. apply Hne. symmetry.
      apply habit_id_inj; assumption. }
    rewrite E, !andb_false_r in F. subst next.
    replace (length (checkedFor (Habit.id h')
               (checksOn (toggleCheck store selectedDate (Habit.id h) itemId)
                  selectedDate)))
      with (length (checkedFor (Habit.id h') (checksOn store selectedDate)))
      by lia.
    reflexivity.
  - intros habitId' itemId' Hne. subst next. rewrite !isChecked_eq.
    rewrite checksOn_toggle_eq, get_set_ne by congruence. reflexivity.
  - intros other Hne. subst next. split.
    + apply counts_of_checksOn, checksOn_toggle_ne, Hne.
    + intros habitId' itemId'. rewrite !isChecked_eq.
      rewrite checksOn_toggle_ne by assumption. reflexivity.
Qed.

Lemma ticking_no_sugar_on_march_first :
  let next := toggleCheck marchStore "2024-03-01" (Habit.id eating) "no_sugar" in
  let was := isChecked marchStore "2024-03-01" (Habit.id eating) "no_sugar" in
  isChecked next "2024-03-01" (Habit.id eating) "no_sugar" = negb was /\
  (exists p p',
     progressForHabit marchStore "2024-03-01" (Habit.id eating) = Some p /\
     progressForHabit next "2024-03-01" (Habit.id eating) = Some p' /\
     (if was then Progress.done p = Progress.done p' + 1
      else Progress.done p' = Progress.done p + 1)) /\
  (if was
   then totalPointsToday marchStore "2024-03-01" =
        totalPointsToday next "2024-03-01" + POINTS_PER_ITEM
   else totalPointsToday next "2024-03-01" =
        totalPointsToday marchStore "2024-03-01" + POINTS_PER_ITEM) /\
  (forall h', In h' HABITS -> h' <> eating ->
     progressForHabit next "2024-03-01" (Habit.id h') =
     progressForHabit marchStore "2024-03-01" (Habit.id h')) /\
  (forall habitId' itemId',
     checkKey habitId' itemId' <> checkKey (Habit.id eating) "no_sugar" ->
     isChecked next "2024-03-01" habitId' itemId' =
     isChecked marchStore "2024-03-01" habitId' itemId') /\
  (forall other, other <> "2024-03-01" ->
     getCountsForDate next other = getCountsForDate marchStore other /\
     forall habitId' itemId',
       isChecked next other habitId' itemId' =
       isChecked marchStore other habitId' itemId').
Proof.
  apply (toggleCheck_moves_done_by_one marchStore "2024-03-01" eating "no_sugar").
  cbn. auto.
Defined.

Lemma countEntry_unchecked acc k : countEntry acc (k, false) = acc.
Proof. reflexivity. Qed.

Lemma checksOn_toggle_twice store selectedDate habitId itemId :
  checksOn (toggleCheck (toggleCheck store selectedDate habitId itemId)
              selectedDate habitId itemId) selectedDate =
  JSObj.set (checkKey habitId itemId)
    (isChecked store selectedDate habitId itemId)
    (checksOn store selectedDate).
Proof.
  rewrite checksOn_toggle_eq.
  rewrite (isChecked_eq (toggleCheck _ _ _ _)).
  rewrite checksOn_toggle_eq, get_set_eq. cbn [from_option id].
  rewrite negb_involutive, set_set. reflexivity.
Qed.

Lemma counts_toggle_twice store selectedDate habitId itemId dateKey :
  getCountsForDate
    (toggleCheck (toggleCheck store selectedDate habitId itemId)
       selectedDate habitId itemId) dateKey =
  getCountsForDate store dateKey.
Proof.
  destruct (String.eqb_spec dateKey selectedDate) as [->|Hne].
  - rewrite !getCounts_checksOn, checksOn_toggle_twice, isChecked_eq.
    destruct (JSObj.get (checkKey habitId itemId) (checksOn store selectedDate))
      as [b|] eqn:G; cbn [from_option id].
    + rewrite (set_same _ _ _ G). reflexivity.
    + rewrite (set_new _ _ _ G), List.fold_left_app. reflexivity.
  - apply counts_of_checksOn. rewrite !checksOn_toggle_ne by assumption.
    reflexivity.
Qed.


Lemma getCounts_clear_eq store selectedDate :
  getCountsForDate (clearDate store selectedDate) selectedDate =
  {| Counts.perHabit := ∅; Counts.total := 0 |}.
Proof.
  unfold getCountsForDate, clearDate. cbn [byDate].
  rewrite get_delete_eq. reflexivity.
Qed.

Lemma checksOn_clear_ne store selectedDate other :
  other <> selectedDate ->
  checksOn (clearDate store selectedDate) other = checksOn store other.
Proof.
  intros Hne. unfold checksOn, clearDate. cbn [byDate].
  rewrite get_delete_ne by congruence. reflexivity.
Qed.

(** X11 (the Clear button, composed with toggleCheck and the outputs):
    after a date is cleared all its outputs are those of an empty day (no
    count, zero percent, no goal met, no points, every box unticked, streak
    zero from that date), and the outputs of every other date are as
    before.  Clearing undoes a click on that date up to the record itself:
    click-then-clear equals clear, which is the identity when the date had
    no record; clearing twice is clearing once. *)
Theorem clearDate_empties_the_day LocalTZA store selectedDate :
  let cleared := clearDate store selectedDate in
  getCountsForDate cleared selectedDate =
    {| Counts.perHabit := ∅; Counts.total := 0 |} /\
  (forall h, In h HABITS ->
     progressForHabit cleared selectedDate (Habit.id h) =
     Some {| Progress.done := 0; Progress.total := length (Habit.items h);
             Progress.pct := 0; Progress.goalMet := false |}) /\
  totalPointsToday cleared selectedDate = 0 /\
  overallGoalMet cleared selectedDate = false /\
  (forall h i, isChecked cleared selectedDate h i = false) /\
  (forall d0, keyFor d0 = Some selectedDate ->
     overallStreak LocalTZA cleared d0 = Some (Returns 0)) /\
  (forall other, other <> selectedDate ->
     getCountsForDate cleared other = getCountsForDate store other /\
     forall h i, isChecked cleared other h i = isChecked store other h i) /\
  (forall h i,
     clearDate (toggleCheck store selectedDate h i) selectedDate = cleared) /\
  (JSObj.get selectedDate (byDate store) = None -> cleared = store) /\
  clearDate cleared selectedDate = cleared.
Proof.
  intros cleared.
  pose proof (getCounts_clear_eq store selectedDate) as Hc.
  fold cleared in Hc.
  assert (Hg : overallGoalMet cleared selectedDate = false)
    by (unfold overallGoalMet; rewrite Hc; reflexivity).
  split; [exact Hc|].
  split.
  { intros h Hh. unfold progressForHabit. rewrite Hc, (find_habit h Hh).
    cbn in Hh. decompose [or] Hh; subst; try contradiction; reflexivity. }
  split; [unfold totalPointsToday; rewrite Hc; reflexivity|].
  split; [exact Hg|].
  split.
  { intros h i. rewrite isChecked_eq. unfold checksOn, cleared, clearDate.
    cbn [byDate]. rewrite get_delete_eq. reflexivity. }
  split; [intros d0 K; apply (overallStreak_zero _ _ _ _ K Hg)|].
  split.
  { intros other Hne. split.
    - apply counts_of_checksOn, checksOn_clear_ne, Hne.
    - intros h i. rewrite !isChecked_eq. unfold cleared.
      rewrite checksOn_clear_ne by assumption. reflexivity. }
  split.
  { intros h i. unfold cleared, clearDate. rewrite toggleCheck_byDate.
    rewrite delete_set. reflexivity. }
  split.
  { intros Hnone. unfold cleared, clearDate.
    rewrite (delete_absent _ _ Hnone). destruct store; reflexivity. }
  unfold cleared, clearDate. cbn [byDate]. rewrite delete_delete.
  reflexivity.
Qed.


(* ================================================================== *)
(** * The counts of a day *)
(* ================================================================== *)

Lemma sumCounts_insert (m : gmap string nat) : forall h n,
  sumCounts (<[h := n]> m) + default 0 (m !! h) = sumCounts m + n.
Proof.
  unfold sumCounts.
  assert (Hcomm : forall (j1 j2 : string) (z1 z2 y : nat),
    z1 + (z2 + y) = z2 + (z1 + y)) by (intros; lia).
  induction m as [|i x m Hi IH] using map_ind; intros h n.
  - rewrite map_fold_insert_L, map_fold_empty, lookup_empty; cbn; auto with lia.
  - rewrite (map_fold_insert_L _ _ i x m) by auto.
    destruct (decide (h = i)) as [->|Hne].
    + rewrite insert_insert_eq, lookup_insert_eq.
      rewrite map_fold_insert_L by auto. cbn. lia.
    + rewrite insert_insert_ne by congruence.
      rewrite lookup_insert_ne by congruence.
      rewrite map_fold_insert_L;
        [|auto|rewrite lookup_insert_ne by congruence; exact Hi].
      specialize (IH h n). lia.
Qed.

Lemma fold_countEntry_sum cs : forall acc,
  sumCounts (Counts.perHabit acc) = Counts.total acc ->
  sumCounts (Counts.perHabit (List.fold_left countEntry cs acc)) =
  Counts.total (List.fold_left countEntry cs acc).
Proof.
  induction cs as [|[k v] cs IH]; intros acc Hacc; [exact Hacc|].
  cbn [List.fold_left]. apply IH. destruct v; [|exact Hacc].
  cbn [countEntry negb Counts.perHabit Counts.total].
  pose proof (sumCounts_insert (Counts.perHabit acc)
                (hd "" (split "."%char k))
                (default 0 (Counts.perHabit acc !! hd "" (split "."%char k)) + 1)).
  lia.
Qed.

Lemma fold_countEntry_pos cs : forall acc,
  (forall h n, Counts.perHabit acc !! h = Some n -> 1 <= n) ->
  forall h n,
    Counts.perHabit (List.fold_left countEntry cs acc) !! h = Some n -> 1 <= n.
Proof.
  induction cs as [|[k v] cs IH]; intros acc Hacc; [exact Hacc|].
  cbn [List.fold_left]. apply IH. destruct v; [|exact Hacc].
  cbn [countEntry negb Counts.perHabit]. intros h n.
  destruct (decide (h = hd "" (split "."%char k))) as [->|Hne].
  - rewrite lookup_insert_eq. intros [= <-]. lia.
  - rewrite lookup_insert_ne by congruence. apply Hacc.
Qed.

Lemma checkedFor_dotted h cs : noDot h = false -> checkedFor h cs = [].
Proof.
  intros Hh. unfold checkedFor. induction cs as [|[k v] cs IH]; [reflexivity|].
  cbn [List.filter fst snd].
  replace (String.eqb (habitOf k) h) with false; [rewrite andb_false_r; exact IH|].
  symmetry. apply String.eqb_neq. intros E.
  pose proof (habitOf_noDot k) as Hk. congruence.
Qed.

(** Checked entries are attributed to at most one habit of the catalog;
    those of catalog keys to exactly one. *)
Lemma sum_checkedFor cs :
  list_sum (List.map (fun h => length (checkedFor (Habit.id h) cs)) HABITS) <=
  length (List.filter snd cs) /\
  ((forall k, In (k, true) cs -> isHabitId (habitOf k) = true) ->
   list_sum (List.map (fun h => length (checkedFor (Habit.id h) cs)) HABITS) =
   length (List.filter snd cs)).
Proof.
  cbn [HABITS List.map Habit.id smoking eating exercise].
  unfold list_sum, checkedFor. cbn [List.fold_right].
  induction cs as [|[k v] cs [IH IH']]; [split; [cbn; lia | reflexivity]|].
  cbn [List.filter fst snd].
  assert (IH'' : (forall k0, In (k0, true) ((k, v) :: cs) ->
                    isHabitId (habitOf k0) = true) ->
                 forall k0, In (k0, true) cs -> isHabitId (habitOf k0) = true)
    by (intros H k0 Hk0; apply H; right; exact Hk0).
  destruct v; cbn [andb].
  - split.
    + destruct (String.eqb_spec (habitOf k) "smoking") as [E1|E1];
      destruct (String.eqb_spec (habitOf k) "eating") as [E2|E2];
      destruct (String.eqb_spec (habitOf k) "exercise") as [E3|E3];
      try (exfalso; congruence); cbn [length]; lia.
    + intros H. specialize (IH' (IH'' H)).
      pose proof (H k (or_introl eq_refl)) as Hk.
      unfold isHabitId in Hk.
      cbn [HABITS List.existsb Habit.id smoking eating exercise] in Hk.
      rewrite (String.eqb_sym "smoking"), (String.eqb_sym "eating"),
        (String.eqb_sym "exercise") in Hk.
      destruct (String.eqb_spec (habitOf k) "smoking") as [E1|E1];
      destruct (String.eqb_spec (habitOf k) "eating") as [E2|E2];
      destruct (String.eqb_spec (habitOf k) "exercise") as [E3|E3];
      try (exfalso; congruence); cbn [length orb] in *; try lia;
      discriminate Hk.
  - split; [exact IH | intros H; apply IH', IH'', H].
Qed.

Lemma doneOf_count store dateKey h :
  doneOf store dateKey h = length (checkedFor h (checksOn store dateKey)).
Proof. apply done_count. Qed.

(** X12 (getCountsForDate): the counts of a date.  [total] is the number
    of checked entries of its record; the map holds, for the text before
    the first dot of the checked keys, how many checked keys start with
    it, never a zero and never an id that contains a dot; its counts add up
    to [total]; a date without a record has the empty map and total 0. *)
Theorem getCountsForDate_counts_checked_entries store dateKey :
  let counts := getCountsForDate store dateKey in
  let cs := checksOn store dateKey in
  Counts.total counts = length (List.filter snd cs) /\
  sumCounts (Counts.perHabit counts) = Counts.total counts /\
  (forall h n,
     Counts.perHabit counts !! h = Some n <->
     1 <= n /\
     n = length (List.filter
                   (fun e => snd e && String.eqb (hd "" (split "."%char (fst e))) h)
                   cs)) /\
  (forall h, noDot h = false -> Counts.perHabit counts !! h = None) /\
  (JSObj.get dateKey (byDate store) = None ->
   counts = {| Counts.perHabit := ∅; Counts.total := 0 |}).
Proof.
  intros counts cs.
  assert (Hpos : forall h n, Counts.perHabit counts !! h = Some n -> 1 <= n).
  { subst counts. rewrite getCounts_checksOn. apply fold_countEntry_pos.
    cbn [Counts.perHabit]. intros h n. rewrite lookup_empty. discriminate. }
  assert (Hcount : forall h n,
    Counts.perHabit counts !! h = Some n <->
    1 <= n /\ n = length (checkedFor h cs)).
  { intros h n. pose proof (done_count store dateKey h) as D.
    fold counts cs in D. split.
    - intros E. split; [apply (Hpos h n E)|]. rewrite E in D. exact D.
    - intros [Hn ->]. destruct (Counts.perHabit counts !! h) as [m|];
        cbn [from_option id] in D; [congruence | lia]. }
  split; [apply total_count|].
  split.
  { subst counts. rewrite getCounts_checksOn. apply fold_countEntry_sum.
    reflexivity. }
  split; [exact Hcount|].
  split.
  - intros h Hh. destruct (Counts.perHabit counts !! h) as [n|] eqn:E;
      [|reflexivity].
    apply Hcount in E as [Hn E]. rewrite (checkedFor_dotted h cs Hh) in E.
    cbn [length] in E. lia.
  - intros Hnone. subst counts. unfold getCountsForDate. rewrite Hnone.
    reflexivity.
Qed.

(* ================================================================== *)
(** * Goals and points *)
(* ================================================================== *)

(** X13 (overallGoalMet, progressForHabit, totalPointsToday): the overall
    goal of a date is met exactly when [progressForHabit] reports the goal
    met for each of the three habits, never on a date without a record,
    and then the day has at least 50 points.  On every store the [done]
    of the three habits add up to at most the number of checked entries;
    on a store that keeps the data-model invariant they add up to exactly
    that number, no habit has more done than it has items, and the day has
    at most 80 points. *)
Theorem overallGoalMet_is_every_habit_goal store dateKey :
  (overallGoalMet store dateKey = true <->
   forall h, In h HABITS ->
     exists p, progressForHabit store dateKey (Habit.id h) = Some p /\
               Progress.goalMet p = true) /\
  (JSObj.get dateKey (byDate store) = None ->
   overallGoalMet store dateKey = false) /\
  (forall h, In h HABITS ->
     exists p, progressForHabit store dateKey (Habit.id h) = Some p /\
               Progress.done p = doneOf store dateKey (Habit.id h)) /\
  list_sum (List.map (fun h => doneOf store dateKey (Habit.id h)) HABITS)
    * POINTS_PER_ITEM <= totalPointsToday store dateKey /\
  (overallGoalMet store dateKey = true ->
   5 * POINTS_PER_ITEM <= totalPointsToday store dateKey) /\
  (storeInvariant store ->
   list_sum (List.map (fun h => doneOf store dateKey (Habit.id h)) HABITS)
     * POINTS_PER_ITEM = totalPointsToday store dateKey /\
   totalPointsToday store dateKey <= 8 * POINTS_PER_ITEM /\
   forall h, In h HABITS ->
     doneOf store dateKey (Habit.id h) <= length (Habit.items h)).
Proof.
  pose proof (sum_checkedFor (checksOn store dateKey)) as [Hle Heq].
  assert (Hsum :
    list_sum (List.map (fun h => doneOf store dateKey (Habit.id h)) HABITS) =
    list_sum (List.map (fun h =>
      length (checkedFor (Habit.id h) (checksOn store dateKey))) HABITS)).
  { f_equal. apply List.map_ext. intros h. apply doneOf_count. }
  assert (Hgoal : overallGoalMet store dateKey = true ->
    5 <= list_sum (List.map (fun h => doneOf store dateKey (Habit.id h)) HABITS)).
  { rewrite Hsum, overallGoalMet_eq.
    cbn [HABITS List.forallb List.map Habit.id Habit.dailyGoal
         smoking eating exercise].
    unfold list_sum. cbn [List.fold_right].
    rewrite !andb_true_iff, !Nat.leb_le. lia. }
  split; [|split; [|split; [|split; [|split]]]].
  - rewrite overallGoalMet_eq, forallb_forall. split.
    + intros H h Hh. rewrite (progressForHabit_eq _ _ h Hh). cbv zeta.
      eexists. split; [reflexivity|]. cbn [Progress.goalMet]. apply H, Hh.
    + intros H h Hh. destruct (H h Hh) as (p & Hp & Hg).
      rewrite (progressForHabit_eq _ _ h Hh) in Hp. cbv zeta in Hp.
      injection Hp as <-. exact Hg.
  - intros Hnone. unfold overallGoalMet, getCountsForDate. rewrite Hnone.
    reflexivity.
  - intros h Hh. rewrite (progressForHabit_eq _ _ h Hh). cbv zeta.
    eexists. split; [reflexivity|]. cbn [Progress.done].
    symmetry. apply doneOf_count.
  - unfold totalPointsToday. rewrite Hsum, total_count.
    apply Nat.mul_le_mono_r, Hle.
  - intros Hg. specialize (Hgoal Hg). unfold totalPointsToday.
    rewrite total_count. rewrite Hsum in Hgoal.
    apply Nat.mul_le_mono_r. lia.
  - intros Hinv.
    destruct (checksOn_invariant store dateKey Hinv) as [Hcat Hnd].
    split; [|split].
    + unfold totalPointsToday. rewrite Hsum, total_count. f_equal.
      apply Heq. intros k Hk. apply habitOf_catalog_isHabitId, isCatalogKey_In.
      apply Hcat. apply (List.in_map fst) in Hk. exact Hk.
    + unfold totalPointsToday. apply Nat.mul_le_mono_r, total_le_eight, Hinv.
    + intros h Hh. rewrite doneOf_count, (checkedFor_items h _ Hh Hcat Hnd).
      apply List.filter_length_le.
Qed.


(* ================================================================== *)
(** * The streak and the number of records *)
(* ================================================================== *)

Lemma fourDigitYear_between a b c :
  fourDigitYear a -> fourDigitYear c -> (a <= b <= c)%Z -> fourDigitYear b.
Proof. unfold fourDigitYear. lia. Qed.

(** Qualifying days of four-digit years have distinct keys in the store,
    so a run of them is no longer than the store has records. *)
Lemma run_le_records store (d0 : Date) (n : nat) :
  fourDigitYear d0 ->
  fourDigitYear (d0 - Z.of_nat (length (byDate store)) * msPerDay)%Z ->
  (forall i : nat, i < n ->
     qualifies store (d0 - Z.of_nat i * msPerDay)%Z = true) ->
  n <= length (byDate store).
Proof.
  intros H0 HN Hrun.
  destruct (Nat.le_gt_cases n (length (byDate store))) as [|Hgt];
    [assumption | exfalso].
  set (N := length (byDate store)) in *.
  set (f := fun j : nat => default "" (keyFor (d0 - Z.of_nat j * msPerDay)%Z)).
  assert (Hq : forall j, In j (seq 0 (S N)) ->
             exists k, keyFor (d0 - Z.of_nat j * msPerDay)%Z = Some k /\
                       In k (JSObj.keys (byDate store))).
  { intros j Hj. apply in_seq in Hj. apply qualifies_in_store, Hrun. lia. }
  assert (Hy : forall j, In j (seq 0 (S N)) ->
             fourDigitYear (d0 - Z.of_nat j * msPerDay)%Z).
  { intros j Hj. apply in_seq in Hj.
    apply (fourDigitYear_between _ _ _ HN H0). unfold msPerDay. lia. }
  assert (Hnd : List.NoDup (List.map f (seq 0 (S N)))).
  { apply NoDup_map_NoDup_ForallPairs; [|apply seq_NoDup].
    intros x y Hx Hy' E. unfold f in E.
    destruct (Hq x Hx) as (kx & Hkx & _). destruct (Hq y Hy') as (ky & Hky & _).
    rewrite Hkx, Hky in E. cbn [from_option id] in E. subst ky.
    pose proof (keyFor_four_digit_inj _ _ _ (Hy x Hx) (Hy y Hy') Hkx Hky) as D.
    unfold msPerDay in D.
    rewrite <- !Z.add_opp_r, <- !Z.mul_opp_l, !Z.div_add in D by lia. lia. }
  assert (Hincl : incl (List.map f (seq 0 (S N))) (JSObj.keys (byDate store))).
  { intros k Hk. apply in_map_iff in Hk as (j & <- & Hj).
    destruct (Hq j Hj) as (k & Hk & Hin). unfold f. now rewrite Hk. }
  pose proof (List.NoDup_incl_length Hnd Hincl) as Hlen.
  rewrite length_map, length_seq, keys_length in Hlen. lia.
Qed.

(** A test on the numbers below a bound holds throughout or has a first
    failure. *)
Lemma first_failure (q : nat -> bool) (bound : nat) :
  (forall i, i < bound -> q i = true) \/
  exists m, m < bound /\ (forall i, i < m -> q i = true) /\ q m = false.
Proof.
  induction bound as [|bound [IH | (m & Hm & Hrun & Hstop)]].
  - left. intros i Hi. lia.
  - destruct (q bound) eqn:E.
    + left. intros i Hi. destruct (Nat.eq_dec i bound) as [->|]; [exact E|].
      apply IH. lia.
    + right. exists bound. split; [lia|]. split; [|exact E].
      intros i Hi. apply IH, Hi.
  - right. exists m. split; [lia|]. split; assumption.
Qed.

(** X14 (overallStreak, earnedBadges): on a host with a fixed offset from
    UTC, for reference dates of four-digit years, the streak is computed
    and is at most the number of records in the store, so a badge is
    earned only when the store has at least as many records as its
    threshold.  From one day to the next the streak grows by one or falls
    to zero: when the reference date qualifies its streak is one more than
    that of the day before. *)
Theorem streak_is_at_most_the_number_of_records LocalTZA store (d0 : Date) :
  fixedOffset LocalTZA ->
  fourDigitYear d0 ->
  fourDigitYear (d0 - Z.of_nat (length (byDate store)) * msPerDay)%Z ->
  exists n,
    overallStreak LocalTZA store d0 = Some (Returns n) /\
    n <= length (byDate store) /\
    (forall b, In b BADGES -> In (Badge.id b) (earnedBadges n) ->
       Badge.threshold b <= length (byDate store)) /\
    (forall m, n = S m ->
       overallStreak LocalTZA store (d0 - msPerDay)%Z = Some (Returns m)) /\
    (forall m,
       overallStreak LocalTZA store (d0 - msPerDay)%Z = Some (Returns m) ->
       n = if qualifies store d0 then S m else 0).
Proof.
  intros Hfix H0 HN.
  set (q := fun i : nat => qualifies store (d0 - Z.of_nat i * msPerDay)%Z).
  destruct (first_failure q (S (length (byDate store))))
    as [Hall | (n & Hn & Hrun & Hstop)].
  { pose proof (run_le_records store d0 _ H0 HN Hall). lia. }
  assert (Hv : validDate (d0 - Z.of_nat n * msPerDay)%Z = true).
  { apply fourDigitYear_valid, (fourDigitYear_between _ _ _ HN H0).
    unfold msPerDay. lia. }
  assert (Hs : overallStreak LocalTZA store d0 = Some (Returns n))
    by (apply (overallStreak_fixed LocalTZA store Hfix); auto).
  assert (Hshift : forall i : nat,
    (d0 - msPerDay - Z.of_nat i * msPerDay = d0 - Z.of_nat (S i) * msPerDay)%Z)
    by (intros i; lia).
  exists n. split; [exact Hs|]. split; [lia|]. split; [|split].
  - intros b Hb Hin. apply (earnedBadges_In n b Hb) in Hin. lia.
  - intros m ->. apply (overallStreak_fixed LocalTZA store Hfix).
    split; [|split].
    + intros i Hi. rewrite Hshift. apply (Hrun (S i)). lia.
    + rewrite Hshift. exact Hv.
    + rewrite Hshift. exact Hstop.
  - intros m Hm.
    apply (overallStreak_fixed LocalTZA store Hfix) in Hm
      as (Hrun' & Hv' & Hstop').
    rewrite Hshift in Hv', Hstop'.
    destruct (qualifies store d0) eqn:Q.
    + assert (E : overallStreak LocalTZA store d0 = Some (Returns (S m))).
      { apply (overallStreak_fixed LocalTZA store Hfix).
        split; [|split; assumption].
        intros [|i] Hi.
        - replace (d0 - Z.of_nat 0 * msPerDay)%Z with d0 by lia. exact Q.
        - rewrite <- Hshift. apply Hrun'. lia. }
      congruence.
    + destruct n as [|n]; [reflexivity|].
      pose proof (Hrun 0 ltac:(lia)) as Q'. unfold q in Q'.
      replace (d0 - Z.of_nat 0 * msPerDay)%Z with d0 in Q' by lia. congruence.
Qed.

Lemma streak_of_march_store_is_at_most_three :
  exists n,
    overallStreak tzUTC marchStore (utcMidnight 19783) = Some (Returns n) /\
    n <= length (byDate marchStore) /\
    (forall b, In b BADGES -> In (Badge.id b) (earnedBadges n) ->
       Badge.threshold b <= length (byDate marchStore)) /\
    (forall m, n = S m ->
       overallStreak tzUTC marchStore (utcMidnight 19783 - msPerDay)%Z =
       Some (Returns m)) /\
    (forall m,
       overallStreak tzUTC marchStore (utcMidnight 19783 - msPerDay)%Z =
       Some (Returns m) ->
       n = if qualifies marchStore (utcMidnight 19783) then S m else 0).
Proof.
  apply (streak_is_at_most_the_number_of_records tzUTC marchStore
           (utcMidnight 19783)).
  - exists 0%Z. reflexivity.
  - unfold fourDigitYear, YEAR_0000, YEAR_10000, utcMidnight, msPerDay. lia.
  - unfold fourDigitYear, YEAR_0000, YEAR_10000, utcMidnight, msPerDay.
    cbn [marchStore byDate length]. lia.
Defined.


(* ================================================================== *)
(** * The export of any store *)
(* ================================================================== *)

Lemma entryRow_two_ids day a b v :
  noDot a = true -> noDot b = true ->
  entryRow day (checkKey a b, v) =
  (date day ++ "," ++ a ++ "," ++ b ++ "," ++ (if v then "1" else "0"))%string.
Proof.
  intros Ha Hb. unfold entryRow, checkKey. cbn [fst snd].
  rewrite (split_append _ _ Ha), (split_noDot _ Hb). reflexivity.
Qed.

(** The row of a catalog sub-habit is among the rows of every day. *)
Lemma catalogRow_in_dayRows day h it :
  In h HABITS -> In it (Habit.items h) ->
  In (catalogRow day h it) (dayRows day).
Proof.
  intros Hh Hit. unfold dayRows. apply in_or_app.
  destruct (catalog_ids_noDot h Hh) as [Ha Hb]. specialize (Hb it Hit).
  destruct (JSObj.get (checkKey (Habit.id h) (Item.id it)) (checks day))
    as [v|] eqn:G.
  - left. apply in_map_iff. exists (checkKey (Habit.id h) (Item.id it), v).
    split; [|apply get_In, G].
    rewrite (entryRow_two_ids _ _ _ _ Ha Hb). unfold catalogRow.
    rewrite G. destruct v; reflexivity.
  - right. rewrite missingRows_keyRow, (catalogRow_keyRow day h it Hh Hit).
    apply in_map, filter_In. split; [apply checkKey_catalog; assumption|].
    apply negb_true_iff. destruct (JSObj.has _ _) eqn:E; [|reflexivity].
    apply has_In in E. apply get_None in G. contradiction.
Qed.

(** A day has a row for each of its entries and for each catalog key it
    does not hold: at least eight rows. *)
Lemma length_dayRows day :
  length (dayRows day) =
    length (checks day) +
    length (List.filter (fun k => negb (JSObj.has k (checks day))) catalogKeys) /\
  8 <= length (dayRows day).
Proof.
  assert (E : length (dayRows day) =
    length (checks day) +
    length (List.filter (fun k => negb (JSObj.has k (checks day))) catalogKeys)).
  { unfold dayRows. rewrite length_app, length_map, missingRows_keyRow.
    rewrite length_map. reflexivity. }
  split; [exact E|]. rewrite E.
  pose proof (List.filter_length (fun k => JSObj.has k (checks day)) catalogKeys)
    as Hsplit.
  assert (Hheld :
    length (List.filter (fun k => JSObj.has k (checks day)) catalogKeys) <=
    length (checks day)).
  { rewrite <- (keys_length (checks day)). apply List.NoDup_incl_length.
    - apply List.NoDup_filter, catalogKeys_NoDup.
    - intros k Hk. apply filter_In in Hk as [_ Hk]. apply has_In, Hk. }
  change (length catalogKeys) with 8 in Hsplit.
  cbv [compose] in Hsplit. lia.
Qed.

Lemma length_flat_map_dayRows (recs : list DayRecord) :
  8 * length recs <= length (List.flat_map dayRows recs).
Proof.
  induction recs as [|day recs IH]; [cbn; lia|].
  cbn [List.flat_map length]. rewrite length_app.
  pose proof (proj2 (length_dayRows day)). lia.
Qed.

(** X15 (exportCSV): the export of any store, whatever keys its records
    hold.  The first row is the header; every recorded day has, for every
    sub-habit of the catalog, the row [date,habitId,itemId,flag] whose
    flag is 1 exactly when the key is checked, and a row for each of its
    entries, so at least eight rows; the records are written in the order
    of the store; the export of the empty store is the header alone.  The
    row of an entry holds the first two dot-separated parts of its key: a
    third part is dropped and a missing second part is left empty. *)
Theorem export_of_any_store (byDate : list (string * DayRecord)) :
  nth_error (exportRows byDate) 0 = Some "date,habitId,itemId,checked" /\
  (forall day h it,
     In day (JSObj.values byDate) -> In h HABITS -> In it (Habit.items h) ->
     In (date day ++ "," ++ Habit.id h ++ "," ++ Item.id it ++ "," ++
         match JSObj.get (checkKey (Habit.id h) (Item.id it)) (checks day) with
         | Some true => "1"
         | _ => "0"
         end)%string
        (exportRows byDate)) /\
  (forall day e,
     In day (JSObj.values byDate) -> In e (checks day) ->
     In (entryRow day e) (exportRows byDate)) /\
  1 + 8 * length byDate <= length (exportRows byDate) /\
  (forall more,
     exportRows (byDate ++ more) =
     exportRows byDate ++ List.flat_map dayRows (JSObj.values more)) /\
  exportCSV [] = "date,habitId,itemId,checked" /\
  (forall day a b c v, noDot a = true -> noDot b = true ->
     entryRow day (checkKey a b, v) =
       (date day ++ "," ++ a ++ "," ++ b ++ "," ++ (if v then "1" else "0"))%string /\
     entryRow day (checkKey a (checkKey b c), v) = entryRow day (checkKey a b, v) /\
     entryRow day (a, v) =
       (date day ++ "," ++ a ++ ",," ++ (if v then "1" else "0"))%string).
Proof.
  assert (Hin : forall day row,
    In day (JSObj.values byDate) -> In row (dayRows day) ->
    In row (exportRows byDate)).
  { intros day row Hday Hrow. unfold exportRows. right.
    apply in_flat_map. exists day. split; assumption. }
  split; [reflexivity|].
  split.
  { intros day h it Hday Hh Hit. apply (Hin day _ Hday).
    apply (catalogRow_in_dayRows day h it Hh Hit). }
  split.
  { intros day e Hday He. apply (Hin day _ Hday). unfold dayRows.
    apply in_or_app. left. apply in_map, He. }
  split.
  { unfold exportRows. cbn [length].
    pose proof (length_flat_map_dayRows (JSObj.values byDate)) as H.
    unfold JSObj.values in H at 1. rewrite length_map in H. lia. }
  split.
  { intros more. unfold exportRows, JSObj.values.
    rewrite map_app, flat_map_app. reflexivity. }
  split; [reflexivity|].
  intros day a b c v Ha Hb. split; [apply entryRow_two_ids; assumption|].
  split.
  - rewrite (entryRow_two_ids _ _ _ _ Ha Hb).
    unfold entryRow, checkKey. cbn [fst snd].
    rewrite (split_append _ _ Ha), (split_append _ _ Hb). reflexivity.
  - unfold entryRow. cbn [fst snd]. rewrite (split_noDot _ Ha). reflexivity.
Qed.


(* ================================================================== *)
(** * The date strip on a host with daylight-saving time *)
(* ================================================================== *)

(** Every cell of a strip is the cell of one of its iterations. *)
Lemma stripFrom_cells LocalTZA store base (n : nat) : forall cells,
  stripFrom LocalTZA store base n = Returns cells ->
  length cells = n /\
  forall c, In c cells ->
    exists i : nat, i < n /\
      keyFor (prevDate LocalTZA base (Z.of_nat i)) = Some (DayCell.key c).
Proof.
  induction n as [|n IH]; intros cells H; cbn [stripFrom] in H.
  - injection H as <-. split; [reflexivity | intros c []].
  - unfold dayCell in H.
    destruct (keyFor (prevDate LocalTZA base (Z.of_nat n))) as [k|] eqn:K;
      [|discriminate].
    destruct (stripFrom LocalTZA store base n) as [cells'|]; [|discriminate].
    injection H as <-. destruct (IH cells' eq_refl) as [Hlen Hc].
    split; [cbn [length]; lia|].
    intros c [<- | Hin].
    + exists n. split; [lia | exact K].
    + destruct (Hc c Hin) as (i & Hi & Hk). exists i. split; [lia | exact Hk].
Qed.

Lemma stripFrom_returns LocalTZA store base (n : nat) :
  (forall i : nat, i < n ->
     validDate (prevDate LocalTZA base (Z.of_nat i)) = true) ->
  exists cells, stripFrom LocalTZA store base n = Returns cells.
Proof.
  induction n as [|n IH]; intros Hv; [eexists; reflexivity|].
  destruct IH as [cells E]; [intros i Hi; apply Hv; lia|].
  destruct (keyFor_of_valid _ (Hv n ltac:(lia))) as [k K].
  cbn [stripFrom]. unfold dayCell. rewrite K, E. eexists. reflexivity.
Qed.

(** In Berlin, seen from midnight UTC of a day between the end of summer
    time (2024-10-27) and its next start (2025-03-30), the date [i] days
    back, for the [i] of the strip, falls at 23:00 UTC of the day before
    when it lies before the change.  All times involved lie between
    2024-08-30 and 2025-03-29, where [tzBerlin] is the offset of
    Europe/Berlin. *)
Lemma prevDate_berlin_after_change (D i : Z) :
  (20024 <= D <= 20176)%Z -> (0 <= i <= 59)%Z ->
  prevDate tzBerlin (utcMidnight D) i =
  (if (D - i <=? 20023)%Z then utcMidnight (D - i) - 3600000
   else utcMidnight (D - i))%Z.
Proof.
  intros HD Hi. unfold prevDate.
  replace (validDate (utcMidnight D)) with true.
  2:{ symmetry. unfold validDate, MAX_TIME, utcMidnight, msPerDay.
      apply andb_true_iff. rewrite !Z.leb_le. lia. }
  unfold tzBerlin, utcMidnight, msPerDay. cbv zeta.
  replace (D * 86400000 <? 1729990800000)%Z with false
    by (symmetry; apply Z.ltb_ge; lia).
  destruct (D - i <=? 20023)%Z eqn:E;
    [apply Z.leb_le in E | apply Z.leb_gt in E].
  - replace (D * 86400000 + 3600000 - i * 86400000 <? 1729998000000)%Z
      with true by (symmetry; apply Z.ltb_lt; lia).
    lia.
  - replace (D * 86400000 + 3600000 - i * 86400000 <? 1729998000000)%Z
      with false by (symmetry; apply Z.ltb_ge; lia).
    lia.
Qed.

Example berlin_strip_window :
  keyFor (utcMidnight 20024) = Some "2024-10-28" /\
  keyFor (utcMidnight 20176) = Some "2025-03-29" /\
  keyFor (utcMidnight (20024 - 59)) = Some "2024-08-30" /\
  keyFor (utcMidnight (20023 + 59)) = Some "2024-12-25".
Proof. repeat split. Qed.

(** X16 (days, prevDate on a host with daylight-saving time): in Berlin,
    for every selected date from 2024-10-28 (the day after summer time
    ended) to 2025-03-29 (the day before it starts again), the strip is
    built and has 60 cells, but the cell of a date before the change shows
    the key of the day before it: going back [i] days from the selected
    day [D] gives the key of day [D - i - 1] as soon as [D - i] is
    2024-10-27 or earlier.  So no cell of the strip has the key
    2024-10-27, which lies within the 60 days of the strip up to the
    selected date 2024-12-25.  The days are counted from 1970-01-01:
    2024-10-27 is day 20023 and 2025-03-29 is day 20176. *)
Theorem days_strip_skips_the_day_summer_time_ends store (D : Z) :
  (20024 <= D <= 20176)%Z ->
  keyFor (utcMidnight 20023) = Some "2024-10-27" /\
  (forall i : nat, (Z.of_nat i <= 59)%Z ->
     keyFor (prevDate tzBerlin (utcMidnight D) (Z.of_nat i)) =
     keyFor (utcMidnight (if (D - Z.of_nat i <=? 20023)%Z
                          then D - Z.of_nat i - 1 else D - Z.of_nat i))) /\
  exists cells,
    days tzBerlin store (utcMidnight D) = Returns cells /\
    length cells = 60 /\
    forall c, In c cells -> DayCell.key c <> "2024-10-27".
Proof.
  intros HD.
  assert (Hvalid : forall d : Z, (-719528 <= d < 2932897)%Z ->
            fourDigitYear (utcMidnight d)).
  { intros d Hd. unfold fourDigitYear, YEAR_0000, YEAR_10000, utcMidnight,
      msPerDay. lia. }
  assert (Hkey : forall i : nat, (Z.of_nat i <= 59)%Z ->
     validDate (prevDate tzBerlin (utcMidnight D) (Z.of_nat i)) = true /\
     keyFor (prevDate tzBerlin (utcMidnight D) (Z.of_nat i)) =
     keyFor (utcMidnight (if (D - Z.of_nat i <=? 20023)%Z
                          then D - Z.of_nat i - 1 else D - Z.of_nat i))).
  { intros i Hi. rewrite prevDate_berlin_after_change by lia.
    destruct (D - Z.of_nat i <=? 20023)%Z.
    - assert (Hv : validDate (utcMidnight (D - Z.of_nat i) - 3600000)%Z = true).
      { unfold validDate, MAX_TIME, utcMidnight, msPerDay.
        apply andb_true_iff. rewrite !Z.leb_le. lia. }
      split; [exact Hv|]. apply keyFor_same_day; [exact Hv| |].
      + apply fourDigitYear_valid, Hvalid. lia.
      + unfold utcMidnight, msPerDay. Z.div_mod_to_equations. lia.
    - split; [|reflexivity]. apply fourDigitYear_valid, Hvalid. lia. }
  split; [reflexivity|]. split; [intros i Hi; apply Hkey, Hi|].
  destruct (stripFrom_returns tzBerlin store (utcMidnight D) 60) as [cells E].
  { intros i Hi. apply Hkey. lia. }
  exists cells. split; [exact E|].
  destruct (stripFrom_cells _ _ _ _ _ E) as [Hlen Hcells].
  split; [exact Hlen|].
  intros c Hc Heq. destruct (Hcells c Hc) as (i & Hi & K).
  rewrite (proj2 (Hkey i ltac:(lia))), Heq in K.
  assert (K' : keyFor (utcMidnight 20023) = Some "2024-10-27") by reflexivity.
  set (d := (if (D - Z.of_nat i <=? 20023)%Z
             then D - Z.of_nat i - 1 else D - Z.of_nat i)%Z) in *.
  assert (Hd : (-719528 <= d < 2932897)%Z /\ d <> 20023%Z).
  { subst d. destruct (D - Z.of_nat i <=? 20023)%Z eqn:E';
      [apply Z.leb_le in E' | apply Z.leb_gt in E']; lia. }
  pose proof (keyFor_four_digit_inj _ _ _
    (Hvalid d (proj1 Hd)) (Hvalid 20023%Z ltac:(lia)) K K') as Hday.
  unfold utcMidnight, msPerDay in Hday. rewrite !Z.div_mul in Hday by lia.
  destruct Hd as [_ Hd]. contradiction.
Qed.

Lemma days_strip_in_berlin_on_october_28 :
  keyFor (utcMidnight 20023) = Some "2024-10-27" /\
  (forall i : nat, (Z.of_nat i <= 59)%Z ->
     keyFor (prevDate tzBerlin (utcMidnight 20024) (Z.of_nat i)) =
     keyFor (utcMidnight (if (20024 - Z.of_nat i <=? 20023)%Z
                          then 20024 - Z.of_nat i - 1 else 20024 - Z.of_nat i))) /\
  exists cells,
    days tzBerlin autumnStore (utcMidnight 20024) = Returns cells /\
    length cells = 60 /\
    forall c, In c cells -> DayCell.key c <> "2024-10-27".
Proof.
  apply (days_strip_skips_the_day_summer_time_ends autumnStore 20024%Z). lia.
Defined.

Example last7_in_berlin_on_october_28 :
  last7 tzBerlin autumnStore (utcMidnight 20024) =
  Returns [("10-21", 0); ("10-22", 0); ("10-23", 0); ("10-24", 0);
           ("10-25", 0); ("10-26", 63); ("10-28", 63)].
Proof. vm_compute. reflexivity. Qed.
